(** * FARM language-model adapters: model loading, pooling, word embeddings

    A shallow embedding of [farm/modeling/language_model.py]:
    the generic [LanguageModel.load] dispatch, [formatted_preds] and
    [_pool_tokens], the per-family [forward] wrappers, the word-embedding
    reader [EmbeddingModel.load_vectors] and the save/load pair.

    Code of the repository is transliterated.  The deep-learning libraries it
    calls (transformers, torch, numpy) are represented by the operations of
    the classes [Numeric] and [Library] below. *)

From Stdlib Require Import ZArith String Ascii List Lia Bool.
From stdpp Require Import gmap strings list fin_maps pretty.

Local Open Scope string_scope.
Local Open Scope list_scope.

(** ** Python strings *)

(** [pat in s] on Python strings: [pat] occurs as a contiguous substring. *)
Fixpoint contains (pat s : string) : bool :=
  String.prefix pat s ||
  match s with
  | EmptyString => false
  | String _ s' => contains pat s'
  end.

(** [str.lower] on the ASCII letters.  The patterns it is used with
    ("word2vec", "glove") contain no letter that a non-ASCII character
    lower-cases to, so the restriction does not change any test below. *)
Definition lower_ascii (c : ascii) : ascii :=
  let n := nat_of_ascii c in
  if (65 <=? n)%nat && (n <=? 90)%nat then ascii_of_nat (n + 32) else c.

Fixpoint lower (s : string) : string :=
  match s with
  | EmptyString => EmptyString
  | String c s' => String (lower_ascii c) (lower s')
  end.

(** ** Exceptions and logging *)

(** The values a configuration attribute, a JSON member or a keyword
    argument takes; [JNull] is [None]. *)
Inductive jval : Type :=
  | JNull
  | JBool (b : bool)
  | JNum (n : Z)
  | JStr (s : string).

Global Instance jval_eq_dec : EqDecision jval.
Proof. solve_decision. Defined.

Inductive exn : Type :=
  | KeyError (key : jval)
  | ModelNotFound (msg : string)
  | ValueError (msg : string)
  | AssertionError (msg : string)
  | NotImplementedError
  | AttributeError (attr : string)
  | IndexError
  | TypeError
  | UnboundLocalError
  | FileNotFoundError (path : string)
  | LibraryError (msg : string).

Inductive level : Type := DEBUG | INFO | WARNING.

Record log_record : Type := LogRecord { log_level : level; log_msg : string }.

(** A computation either raises or returns, and in both cases leaves the
    records it logged on the way. *)
Definition M (A : Type) : Type := (exn + A) * list log_record.

Definition ret {A} (a : A) : M A := (inr a, []).
Definition raise {A} (e : exn) : M A := (inl e, []).
Definition logger (l : level) (msg : string) : M unit := (inr tt, [LogRecord l msg]).

Definition bind {A B} (m : M A) (k : A -> M B) : M B :=
  match m with
  | (inl e, l) => (inl e, l)
  | (inr a, l) => let '(r, l') := k a in (r, l ++ l')
  end.

Notation "'let*' x := m 'in' k" := (bind m (fun x => k))
  (at level 10, x pattern, m at level 100, k at level 200,
   format "'[v' 'let*'  x  :=  m  'in' '/' k ']'").
Notation "m ;; k" := (bind m (fun _ => k))
  (at level 100, k at level 200, right associativity).

Definition outcome {A} (m : M A) : exn + A := fst m.
Definition logged {A} (m : M A) : list log_record := snd m.

(** ** The registry of adapter classes *)

Inductive LMClass : Type :=
  | Bert | Albert | Roberta | XLMRoberta | DistilBert | XLNet | WordEmbedding_LM.

Global Instance LMClass_eq_dec : EqDecision LMClass.
Proof. solve_decision. Defined.

(** [cls.__name__] *)
Definition class_name (c : LMClass) : string :=
  match c with
  | Bert => "Bert"
  | Albert => "Albert"
  | Roberta => "Roberta"
  | XLMRoberta => "XLMRoberta"
  | DistilBert => "DistilBert"
  | XLNet => "XLNet"
  | WordEmbedding_LM => "WordEmbedding_LM"
  end.

Definition all_classes : list LMClass :=
  [Bert; Albert; Roberta; XLMRoberta; DistilBert; XLNet; WordEmbedding_LM].

(** [LanguageModel.subclasses]: filled by [__init_subclass__] with one entry
    per class statement, keyed by the class name. *)
Definition subclasses : gmap string LMClass :=
  list_to_map (map (fun c => (class_name c, c)) all_classes).

(** [cls.subclasses[key]] *)
Definition subclasses_getitem (key : jval) : M LMClass :=
  match key with
  | JStr k =>
      match subclasses !! k with
      | Some c => ret c
      | None => raise (KeyError key)
      end
  | _ => raise (KeyError key)
  end.

(** Lines 121-137 of [LanguageModel.load]: the class name inferred from the
    identifier when the caller supplied none. *)
Definition infer_language_model_class (pretrained_model_name_or_path : string)
  : jval :=
  let p := pretrained_model_name_or_path in
  if contains "xlm" p && contains "roberta" p then JStr "XLMRoberta"
  else if contains "roberta" p then JStr "Roberta"
  else if contains "albert" p then JStr "Albert"
  else if contains "distilbert" p then JStr "DistilBert"
  else if contains "bert" p then JStr "Bert"
  else if contains "xlnet" p then JStr "XLNet"
  else if contains "word2vec" (lower p) || contains "glove" (lower p)
       then JStr "WordEmbedding_LM"
  else JNull.

(** ** Numbers and tensors *)

(** The element type of the arrays and the library operations on it.  The
    code never looks inside a number; it selects, masks and hands over to
    the reductions of numpy. *)
Class Numeric (F : Type) : Type := {
  fzero : F;
  fadd : F -> F -> F;
  (** a sum divided by the number of its terms *)
  fdiv : F -> nat -> F;
  fmax : F -> F -> F;
  (** what [.data] holds under a result of [mean] / [max] all of whose
      inputs were masked *)
  masked_mean_data : F;
  masked_max_data : F;
  (** [np.fromstring(text, sep=' ')]; [None] when it raises *)
  fromstring : string -> option (list F);
  (** ["%.6f" % v] *)
  format_6f : F -> string;
}.

(** An n-dimensional array is its shape and its indexing function. *)
Record Tensor2 (A : Type) : Type := MkTensor2 {
  rows : nat;
  cols : nat;
  at2 : nat -> nat -> A;
}.
Arguments MkTensor2 {A}.
Arguments rows {A}.
Arguments cols {A}.
Arguments at2 {A}.

Record Tensor3 (A : Type) : Type := MkTensor3 {
  dim0 : nat;
  dim1 : nat;
  dim2 : nat;
  at3 : nat -> nat -> nat -> A;
}.
Arguments MkTensor3 {A}.
Arguments dim0 {A}.
Arguments dim1 {A}.
Arguments dim2 {A}.
Arguments at3 {A}.

(** Iterating over a 2-d array yields its rows; over a 3-d array, its
    items, each a matrix. *)
Definition rows_of {A} (t : Tensor2 A) : list (list A) :=
  map (fun i => map (fun k => at2 t i k) (seq 0 (cols t))) (seq 0 (rows t)).

Definition items_of {A} (t : Tensor3 A) : list (list (list A)) :=
  map (fun i => map (fun j => map (fun k => at3 t i j k) (seq 0 (dim2 t)))
                    (seq 0 (dim1 t)))
      (seq 0 (dim0 t)).

(** The token vector of item [i] at position [j]. *)
Definition token_vector {A} (t : Tensor3 A) (i j : nat) : list A :=
  map (fun k => at3 t i j k) (seq 0 (dim2 t)).

Section Pooling.
Context {F : Type} {N : Numeric F}.

Definition fsum (xs : list F) : F := fold_right fadd fzero xs.

(** The unweighted arithmetic mean of a sequence of numbers, and of a
    sequence of vectors along the sequence axis. *)
Definition arithmetic_mean (xs : list F) : F := fdiv (fsum xs) (length xs).

Definition unweighted_mean (t : Tensor3 F) (i : nat) : list F :=
  map (fun k => arithmetic_mean (map (fun j => at3 t i j k) (seq 0 (dim1 t))))
      (seq 0 (dim2 t)).

(** The entries of item [i], coordinate [k], that the mask leaves in. *)
Definition unmasked (t : Tensor3 F) (ignore : nat -> nat -> nat -> bool)
    (i k : nat) : list F :=
  map (fun j => at3 t i j k)
      (List.filter (fun j => negb (ignore i j k)) (seq 0 (dim1 t))).

(** [np.ma.array(data, mask).mean(axis=1).data]: masked entries are left
    out of the mean. *)
Definition ma_mean_axis1 (t : Tensor3 F) (ignore : nat -> nat -> nat -> bool)
  : list (list F) :=
  map (fun i =>
         map (fun k =>
                match unmasked t ignore i k with
                | [] => masked_mean_data
                | vals => fdiv (fsum vals) (length vals)
                end)
             (seq 0 (dim2 t)))
      (seq 0 (dim0 t)).

(** [np.ma.array(data, mask).max(axis=1).data]; numpy refuses to take the
    maximum along an axis of size zero. *)
Definition ma_max_axis1 (t : Tensor3 F) (ignore : nat -> nat -> nat -> bool)
  : M (list (list F)) :=
  if (dim1 t =? 0)%nat then
    raise (ValueError "zero-size array to reduction operation maximum which has no identity")
  else
    ret (map (fun i =>
                map (fun k =>
                       match unmasked t ignore i k with
                       | [] => masked_max_data
                       | v :: vals => fold_left fmax vals v
                       end)
                    (seq 0 (dim2 t)))
             (seq 0 (dim0 t))).

(** [LanguageModel._pool_tokens] *)
Definition _pool_tokens (sequence_output : Tensor3 F)
    (padding_mask : option (Tensor2 Z)) (strategy : string)
    (ignore_first_token : bool) : M (list (list F)) :=
  let token_vecs := sequence_output in
  match padding_mask with
  | None => raise (AttributeError "cpu")
  | Some padding_mask =>
      let ignore_mask_2d := fun i j => (at2 padding_mask i j =? 0)%Z in
      let* ignore_mask_2d :=
        (if ignore_first_token then
           if (cols padding_mask =? 0)%nat then raise IndexError
           else ret (fun i j => if (j =? 0)%nat then true else ignore_mask_2d i j)
         else ret ignore_mask_2d) in
      (* ignore_mask_3d[:, :, :] = ignore_mask_2d[:, :, np.newaxis] *)
      let fits (n m : nat) := (n =? m)%nat || (n =? 1)%nat in
      if negb (fits (rows padding_mask) (dim0 token_vecs)
               && fits (cols padding_mask) (dim1 token_vecs)) then
        raise (ValueError "could not broadcast input array")
      else
        let ignore_mask_3d := fun i j (_ : nat) =>
          ignore_mask_2d (if (rows padding_mask =? 1)%nat then 0%nat else i)
                         (if (cols padding_mask =? 1)%nat then 0%nat else j) in
        if String.eqb strategy "reduce_max" then
          ma_max_axis1 token_vecs ignore_mask_3d
        else if String.eqb strategy "reduce_mean" then
          ret (ma_mean_axis1 token_vecs ignore_mask_3d)
        else raise UnboundLocalError
  end.

(** What [formatted_preds] reads of its receiver: the two attributes the
    Inferencer sets, absent until then. *)
Record Extraction : Type := MkExtraction {
  extraction_layer : option Z;
  extraction_strategy : option string;
}.

(** One output tuple of a forward pass. *)
Record LMOutput : Type := MkLMOutput {
  sequence_output : Tensor3 F;
  pooled_output : Tensor2 F;
}.

Record Sample : Type := MkSample { tokens : list string }.

(** A prediction's vector is one vector, or under ["per_token"] one per token. *)
Inductive pred_vec : Type :=
  | Vec (v : list F)
  | Vecs (vs : list (list F)).

Record Pred : Type := MkPred { context : list string; vec : pred_vec }.

(** The loop at the end of [formatted_preds]; [zip] stops at the shorter. *)
Fixpoint zip_preds (vecs : list pred_vec) (samples : list Sample) : list Pred :=
  match vecs, samples with
  | v :: vecs', sample :: samples' =>
      MkPred (tokens sample) v :: zip_preds vecs' samples'
  | _, _ => []
  end.

(** [LanguageModel.formatted_preds].  [logits] is a non-empty list whose
    first element is the output of the language model. *)
Definition formatted_preds (self : Extraction)
    (logits : LMOutput * list LMOutput) (samples : list Sample)
    (ignore_first_token : bool) (padding_mask : option (Tensor2 Z))
  : M (list Pred) :=
  match extraction_layer self, extraction_strategy self with
  | Some layer, Some strategy =>
      let sequence_output := sequence_output (fst logits) in
      let pooled_output := pooled_output (fst logits) in
      let* vecs :=
        (if String.eqb strategy "pooled" then
           if negb (layer =? -1)%Z then
             raise (ValueError ("Pooled output only works for the last layer, but got extraction_layer = "
                                ++ pretty layer ++ ". Please set `extraction_layer=-1`.)"))
           else ret (map Vec (rows_of pooled_output))
         else if String.eqb strategy "per_token" then
           ret (map Vecs (items_of sequence_output))
         else if String.eqb strategy "reduce_mean" then
           let* vs := _pool_tokens sequence_output padding_mask strategy ignore_first_token in
           ret (map Vec vs)
         else if String.eqb strategy "reduce_max" then
           let* vs := _pool_tokens sequence_output padding_mask strategy ignore_first_token in
           ret (map Vec vs)
         else if String.eqb strategy "cls_token" then
           if (dim1 sequence_output =? 0)%nat then raise IndexError
           else ret (map (fun i => Vec (token_vector sequence_output i 0))
                         (seq 0 (dim0 sequence_output)))
         else raise NotImplementedError) in
      ret (zip_preds vecs samples)
  | _, _ =>
      raise (ValueError "`extraction_layer` or `extraction_strategy` not specified for LM.")
  end.

End Pooling.

(** ** Configurations, files and the wrapped models *)

(** [v == True] *)
Definition eq_True (v : option jval) : bool :=
  match v with
  | Some (JBool true) | Some (JNum 1) => true
  | _ => false
  end.

(** A transformers model: its configuration object (the attribute
    dictionary that [to_json_string] writes), its parameters, and the
    attribute [output_hidden_states] of the module the adapter consults
    ([model.encoder] for Bert, Albert, Roberta and XLMRoberta, [model] for
    XLNet). *)
Record HFModel (W : Type) : Type := MkHFModel {
  hf_config : gmap string jval;
  hf_weights : W;
  hf_output_hidden_states : bool;
}.
Arguments MkHFModel {W}.
Arguments hf_config {W}.
Arguments hf_weights {W}.
Arguments hf_output_hidden_states {W}.

(** What the repository takes from transformers and torch. *)
Class Library : Type := {
  (** a state dict *)
  weights : Type;
  (** a torch tensor of the forward pass *)
  tensor : Type;
  (** [XModel.from_pretrained(name_or_path, **kwargs)] for a name of the
      model hub or a directory in transformers format: configuration and
      parameters, or the exception raised *)
  hub_from_pretrained :
    LMClass -> string -> gmap string jval -> exn + (gmap string jval * weights);
  (** [model.resize_token_embeddings(None).num_embeddings] *)
  num_embeddings : weights -> Z;
  (** [model.resize_token_embeddings(n)] *)
  resize_token_embeddings : weights -> Z -> weights;
  num_embeddings_resize :
    forall w n, num_embeddings (resize_token_embeddings w n) = n;
  (** [self.model(input_ids, token_type_ids=..., attention_mask=...)]: the
      output tuple, or the exception raised *)
  call_model :
    LMClass -> HFModel weights -> tensor -> option tensor -> tensor -> exn + list tensor;
}.

Definition lift {A} (r : exn + A) : M A := (r, []).

(** [l[i]] on a tuple or list *)
Definition getitem {A} (l : list A) (i : nat) : M A :=
  match nth_error l i with
  | Some x => ret x
  | None => raise IndexError
  end.

Section Forward.
Context {L : Library}.

(** What a forward pass returns: a pair, or a triple with all hidden states. *)
Inductive forward_output : Type :=
  | Pair (sequence_output pooled_output : tensor)
  | Triple (sequence_output pooled_output all_hidden_states : tensor).

(** An adapter as far as [forward] reads it: its class, [self.model] and
    [self.pooler], the summary layer that the [load] of DistilBert and of
    XLNet builds (the other adapters have none and call none). *)
Record Adapter : Type := MkAdapter {
  adapter_class : LMClass;
  model : HFModel weights;
  pooler : tensor -> tensor;
}.

(** [Bert.forward], and word for word [Albert.forward], [Roberta.forward]
    and [XLMRoberta.forward]. *)
Definition Bert_forward (self : Adapter) (input_ids segment_ids padding_mask : tensor)
  : M forward_output :=
  let* output_tuple :=
    lift (call_model (adapter_class self) (model self) input_ids (Some segment_ids) padding_mask) in
  if hf_output_hidden_states (model self) then
    let* sequence_output := getitem output_tuple 0 in
    let* pooled_output := getitem output_tuple 1 in
    let* all_hidden_states := getitem output_tuple 2 in
    ret (Triple sequence_output pooled_output all_hidden_states)
  else
    let* sequence_output := getitem output_tuple 0 in
    let* pooled_output := getitem output_tuple 1 in
    ret (Pair sequence_output pooled_output).

Definition Albert_forward := Bert_forward.
Definition Roberta_forward := Bert_forward.
Definition XLMRoberta_forward := Bert_forward.

(** [DistilBert.forward] *)
Definition DistilBert_forward (self : Adapter) (input_ids padding_mask : tensor)
  : M forward_output :=
  let* output_tuple :=
    lift (call_model (adapter_class self) (model self) input_ids None padding_mask) in
  let* o0 := getitem output_tuple 0 in
  let pooled_output := pooler self o0 in
  if eq_True (hf_config (model self) !! "output_hidden_states") then
    let* sequence_output := getitem output_tuple 0 in
    let* all_hidden_states := getitem output_tuple 1 in
    ret (Pair sequence_output pooled_output)
  else
    let* sequence_output := getitem output_tuple 0 in
    ret (Pair sequence_output pooled_output).

(** [XLNet.forward] *)
Definition XLNet_forward (self : Adapter) (input_ids segment_ids padding_mask : tensor)
  : M forward_output :=
  let* output_tuple :=
    lift (call_model (adapter_class self) (model self) input_ids (Some segment_ids) padding_mask) in
  let* o0 := getitem output_tuple 0 in
  let pooled_output := pooler self o0 in
  if hf_output_hidden_states (model self) then
    let* sequence_output := getitem output_tuple 0 in
    let* all_hidden_states := getitem output_tuple 1 in
    ret (Triple sequence_output pooled_output all_hidden_states)
  else
    let* sequence_output := getitem output_tuple 0 in
    ret (Pair sequence_output pooled_output).

(** [enable_hidden_states_output] / [disable_hidden_states_output] of Bert,
    Albert, Roberta, XLMRoberta ([self.model.encoder.output_hidden_states])
    and XLNet ([self.model.output_hidden_states]). *)
Definition set_module_flag (b : bool) (self : Adapter) : Adapter :=
  MkAdapter (adapter_class self)
    (MkHFModel (hf_config (model self)) (hf_weights (model self)) b)
    (pooler self).

Definition Bert_enable_hidden_states_output := set_module_flag true.
Definition Bert_disable_hidden_states_output := set_module_flag false.
Definition XLNet_enable_hidden_states_output := set_module_flag true.
Definition XLNet_disable_hidden_states_output := set_module_flag false.

(** The same two methods of DistilBert
    ([self.model.config.output_hidden_states]). *)
Definition set_config_flag (b : bool) (self : Adapter) : Adapter :=
  MkAdapter (adapter_class self)
    (MkHFModel (<["output_hidden_states" := JBool b]> (hf_config (model self)))
               (hf_weights (model self))
               (hf_output_hidden_states (model self)))
    (pooler self).

Definition DistilBert_enable_hidden_states_output := set_config_flag true.
Definition DistilBert_disable_hidden_states_output := set_config_flag false.

End Forward.

(** ** Text lines *)

(** The ASCII characters [str.strip] removes. *)
Definition is_space (c : ascii) : bool :=
  let n := nat_of_ascii c in
  (n =? 32)%nat || ((9 <=? n)%nat && (n <=? 13)%nat)
  || ((28 <=? n)%nat && (n <=? 31)%nat).

Definition is_empty (s : string) : bool :=
  match s with EmptyString => true | _ => false end.

Fixpoint lstrip (s : string) : string :=
  match s with
  | EmptyString => EmptyString
  | String c s' => if is_space c then lstrip s' else s
  end.

Fixpoint rstrip (s : string) : string :=
  match s with
  | EmptyString => EmptyString
  | String c s' =>
      let r := rstrip s' in
      if is_space c && is_empty r then EmptyString else String c r
  end.

(** [line.strip()] *)
Definition strip (s : string) : string := lstrip (rstrip s).

(** [token.rstrip("\n")] *)
Fixpoint rstrip_newline (s : string) : string :=
  match s with
  | EmptyString => EmptyString
  | String c s' =>
      let r := rstrip_newline s' in
      if Ascii.eqb c "010"%char && is_empty r then EmptyString else String c r
  end.

(** [line.split(' ', 1)]: the parts around the first space, when there is
    one. *)
Fixpoint split_once (s : string) : option (string * string) :=
  match s with
  | EmptyString => None
  | String c s' =>
      if Ascii.eqb c " "%char then Some (EmptyString, s')
      else match split_once s' with
           | Some (w, v) => Some (String c w, v)
           | None => None
           end
  end.

(** [" ".join(parts)] *)
Fixpoint join_space (parts : list string) : string :=
  match parts with
  | [] => ""
  | [x] => x
  | x :: rest => x ++ " " ++ join_space rest
  end.

(** ** The vocabulary *)

(** An [OrderedDict] from token to index: the items in insertion order. *)
Definition odict : Type := list (string * nat).

Fixpoint odict_set (d : odict) (k : string) (v : nat) : odict :=
  match d with
  | [] => [(k, v)]
  | (k', v') :: d' =>
      if String.eqb k' k then (k', v) :: d' else (k', v') :: odict_set d' k v
  end.

Fixpoint odict_get (d : odict) (k : string) : option nat :=
  match d with
  | [] => None
  | (k', v') :: d' => if String.eqb k' k then Some v' else odict_get d' k
  end.

(** iteration over a dictionary yields its keys *)
Definition odict_keys (d : odict) : list string := map fst d.

(** [enumerate] *)
Definition enumerate {A} (l : list A) : list (nat * A) :=
  combine (seq 0 (length l)) l.

(** [transformers.tokenization_bert.load_vocab], on the lines of the
    vocabulary file: line [index] gives its token the value [index]. *)
Definition load_vocab (tokens : list string) : odict :=
  fold_left (fun vocab '(index, token) => odict_set vocab (rstrip_newline token) index)
            (enumerate tokens) [].

(** ** The word-embedding reader *)

Section Embedding.
Context {F : Type} {N : Numeric F}.

(** The local variables of the loop of [load_vectors]. *)
Record Reader : Type := MkReader {
  words_transformed : gset string;
  repetitions : nat;
  embeddings_dimensionality : option nat;
  vectors : gmap string (list F);
}.

Definition reader_init : Reader := MkReader ∅ 0 None ∅.

(** One turn of the loop [for line in tqdm(f)]. *)
Definition read_line (st : Reader) (line : string) : M Reader :=
  let line := strip line in
  if is_empty line then ret st
  else
    match split_once line with
    | None => raise (ValueError "not enough values to unpack (expected 2, got 1)")
    | Some (word, vec) =>
        if bool_decide (word ∈ words_transformed st) then
          ret (MkReader (words_transformed st) (repetitions st + 1)
                        (embeddings_dimensionality st) (vectors st))
        else
          match fromstring vec with
          | None =>
              logger DEBUG ("Embeddings reader: Could not convert line: " ++ line);;
              ret st
          | Some np_vec =>
              let store (dimensionality : nat) : M Reader :=
                if (length np_vec =? dimensionality)%nat then
                  ret (MkReader ({[word]} ∪ words_transformed st) (repetitions st)
                                (Some dimensionality) (<[word := np_vec]> (vectors st)))
                else
                  ret (MkReader (words_transformed st) (repetitions st)
                                (Some dimensionality) (vectors st)) in
              match embeddings_dimensionality st with
              | None =>
                  if (length np_vec <? 4)%nat then
                    logger INFO "Skipping header";;
                    ret st
                  else store (length np_vec)
              | Some dimensionality => store dimensionality
              end
          end
    end.

Fixpoint read_lines (st : Reader) (f : list string) : M Reader :=
  match f with
  | [] => ret st
  | line :: f' =>
      let* st' := read_line st line in
      read_lines st' f'
  end.

(** [embeddings[i,:] = torch.tensor(current)]: a row takes a vector of its
    own length, or a single number for all its entries. *)
Definition set_row (embeddings : list (list F)) (dimensionality i : nat)
    (current : list F) : M (list (list F)) :=
  if (length current =? dimensionality)%nat then ret (<[i := current]> embeddings)
  else match current with
       | [x] => ret (<[i := replicate dimensionality x]> embeddings)
       | _ => raise (LibraryError "shape mismatch")
       end.

(** The second loop of [load_vectors], over [enumerate(self.vocab)]. *)
Fixpoint fill_embeddings (vectors : gmap string (list F)) (dimensionality : nat)
    (items : list (nat * string)) (embeddings : list (list F))
  : M (list (list F)) :=
  match items with
  | [] => ret embeddings
  | (i, w) :: items' =>
      let current := default (replicate dimensionality fzero) (vectors !! w) in
      (if bool_decide (vectors !! w = None) then
         logger WARNING ("Could not load pretrained embedding for word: " ++ w)
       else ret tt);;
      let* embeddings' := set_row embeddings dimensionality i current in
      fill_embeddings vectors dimensionality items' embeddings'
  end.

(** [EmbeddingModel.load_vectors], on the lines of the file at [path] and
    the keys of [self.vocab]. *)
Definition load_vectors (f : list string) (vocab : odict) : M (list (list F)) :=
  let* st := read_lines reader_init f in
  match embeddings_dimensionality st with
  | None => raise TypeError
  | Some dimensionality =>
      let embeddings := replicate (length vocab) (replicate dimensionality fzero) in
      fill_embeddings (vectors st) dimensionality (enumerate (odict_keys vocab)) embeddings
  end.

End Embedding.

(** ** Files *)

(** What a file holds: a JSON object, a state dict written by [torch.save],
    or lines of text. *)
Inductive file (W : Type) : Type :=
  | JsonFile (obj : gmap string jval)
  | StateDictFile (w : W)
  | TextFile (lines : list string).
Arguments JsonFile {W}.
Arguments StateDictFile {W}.
Arguments TextFile {W}.

(** [Path(dir) / name] *)
Definition path_join (dir name : string) : string := dir ++ "/" ++ name.

Section Loading.
Context {F : Type} {N : Numeric F} {L : Library}.

(** [os.path.exists] *)
Definition exists_file (fs : gmap string (file weights)) (path : string) : bool :=
  bool_decide (is_Some (fs !! path)).

(** [json.load(open(path))], also behind [XConfig.from_pretrained(path)] *)
Definition json_load (fs : gmap string (file weights)) (path : string)
  : M (gmap string jval) :=
  match fs !! path with
  | Some (JsonFile obj) => ret obj
  | Some _ => raise (LibraryError "not a JSON document")
  | None => raise (FileNotFoundError path)
  end.

(** [open(path).readlines()] *)
Definition readlines (fs : gmap string (file weights)) (path : string)
  : M (list string) :=
  match fs !! path with
  | Some (TextFile lines) => ret lines
  | Some _ => raise (LibraryError "not a text file")
  | None => raise (FileNotFoundError path)
  end.

(** [XModel.from_pretrained(weights_file, config=config)]: the model built
    from [config] with the parameters of the file. *)
Definition model_from_pretrained (fs : gmap string (file weights))
    (weights_file : string) (config : gmap string jval) : M (HFModel weights) :=
  match fs !! weights_file with
  | Some (StateDictFile w) =>
      ret (MkHFModel config w (eq_True (config !! "output_hidden_states")))
  | Some _ => raise (LibraryError "not a state dict")
  | None => raise (FileNotFoundError weights_file)
  end.

(** *** The word-embedding model *)

Definition embedding_config_keys : list string :=
  ["name"; "embeddings_filename"; "vocab_filename"; "vocab_size";
   "hidden_size"; "language"].

(** [EmbeddingConfig], called with the members of the dictionary as
    keyword arguments: the six named attributes, [None] where the
    dictionary has no such key; other keys are dropped. *)
Definition EmbeddingConfig (config : gmap string jval) : gmap string jval :=
  list_to_map (map (fun k => (k, default JNull (config !! k))) embedding_config_keys).

Record EmbeddingModel : Type := MkEmbeddingModel {
  em_config : gmap string jval;
  vocab : odict;
  embeddings : list (list F);
  unk_idx : nat;
}.

(** [EmbeddingModel.__init__] *)
Definition EmbeddingModel_init (fs : gmap string (file weights))
    (path : string) (config : gmap string jval) (vocab_filename : string)
  : M EmbeddingModel :=
  let config := EmbeddingConfig config in
  let* tokens := readlines fs vocab_filename in
  let vocab := load_vocab tokens in
  let* f := readlines fs path in
  let* embeddings := load_vectors f vocab in
  match odict_get vocab "[UNK]" with
  | None => raise (AssertionError "No [UNK] symbol in Wordembeddingmodel! Aborting")
  | Some i => ret (MkEmbeddingModel config vocab embeddings i)
  end.

(** [EmbeddingModel.resize_token_embeddings(...).num_embeddings] *)
Definition EmbeddingModel_num_embeddings (m : EmbeddingModel) : Z :=
  Z.of_nat (length (vocab m)).

(** [EmbeddingModel.save]: one line per pair of [zip(self.vocab, self.embeddings)]. *)
Definition embedding_lines (m : EmbeddingModel) : list string :=
  map (fun '(w, vec) => w +:+ " " +:+ join_space (map format_6f vec) +:+ String "010"%char "")
      (combine (odict_keys (vocab m)) (embeddings m)).

Definition EmbeddingModel_save (m : EmbeddingModel) (save_dir : string)
    (fs : gmap string (file weights)) : M (gmap string (file weights)) :=
  match em_config m !! "embeddings_filename" with
  | Some (JStr embeddings_filename) =>
      ret (<[path_join save_dir embeddings_filename := TextFile (embedding_lines m)]> fs)
  | Some _ => raise TypeError
  | None => raise (AttributeError "embeddings_filename")
  end.

(** *** Language models *)

Inductive Backbone : Type :=
  | Transformer (m : HFModel weights)
  | WordVectors (m : EmbeddingModel).

(** An instance of a subclass of [LanguageModel]: its class, [self.name],
    [self.language] and [self.model]. *)
Record LanguageModel : Type := MkLanguageModel {
  lm_class : LMClass;
  lm_name : jval;
  lm_language : jval;
  lm_model : Backbone;
}.

(** [self.model.config] *)
Definition lm_config (lm : LanguageModel) : gmap string jval :=
  match lm_model lm with
  | Transformer m => hf_config m
  | WordVectors m => em_config m
  end.

Definition known_languages : list string :=
  ["german"; "english"; "chinese"; "indian"; "french"; "polish"; "spanish";
   "multilingual"].

(** [LanguageModel._infer_language_from_name] *)
Definition _infer_language_from_name (name : string) : M string :=
  let matches := List.filter (fun lang => contains lang name) known_languages in
  match matches with
  | [] =>
      logger WARNING "Could not automatically detect from language model name what language it is.";;
      ret "english"
  | [language] =>
      logger INFO ("Automatically detected language from language model name: " ++ language);;
      ret language
  | _ =>
      raise (ValueError "Could not automatically detect from language model name what language it is.")
  end.

(** [LanguageModel._get_or_infer_language_from_name] *)
Definition _get_or_infer_language_from_name (language : jval) (name : string)
  : M jval :=
  match language with
  | JNull => let* l := _infer_language_from_name name in ret (JStr l)
  | _ => ret language
  end.

(** The part the [load] methods of the six transformer adapters share: the
    name, then the FARM format when the directory holds a configuration
    file, the transformers format otherwise.  ([DistilBert.load] reads the
    file with [AlbertConfig.from_pretrained]; either class gives the
    attributes of the file.) *)
Definition transformers_load (c : LMClass) (fs : gmap string (file weights))
    (pretrained_model_name_or_path : string) (language : jval)
    (kwargs : gmap string jval) : M LanguageModel :=
  let name := default (JStr pretrained_model_name_or_path) (kwargs !! "farm_lm_name") in
  let farm_lm_config := path_join pretrained_model_name_or_path "language_model_config.json" in
  if exists_file fs farm_lm_config then
    let* config := json_load fs farm_lm_config in
    let farm_lm_model := path_join pretrained_model_name_or_path "language_model.bin" in
    let* model := model_from_pretrained fs farm_lm_model config in
    match hf_config model !! "language" with
    | Some language => ret (MkLanguageModel c name language (Transformer model))
    | None => raise (AttributeError "language")
    end
  else
    let* (config, w) := lift (hub_from_pretrained c pretrained_model_name_or_path kwargs) in
    let model := MkHFModel config w (eq_True (config !! "output_hidden_states")) in
    let* language := _get_or_infer_language_from_name language pretrained_model_name_or_path in
    ret (MkLanguageModel c name language (Transformer model)).

(** [config.attr = value] on the configuration of the loaded model *)
Definition set_config (attrs : list (string * jval)) (lm : LanguageModel)
  : LanguageModel :=
  match lm_model lm with
  | Transformer m =>
      MkLanguageModel (lm_class lm) (lm_name lm) (lm_language lm)
        (Transformer (MkHFModel (fold_left (fun cfg '(k, v) => <[k := v]> cfg) attrs (hf_config m))
                                (hf_weights m) (hf_output_hidden_states m)))
  | WordVectors _ => lm
  end.

Definition Bert_load := transformers_load Bert.
Definition Albert_load := transformers_load Albert.
Definition Roberta_load := transformers_load Roberta.
Definition XLMRoberta_load := transformers_load XLMRoberta.

(** [DistilBert.load]: three attributes are set on the configuration, of
    which the pooler is then built. *)
Definition DistilBert_load (fs : gmap string (file weights)) (path : string)
    (language : jval) (kwargs : gmap string jval) : M LanguageModel :=
  let* distilbert := transformers_load DistilBert fs path language kwargs in
  ret (set_config [("summary_last_dropout", JNum 0); ("summary_type", JStr "first");
                   ("summary_activation", JStr "tanh")] distilbert).

(** [XLNet.load] *)
Definition XLNet_load (fs : gmap string (file weights)) (path : string)
    (language : jval) (kwargs : gmap string jval) : M LanguageModel :=
  let* xlnet := transformers_load XLNet fs path language kwargs in
  ret (set_config [("summary_last_dropout", JNum 0)] xlnet).

(** [config[key]] used as a file name under [Path(dir) / ...] *)
Definition config_filename (config : gmap string jval) (key : string) : M string :=
  match config !! key with
  | Some (JStr name) => ret name
  | Some _ => raise TypeError
  | None => raise (KeyError (JStr key))
  end.

(** [WordEmbedding_LM.load] (the import of fasttext that opens the method
    is left out). *)
Definition WordEmbedding_LM_load (fs : gmap string (file weights))
    (pretrained_model_name_or_path : string) (language : jval)
    (kwargs : gmap string jval) : M LanguageModel :=
  let name := default (JStr pretrained_model_name_or_path) (kwargs !! "farm_lm_name") in
  let farm_lm_config := path_join pretrained_model_name_or_path "language_model_config.json" in
  if exists_file fs farm_lm_config then
    let* config := json_load fs farm_lm_config in
    let* embeddings_filename := config_filename config "embeddings_filename" in
    let farm_lm_model := path_join pretrained_model_name_or_path embeddings_filename in
    let* vocab_name := config_filename config "vocab_filename" in
    let vocab_filename := path_join pretrained_model_name_or_path vocab_name in
    let* model := EmbeddingModel_init fs farm_lm_model config vocab_filename in
    let language := default JNull (config !! "language") in
    ret (MkLanguageModel WordEmbedding_LM name language (WordVectors model))
  else raise NotImplementedError.

(** [cls.load] of the class found in the registry *)
Definition subclass_load (c : LMClass) :
  gmap string (file weights) -> string -> jval -> gmap string jval -> M LanguageModel :=
  match c with
  | Bert => Bert_load
  | Albert => Albert_load
  | Roberta => Roberta_load
  | XLMRoberta => XLMRoberta_load
  | DistilBert => DistilBert_load
  | XLNet => XLNet_load
  | WordEmbedding_LM => WordEmbedding_LM_load
  end.

(** [not language_model]: a module has neither [__bool__] nor [__len__],
    so an instance is never false. *)
Definition is_falsy (language_model : LanguageModel) : bool := false.

Definition model_not_found_message (pretrained_model_name_or_path : string) : string :=
  "Model not found for " ++ pretrained_model_name_or_path
  ++ ". Either supply the local path for a saved model or one of bert/roberta/xlnet/albert/distilbert models that can be downloaded from remote. Here's the list of available models: https://farm.deepset.ai/api/modeling.html#farm.modeling.language_model.LanguageModel.load".

(** Lines 152-161 of [LanguageModel.load]: the embedding layer grown by
    [n_added_tokens]. *)
Definition resize_for_custom_vocab (language_model : LanguageModel)
    (n_added_tokens : Z) : M LanguageModel :=
  match lm_model language_model with
  | Transformer m =>
      let model_emb_size := num_embeddings (hf_weights m) in
      let vocab_size := (model_emb_size + n_added_tokens)%Z in
      logger INFO ("Resizing embedding layer of LM from " ++ pretty model_emb_size
                   ++ " to " ++ pretty vocab_size ++ " to cope with custom vocab.");;
      let m' := MkHFModel (<["vocab_size" := JNum vocab_size]> (hf_config m))
                          (resize_token_embeddings (hf_weights m) vocab_size)
                          (hf_output_hidden_states m) in
      let model_emb_size := num_embeddings (hf_weights m') in
      if (vocab_size =? model_emb_size)%Z then
        ret (MkLanguageModel (lm_class language_model) (lm_name language_model)
                             (lm_language language_model) (Transformer m'))
      else raise (AssertionError "")
  | WordVectors m =>
      let model_emb_size := EmbeddingModel_num_embeddings m in
      let vocab_size := (model_emb_size + n_added_tokens)%Z in
      logger INFO ("Resizing embedding layer of LM from " ++ pretty model_emb_size
                   ++ " to " ++ pretty vocab_size ++ " to cope with custom vocab.");;
      let model_emb_size := EmbeddingModel_num_embeddings m in
      if (vocab_size =? model_emb_size)%Z then ret language_model
      else raise (AssertionError "")
  end.

(** [LanguageModel.load].  A keyword argument [language] reaches the
    parameter of that name of the class's [load]. *)
Definition load (fs : gmap string (file weights))
    (pretrained_model_name_or_path : string) (n_added_tokens : Z)
    (language_model_class : jval) (kwargs : gmap string jval)
  : M LanguageModel :=
  let config_file := path_join pretrained_model_name_or_path "language_model_config.json" in
  let* (language_model, n_added_tokens) :=
    (if exists_file fs config_file then
       let* config := json_load fs config_file in
       let* key := match config !! "name" with
                   | Some key => ret key
                   | None => raise (KeyError (JStr "name"))
                   end in
       let* c := subclasses_getitem key in
       let* language_model := subclass_load c fs pretrained_model_name_or_path JNull ∅ in
       ret (language_model, n_added_tokens)
     else
       let language_model_class :=
         match language_model_class with
         | JNull => infer_language_model_class pretrained_model_name_or_path
         | _ => language_model_class
         end in
       let* c := subclasses_getitem language_model_class in
       let* language_model :=
         subclass_load c fs pretrained_model_name_or_path
                       (default JNull (kwargs !! "language")) (delete "language" kwargs) in
       ret (language_model,
            if bool_decide (language_model_class = JStr "XLMRoberta") then 3%Z
            else n_added_tokens)) in
  if is_falsy language_model then
    raise (ModelNotFound (model_not_found_message pretrained_model_name_or_path))
  else if negb (n_added_tokens =? 0)%Z then
    resize_for_custom_vocab language_model n_added_tokens
  else ret language_model.

(** *** Saving *)

(** The two [setattr] of [save_config]: the class name and the language
    are set on the configuration. *)
Definition stamped (self : LanguageModel) (config : gmap string jval)
  : gmap string jval :=
  <["language" := lm_language self]>
    (<["name" := JStr (class_name (lm_class self))]> config).

(** [LanguageModel.save_config]: the stamped configuration is written as
    JSON. *)
Definition save_config (self : LanguageModel) (save_dir : string)
    (fs : gmap string (file weights))
  : M (LanguageModel * gmap string (file weights)) :=
  let save_filename := path_join save_dir "language_model_config.json" in
  let model' :=
    match lm_model self with
    | Transformer m =>
        Transformer (MkHFModel (stamped self (hf_config m)) (hf_weights m)
                               (hf_output_hidden_states m))
    | WordVectors m =>
        WordVectors (MkEmbeddingModel (stamped self (em_config m)) (vocab m)
                                      (embeddings m) (unk_idx m))
    end in
  let self' := MkLanguageModel (lm_class self) (lm_name self) (lm_language self) model' in
  ret (self', <[save_filename := JsonFile (lm_config self')]> fs).

(** [LanguageModel.save], inherited by the six transformer adapters. *)
Definition LanguageModel_save (self : LanguageModel) (save_dir : string)
    (fs : gmap string (file weights))
  : M (LanguageModel * gmap string (file weights)) :=
  let save_name := path_join save_dir "language_model.bin" in
  match lm_model self with
  | Transformer m =>
      save_config self save_dir (<[save_name := StateDictFile (hf_weights m)]> fs)
  | WordVectors _ => raise (AttributeError "state_dict")
  end.

(** [WordEmbedding_LM.save] *)
Definition WordEmbedding_LM_save (self : LanguageModel) (save_dir : string)
    (fs : gmap string (file weights))
  : M (LanguageModel * gmap string (file weights)) :=
  match lm_model self with
  | WordVectors m =>
      let* fs' := EmbeddingModel_save m save_dir fs in
      save_config self save_dir fs'
  | Transformer _ => raise (AttributeError "save")
  end.

(** [self.save(save_dir)], by the class of [self]. *)
Definition save (self : LanguageModel) :
  string -> gmap string (file weights) -> M (LanguageModel * gmap string (file weights)) :=
  match lm_class self with
  | WordEmbedding_LM => WordEmbedding_LM_save self
  | _ => LanguageModel_save self
  end.

(** The vocabulary size of a model: the attribute [vocab_size] of its
    configuration. *)
Definition vocab_size (lm : LanguageModel) : option jval := lm_config lm !! "vocab_size".

(** The round trip: [self.save(save_dir)], then
    [LanguageModel.load(save_dir)] on the files written. *)
Definition save_then_load (fs : gmap string (file weights)) (self : LanguageModel)
    (save_dir : string) : M LanguageModel :=
  let* (_, fs') := save self save_dir fs in
  load fs' save_dir 0 JNull ∅.

End Loading.

(** The attributes the [load] of class [c] sets on the configuration for
    its pooler. *)
Definition summary_attributes (c : LMClass) : list (string * jval) :=
  match c with
  | DistilBert => [("summary_last_dropout", JNum 0); ("summary_type", JStr "first");
                   ("summary_activation", JStr "tanh")]
  | XLNet => [("summary_last_dropout", JNum 0)]
  | _ => []
  end.

(** ** The precedence of the families *)

(** The family names [load] looks for in an identifier. *)
Definition family_names : list string :=
  ["roberta"; "albert"; "distilbert"; "bert"; "xlnet"; "word2vec"; "glove"].

(** The test that speaks for each class. *)
Definition family_test (c : LMClass) (p : string) : bool :=
  match c with
  | XLMRoberta => contains "xlm" p && contains "roberta" p
  | Roberta => contains "roberta" p
  | Albert => contains "albert" p
  | DistilBert => contains "distilbert" p
  | Bert => contains "bert" p
  | XLNet => contains "xlnet" p
  | WordEmbedding_LM => contains "word2vec" (lower p) || contains "glove" (lower p)
  end.

(** The classes in the order in which they are tried. *)
Definition precedence : list LMClass :=
  [XLMRoberta; Roberta; Albert; DistilBert; Bert; XLNet; WordEmbedding_LM].

(** First match: the first class of [precedence] whose test succeeds. *)
Definition first_match (p : string) : option LMClass :=
  List.find (fun c => family_test c p) precedence.

(** ** Instances to compute with *)

(** Integers as numbers, read and written in decimal. *)
Definition digit_of (c : ascii) : option Z :=
  let n := nat_of_ascii c in
  if (48 <=? n)%nat && (n <=? 57)%nat then Some (Z.of_nat (n - 48)) else None.

Fixpoint parse_digits (acc : Z) (s : string) : option Z :=
  match s with
  | EmptyString => Some acc
  | String c s' =>
      match digit_of c with
      | Some d => parse_digits (10 * acc + d) s'
      | None => None
      end
  end.

Definition parse_int (s : string) : option Z :=
  match s with
  | EmptyString => None
  | String c s' =>
      if Ascii.eqb c "-"%char then
        if is_empty s' then None else Z.opp <$> parse_digits 0 s'
      else parse_digits 0 s
  end.

Fixpoint fields (s : string) : list string :=
  match s with
  | EmptyString => [EmptyString]
  | String c s' =>
      if is_space c then EmptyString :: fields s'
      else match fields s' with
           | w :: ws => String c w :: ws
           | [] => [String c EmptyString]
           end
  end.

Definition fromstring_Z (text : string) : option (list Z) :=
  mapM parse_int (List.filter (fun w => negb (is_empty w)) (fields text)).

Definition Numeric_Z : Numeric Z := {|
  fzero := 0%Z;
  fadd := Z.add;
  fdiv := fun x n => (x / Z.of_nat n)%Z;
  fmax := Z.max;
  masked_mean_data := 0%Z;
  masked_max_data := 0%Z;
  fromstring := fromstring_Z;
  format_6f := fun x => pretty x +:+ ".000000";
|}.

(** A library whose state dicts are the number of their embedding rows,
    whose tensors are integers, whose hub knows every name and whose models
    return the hidden states when their flag is set. *)
Definition toy_call_model (c : LMClass) (m : HFModel Z)
    (input_ids : Z) (segment_ids : option Z) (padding_mask : Z) : exn + list Z :=
  let flag :=
    match c with
    | DistilBert => eq_True (hf_config m !! "output_hidden_states")
    | _ => hf_output_hidden_states m
    end in
  let base :=
    match c with
    | DistilBert | XLNet => [input_ids]
    | _ => [input_ids; (input_ids + 1)%Z]
    end in
  inr (if flag then base ++ [padding_mask] else base).

Definition toy_library : Library := {|
  weights := Z;
  tensor := Z;
  hub_from_pretrained := fun _ _ _ => inr ({["vocab_size" := JNum 30522]}, 30522%Z);
  num_embeddings := fun w => w;
  resize_token_embeddings := fun _ n => n;
  num_embeddings_resize := fun _ _ => eq_refl;
  call_model := toy_call_model;
|}.

(** ** Example data *)

Definition example_tensor : Tensor3 Z :=
  MkTensor3 2 3 2 (fun i j k => Z.of_nat (100 * i + 10 * j + k)).

Definition example_logits : @LMOutput Z * list (@LMOutput Z) :=
  (MkLMOutput example_tensor (MkTensor2 2 2 (fun i k => Z.of_nat (i + k))), []).

Definition example_samples : list Sample :=
  [MkSample ["[CLS]"; "hello"; "world"]; MkSample ["[CLS]"; "good"; "bye"]].

Definition example_mask : Tensor2 Z := MkTensor2 2 3 (fun _ _ => 1%Z).


(** ** Lines of an embedding table *)

Section Lines.
Context {F : Type} {N : Numeric F}.

(** After [strip], the line is not empty and splits at its first space
    into the word [w] and the text [vs] of the vector. *)
Definition line_reads (line w vs : string) : Prop :=
  is_empty (strip line) = false /\ split_once (strip line) = Some (w, vs).

(** The line is blank, or has a space to split at. *)
Definition splittable (line : string) : Prop :=
  is_empty (strip line) = true \/ exists w vs, split_once (strip line) = Some (w, vs).

(** The line carries a word and at least four numbers. *)
Definition carries_vector (line : string) : Prop :=
  exists w vs (v : list F),
    line_reads line w vs /\ fromstring vs = Some v /\ (4 <= length v)%nat.

(** What the loop of [load_vectors] maintains: every stored vector has the
    established dimensionality, which is at least 4, and it is established
    as soon as a word was stored. *)
Definition reader_inv (st : @Reader F) : Prop :=
  (forall w v, vectors st !! w = Some v ->
               embeddings_dimensionality st = Some (length v))
  /\ (forall w, w ∈ words_transformed st -> is_Some (embeddings_dimensionality st))
  /\ (forall d, embeddings_dimensionality st = Some d -> (4 <= d)%nat).

End Lines.

(** The warning of [load_vectors] for a word without a vector. *)
Definition missing_warning (w : string) : log_record :=
  LogRecord WARNING ("Could not load pretrained embedding for word: " +:+ w).

(** A line of a text file, with its newline. *)
Definition line (s : string) : string := s +:+ String "010"%char "".

Definition example_vocab_file : list string :=
  [line "[UNK]"; line "hello"; line "world"].

(** A header and two words with 3 numbers each. *)
Definition example_table3 : list string :=
  [line "2 3"; line "hello 1 2 3"; line "world 4 5 6"].

(** A header and two words with 4 numbers each. *)
Definition example_table4 : list string :=
  [line "2 4"; line "hello 1 2 3 4"; line "world 5 6 7 8"].

(** A directory [A] in FARM format holding a word-embedding model, next to
    a vocabulary file without the unknown-token marker. *)
Definition example_embedding_config : gmap string jval :=
  {[ "name" := JStr "WordEmbedding_LM";
     "embeddings_filename" := JStr "vectors.txt";
     "vocab_filename" := JStr "vocab.txt";
     "vocab_size" := JNum 3;
     "hidden_size" := JNum 4;
     "language" := JStr "german" ]}.

Definition example_fs : gmap string (file Z) :=
  {[ "A/language_model_config.json" := JsonFile example_embedding_config;
     "A/vectors.txt" := TextFile example_table4;
     "A/vocab.txt" := TextFile example_vocab_file;
     "A/vocab_without_unk.txt" := TextFile [line "hello"; line "world"] ]}.

(** What [LanguageModel.load] returns for the name "bert-base-cased" with
    the library above. *)
Definition example_bert : @LanguageModel Z toy_library :=
  MkLanguageModel Bert (JStr "bert-base-cased") (JStr "english")
    (Transformer (@MkHFModel (@weights toy_library)
                    {["vocab_size" := JNum 30522]} 30522%Z false)).

(** A DistilBert adapter over the library above. *)
Definition example_distilbert : @Adapter toy_library :=
  MkAdapter DistilBert (@MkHFModel (@weights toy_library) ∅ 30522%Z false)
            (fun t => (t * 2)%Z).

(** ** Further notions for the word-embedding reader *)

Section ReaderNotions.
Context {F : Type} {N : Numeric F}.

(** The words marked as transformed are the words that have a vector. *)
Definition reader_dom (st : @Reader F) : Prop :=
  forall w, w ∈ words_transformed st <-> is_Some (vectors st !! w).

(** What of a state enters the table: everything but the counter. *)
Definition table_of (st : @Reader F)
  : gset string * option nat * gmap string (list F) :=
  (words_transformed st, embeddings_dimensionality st, vectors st).

(** The outcome of a step of the reader, up to the counter. *)
Definition table_outcome (r : M (@Reader F))
  : exn + gset string * option nat * gmap string (list F) :=
  match fst r with
  | inl e => inl e
  | inr st => inr (table_of st)
  end.

(** A line that cannot establish a dimensionality: blank, or a word with
    text that does not parse, or a word with fewer than four numbers. *)
Definition no_vector_line (l : string) : Prop :=
  is_empty (strip l) = true
  \/ exists w vs,
       line_reads l w vs
       /\ (fromstring vs = None
           \/ exists v : list F, fromstring vs = Some v /\ (length v < 4)%nat).

End ReaderNotions.

(** ** Words and texts that survive a line *)

(** No character that [strip] removes. *)
Fixpoint no_space (s : string) : bool :=
  match s with
  | EmptyString => true
  | String c s' => negb (is_space c) && no_space s'
  end.

(** A word that a line can carry: not empty, without whitespace. *)
Definition word_ok (w : string) : bool := negb (is_empty w) && no_space w.

Section SavedRows.
Context {F : Type} {N : Numeric F}.

(** The text [EmbeddingModel.save] writes for a row. *)
Definition row_text (vec : list F) : string := join_space (map format_6f vec).

(** The line [EmbeddingModel.save] writes for a word and its row. *)
Definition saved_line (p : string * list F) : string :=
  fst p +:+ " " +:+ row_text (snd p) +:+ String "010"%char "".

(** A row whose text is read back as the row: the text is not empty, does
    not end in whitespace, and parses to the numbers it was written from. *)
Definition row_ok (vec : list F) : Prop :=
  is_empty (row_text vec) = false
  /\ rstrip (row_text vec) = row_text vec
  /\ fromstring (row_text vec) = Some vec.

(** The dictionary a sequence of stores builds. *)
Definition stored (ps : list (string * list F)) (m : gmap string (list F))
  : gmap string (list F) :=
  fold_left (fun m p => <[fst p := snd p]> m) ps m.

Definition marked (ps : list (string * list F)) (s : gset string) : gset string :=
  fold_left (fun s p => {[fst p]} ∪ s) ps s.

End SavedRows.

(** Integers written without decimals, so that a written row parses back. *)
Definition Numeric_Z_plain : Numeric Z := {|
  fzero := 0%Z;
  fadd := Z.add;
  fdiv := fun x n => (x / Z.of_nat n)%Z;
  fmax := Z.max;
  masked_mean_data := 0%Z;
  masked_max_data := 0%Z;
  fromstring := fromstring_Z;
  format_6f := fun x => pretty x;
|}.

Definition example_model : @EmbeddingModel Z :=
  MkEmbeddingModel (EmbeddingConfig example_embedding_config)
    [("[UNK]", 0%nat); ("hello", 1%nat); ("world", 2%nat)]
    [[0; 0; 0; 0]; [1; 2; 3; 4]; [5; 6; 7; 8]]%Z 0.

(** ** Positions that enter the pooling *)

(** Position [j] of item [i] enters the reduction of [_pool_tokens]: the
    mask entry it is broadcast from is not 0 and, when the first token is
    ignored, does not lie in column 0 of the mask. *)
Definition kept (padding_mask : Tensor2 Z) (ignore_first_token : bool) (i j : nat) : bool :=
  let i' := if (rows padding_mask =? 1)%nat then 0%nat else i in
  let j' := if (cols padding_mask =? 1)%nat then 0%nat else j in
  negb (ignore_first_token && (j' =? 0)%nat) && negb (at2 padding_mask i' j' =? 0)%Z.

(** The column of coordinate [k] of item [i] over the positions [js]. *)
Definition column {F : Type} (t : Tensor3 F) (i k : nat) (js : list nat) : list F :=
  map (fun j => at3 t i j k) js.

(** A mask that marks the last of three positions as padding. *)
Definition example_padded_mask : Tensor2 Z :=
  MkTensor2 2 3 (fun _ j => if (j =? 2)%nat then 0%Z else 1%Z).

(** ** The output dimension *)

(** [OUTPUT_DIM_NAMES] *)
Definition OUTPUT_DIM_NAMES : list string := ["dim"; "hidden_size"; "d_model"].

(** [LanguageModel.get_output_dims]: the value of the first of the three
    names that the configuration has as an attribute; [inl] is the exception
    raised with that message when it has none of them.  [dir(config)] is
    read as the attributes of the configuration object. *)
Definition get_output_dims {F : Type} {L : Library} (self : @LanguageModel F L)
  : string + jval :=
  let config := lm_config self in
  match List.find (fun odn => bool_decide (is_Some (config !! odn))) OUTPUT_DIM_NAMES with
  | Some odn => inr (default JNull (config !! odn))
  | None => inl "Could not infer the output dimensions of the language model"
  end.

(** ** A library that fixes the flag when the model is built *)

(** The layers of a transformers model copy [config.output_hidden_states]
    into an attribute of their own in [__init__]; the output tuple follows
    that attribute, also for DistilBert, and a configuration changed
    afterwards does not reach it. *)
Definition built_flag_call_model (c : LMClass) (m : HFModel Z)
    (input_ids : Z) (segment_ids : option Z) (padding_mask : Z) : exn + list Z :=
  let base :=
    match c with
    | DistilBert | XLNet => [input_ids]
    | _ => [input_ids; (input_ids + 1)%Z]
    end in
  inr (if hf_output_hidden_states m then base ++ [padding_mask] else base).

Definition built_flag_library : Library := {|
  weights := Z;
  tensor := Z;
  hub_from_pretrained := fun _ _ _ => inr ({["vocab_size" := JNum 30522]}, 30522%Z);
  num_embeddings := fun w => w;
  resize_token_embeddings := fun _ n => n;
  num_embeddings_resize := fun _ _ => eq_refl;
  call_model := built_flag_call_model;
|}.

(** A DistilBert adapter over that library, built without hidden states. *)
Definition example_built_distilbert : @Adapter built_flag_library :=
  MkAdapter DistilBert (@MkHFModel (@weights built_flag_library) ∅ 30522%Z false)
            (fun t => (t * 2)%Z).

(** The word-embedding model of directory [A] as an instance of its adapter. *)
Definition example_word_embedding : @LanguageModel Z toy_library :=
  MkLanguageModel WordEmbedding_LM (JStr "A") (JStr "german") (WordVectors example_model).

(** ** Proof steps *)

(** Lookups through a stack of insertions, key by key. *)
Ltac lookup_inserts :=
  repeat first [ rewrite lookup_insert_eq
               | rewrite lookup_insert_ne by congruence ];
  try reflexivity.

(** * Properties *)

(** ** Computations *)

Lemma bind_ret_l {A B} (a : A) (k : A -> M B) : bind (ret a) k = k a.
Proof. unfold bind, ret. destruct (k a) as [r l]. reflexivity. Qed.

Lemma bind_inr_nil {A B} (a : A) (k : A -> M B) : bind (inr a, []) k = k a.
Proof. apply bind_ret_l. Qed.

Lemma bind_raise {A B} (e : exn) (k : A -> M B) : bind (raise e) k = raise e.
Proof. reflexivity. Qed.

Lemma bind_inl {A B} (e : exn) (l : list log_record) (k : A -> M B) :
  bind (inl e, l) k = (inl e, l).
Proof. reflexivity. Qed.

Lemma bind_assoc {A B C} (m : M A) (k : A -> M B) (k' : B -> M C) :
  bind (bind m k) k' = bind m (fun a => bind (k a) k').
Proof.
  destruct m as [[e | a] l]; [reflexivity |]. unfold bind.
  destruct (k a) as [[e' | b] l']; [reflexivity |].
  destruct (k' b) as [r l'']. f_equal. symmetry. apply app_assoc.
Qed.

Lemma bind_ext {A B} (m : M A) (k k' : A -> M B) :
  (forall a, k a = k' a) -> bind m k = bind m k'.
Proof. intros Hk. destruct m as [[e | a] l]; [reflexivity |]. simpl. rewrite Hk. reflexivity. Qed.

(** ** Substrings *)

Lemma prefix_lower (pat s : string) :
  String.prefix pat s = true -> String.prefix (lower pat) (lower s) = true.
Proof.
  revert s. induction pat as [| c pat IH]; intros s Hp.
  - destruct s; reflexivity.
  - destruct s as [| d s]; [discriminate |]. simpl in *.
    destruct (ascii_dec c d) as [-> | ]; [| discriminate].
    destruct (ascii_dec (lower_ascii d) (lower_ascii d)); [auto | congruence].
Qed.

Lemma contains_nil (pat : string) :
  contains pat "" = String.prefix pat "".
Proof. unfold contains. apply orb_false_r. Qed.

Lemma contains_cons (pat : string) (d : ascii) (s : string) :
  contains pat (String d s) = String.prefix pat (String d s) || contains pat s.
Proof. reflexivity. Qed.

Lemma contains_lower (pat s : string) :
  contains pat s = true -> contains (lower pat) (lower s) = true.
Proof.
  induction s as [| d s IH]; intros Hc.
  - rewrite contains_nil in Hc. apply prefix_lower in Hc.
    change (lower "") with "". rewrite contains_nil. exact Hc.
  - rewrite contains_cons in Hc. apply orb_true_iff in Hc as [Hp | Hc].
    + apply prefix_lower in Hp.
      change (lower (String d s)) with (String (lower_ascii d) (lower s)) in *.
      rewrite contains_cons, Hp. reflexivity.
    + change (lower (String d s)) with (String (lower_ascii d) (lower s)).
      rewrite contains_cons, (IH Hc). apply orb_true_r.
Qed.

(** ** The dispatch of [LanguageModel.load] *)

Lemma infer_first_match (p : string) :
  infer_language_model_class p =
  match first_match p with
  | Some c => JStr (class_name c)
  | None => JNull
  end.
Proof.
  unfold infer_language_model_class, first_match, precedence.
  cbn [List.find family_test].
  repeat (match goal with
          | |- context [if ?b then _ else _] => destruct b; [reflexivity |]
          end).
  reflexivity.
Qed.

Lemma subclasses_class_name (c : LMClass) :
  subclasses_getitem (JStr (class_name c)) = ret c.
Proof. destruct c; vm_compute; reflexivity. Qed.

Lemma first_match_test (p : string) (c : LMClass) :
  first_match p = Some c -> family_test c p = true.
Proof. unfold first_match. intros Hf. apply List.find_some in Hf. tauto. Qed.

Lemma family_name_matches (p name : string) :
  In name family_names -> contains name p = true ->
  exists c, family_test c p = true.
Proof.
  unfold family_names. cbn [In].
  intros [<- | [<- | [<- | [<- | [<- | [<- | [<- | []]]]]]]] Hc.
  - exists Roberta. exact Hc.
  - exists Albert. exact Hc.
  - exists DistilBert. exact Hc.
  - exists Bert. exact Hc.
  - exists XLNet. exact Hc.
  - exists WordEmbedding_LM. cbn [family_test].
    apply (contains_lower "word2vec") in Hc. change (lower "word2vec") with "word2vec" in Hc.
    rewrite Hc. reflexivity.
  - exists WordEmbedding_LM. cbn [family_test].
    apply (contains_lower "glove") in Hc. change (lower "glove") with "glove" in Hc.
    rewrite Hc. apply orb_true_r.
Qed.

Lemma first_match_total (p : string) (c : LMClass) :
  family_test c p = true -> exists c', first_match p = Some c'.
Proof.
  intros Ht. unfold first_match.
  destruct (List.find (fun c => family_test c p) precedence) as [c' |] eqn:Hf; [eauto |].
  exfalso. rewrite (List.find_none _ _ Hf c) in Ht; [discriminate |].
  destruct c; unfold precedence; cbn [In]; tauto.
Qed.

Section Dispatch.
Context {F : Type} {N : Numeric F} {L : Library}.

(** Without a configuration file in the directory, [load] looks the class
    up in the registry, calls its [load] and grows the embeddings. *)
Lemma load_transformers_format (fs : gmap string (file weights)) (p : string)
    (n : Z) (cls : jval) (kwargs : gmap string jval) :
  exists_file fs (path_join p "language_model_config.json") = false ->
  load fs p n cls kwargs =
  (let cls' := match cls with JNull => infer_language_model_class p | _ => cls end in
   let* c := subclasses_getitem cls' in
   let* language_model :=
     subclass_load c fs p (default JNull (kwargs !! "language")) (delete "language" kwargs) in
   let n' := if bool_decide (cls' = JStr "XLMRoberta") then 3%Z else n in
   if negb (n' =? 0)%Z then resize_for_custom_vocab language_model n'
   else ret language_model).
Proof.
  intros Hno. unfold load. rewrite Hno. cbv zeta.
  rewrite bind_assoc. apply bind_ext. intros c.
  rewrite bind_assoc. apply bind_ext. intros language_model.
  rewrite bind_ret_l. reflexivity.
Qed.

Lemma load_no_family (fs : gmap string (file weights)) (p : string)
    (n : Z) (kwargs : gmap string jval) :
  exists_file fs (path_join p "language_model_config.json") = false ->
  infer_language_model_class p = JNull ->
  load fs p n JNull kwargs = raise (KeyError JNull).
Proof.
  intros Hno Hinf. rewrite (load_transformers_format _ _ _ _ _ Hno).
  cbv zeta. rewrite Hinf. reflexivity.
Qed.

Lemma exists_file_empty (path : string) :
  exists_file (∅ : gmap string (file weights)) path = false.
Proof. unfold exists_file. rewrite lookup_empty. reflexivity. Qed.

End Dispatch.

(** C1 (as amended).  For an identifier that names no local configuration
    file and contains one of the family names, [LanguageModel.load] resolves
    the class by first match in the order XLMRoberta, Roberta, Albert,
    DistilBert, Bert, XLNet, WordEmbedding_LM: exactly one class of the
    registry is found and its [load] is called.  An identifier with "xlm"
    and "roberta" goes to XLMRoberta; one with "distilbert" and neither
    "roberta" nor "albert" goes to DistilBert; one with "albert" and no
    "roberta" goes to Albert; none with "distilbert" or "albert" goes to
    Bert. *)
Theorem load_dispatch_first_match {F : Type} {N : Numeric F} {L : Library}
    (fs : gmap string (file weights)) (p : string) (n : Z)
    (kwargs : gmap string jval) :
  exists_file fs (path_join p "language_model_config.json") = false ->
  (exists name, In name family_names /\ contains name p = true) ->
  exists c,
    first_match p = Some c
    /\ infer_language_model_class p = JStr (class_name c)
    /\ (forall c', subclasses_getitem (infer_language_model_class p) = ret c' <-> c' = c)
    /\ load fs p n JNull kwargs =
       (let* language_model :=
          subclass_load c fs p (default JNull (kwargs !! "language")) (delete "language" kwargs) in
        let n' := if bool_decide (c = XLMRoberta) then 3%Z else n in
        if negb (n' =? 0)%Z then resize_for_custom_vocab language_model n'
        else ret language_model)
    /\ (contains "xlm" p = true -> contains "roberta" p = true -> c = XLMRoberta)
    /\ (contains "distilbert" p = true -> contains "roberta" p = false ->
        contains "albert" p = false -> c = DistilBert)
    /\ (contains "albert" p = true -> contains "roberta" p = false -> c = Albert)
    /\ (contains "distilbert" p = true \/ contains "albert" p = true -> c <> Bert).
Proof.
  intros Hno (name & Hin & Hc).
  destruct (family_name_matches p name Hin Hc) as [c0 Hc0].
  destruct (first_match_total p c0 Hc0) as [c Hfm].
  pose proof (infer_first_match p) as Hinf. rewrite Hfm in Hinf.
  exists c. split; [exact Hfm |]. split; [exact Hinf |].
  split.
  { intros c'. rewrite Hinf, subclasses_class_name. unfold ret.
    split; [intros [= ->]; reflexivity | intros ->; reflexivity]. }
  split.
  { rewrite (load_transformers_format _ _ _ _ _ Hno). cbv zeta.
    rewrite Hinf, subclasses_class_name, bind_ret_l.
    apply bind_ext. intros lm.
    replace (bool_decide (JStr (class_name c) = JStr "XLMRoberta"))
      with (bool_decide (c = XLMRoberta)); [reflexivity |].
    destruct c; reflexivity. }
  unfold first_match, precedence in Hfm. cbn [List.find family_test] in Hfm.
  repeat split.
  - intros Hx Hr. rewrite Hx, Hr in Hfm. cbn in Hfm. congruence.
  - intros Hd Hr Ha. rewrite Hd, Hr, Ha, andb_false_r in Hfm. congruence.
  - intros Ha Hr. rewrite Ha, Hr, andb_false_r in Hfm. congruence.
  - intros Hda ->.
    destruct (contains "xlm" p && contains "roberta" p); [discriminate |].
    destruct (contains "roberta" p); [discriminate |].
    destruct (contains "albert" p); [discriminate |].
    destruct (contains "distilbert" p); [discriminate |].
    destruct Hda; discriminate.
Qed.

Lemma load_dispatch_first_match_witness :
  exists c,
    first_match "xlm-roberta-base" = Some c
    /\ infer_language_model_class "xlm-roberta-base" = JStr (class_name c).
Proof.
  destruct (@load_dispatch_first_match Z Numeric_Z toy_library ∅ "xlm-roberta-base" 0%Z ∅)
    as (c & Hfm & Hinf & _).
  - apply exists_file_empty.
  - exists "roberta". split; [simpl; tauto | reflexivity].
  - exists c. split; assumption.
Defined.

(** C1, as stated, fails: an identifier can contain "distilbert" and go to
    another class than DistilBert, because a family earlier in the order
    matches as well. *)
Lemma load_dispatch_distilbert_counterexample :
  contains "distilbert" "/home/albert/distilbert-base-cased" = true
  /\ infer_language_model_class "/home/albert/distilbert-base-cased" = JStr "Albert"
  /\ subclasses_getitem (infer_language_model_class "/home/albert/distilbert-base-cased")
     = ret Albert
  /\ ~ (forall p : string,
          (exists name, In name family_names /\ contains name p = true) ->
          contains "distilbert" p = true ->
          infer_language_model_class p = JStr "DistilBert").
Proof.
  split; [reflexivity |]. split; [reflexivity |]. split; [vm_compute; reflexivity |].
  intros Hall.
  specialize (Hall "/home/albert/distilbert-base-cased").
  assert (Hin : exists name, In name family_names
                 /\ contains name "/home/albert/distilbert-base-cased" = true).
  { exists "distilbert". split; [simpl; tauto | reflexivity]. }
  specialize (Hall Hin eq_refl). vm_compute in Hall. discriminate.
Qed.

(** C2.  At the identifier "gpt2", with no file on disk, no class named and
    no family found, [LanguageModel.load] raises [KeyError(None)] from the
    registry lookup; the exception with the message that lists the
    supported families is not raised. *)
Theorem load_gpt2_KeyError {F : Type} {N : Numeric F} {L : Library} :
  infer_language_model_class "gpt2" = JNull
  /\ load ∅ "gpt2" 0 JNull ∅ = raise (KeyError JNull)
  /\ load ∅ "gpt2" 0 JNull ∅ <> raise (ModelNotFound (model_not_found_message "gpt2")).
Proof.
  assert (Hl : load ∅ "gpt2" 0 JNull ∅ = raise (KeyError JNull)).
  { apply load_no_family; [apply exists_file_empty | reflexivity]. }
  split; [reflexivity |]. split; [exact Hl |].
  rewrite Hl. unfold raise. intros [=].
Qed.

(** ** Pooling *)

Section PoolingFacts.
Context {F : Type} {N : Numeric F}.

Lemma filter_keeps_all {A} (f : A -> bool) (l : list A) :
  (forall x, In x l -> f x = true) -> List.filter f l = l.
Proof.
  induction l as [| x l IH]; intros Hall; [reflexivity |].
  simpl. rewrite (Hall x (or_introl eq_refl)). f_equal.
  apply IH. intros y Hy. apply Hall. right. exact Hy.
Qed.

Lemma zip_preds_length (vecs : list (@pred_vec F)) (samples : list Sample) :
  length (zip_preds vecs samples) = Nat.min (length vecs) (length samples).
Proof.
  revert samples. induction vecs as [| v vecs IH]; intros [| sample samples];
    simpl; auto.
Qed.

Lemma zip_preds_lookup (vecs : list (@pred_vec F)) (samples : list Sample)
    (i : nat) (v : pred_vec) (sample : Sample) :
  nth_error vecs i = Some v -> nth_error samples i = Some sample ->
  nth_error (zip_preds vecs samples) i = Some (MkPred (tokens sample) v).
Proof.
  revert samples i. induction vecs as [| v' vecs IH]; intros [| s' samples] [| i];
    simpl; try discriminate.
  - intros [= ->] [= ->]. reflexivity.
  - apply IH.
Qed.

Lemma nth_error_map_seq {A} (f : nat -> A) (n i : nat) :
  (i < n)%nat -> nth_error (map f (seq 0 n)) i = Some (f i).
Proof.
  intros Hi. rewrite nth_error_map, nth_error_seq.
  destruct (Nat.ltb_spec i n); [reflexivity | lia].
Qed.

(** With a mask that ignores nothing, the masked mean along the sequence
    axis is the unweighted mean. *)
Lemma ma_mean_nothing_ignored (t : Tensor3 F) (ignore : nat -> nat -> nat -> bool) :
  (0 < dim1 t)%nat ->
  (forall i j k, (i < dim0 t)%nat -> (j < dim1 t)%nat -> ignore i j k = false) ->
  ma_mean_axis1 t ignore = map (unweighted_mean t) (seq 0 (dim0 t)).
Proof.
  intros Hs Hign. unfold ma_mean_axis1, unweighted_mean.
  apply map_ext_in. intros i Hi. apply in_seq in Hi.
  apply map_ext_in. intros k _.
  unfold unmasked. rewrite filter_keeps_all.
  - unfold arithmetic_mean.
    destruct (dim1 t) as [| s]; [lia |]. reflexivity.
  - intros j Hj. apply in_seq in Hj. rewrite Hign; [reflexivity | lia | lia].
Qed.

End PoolingFacts.

(** C3.  With the strategy "pooled" and an extraction layer other than -1,
    [formatted_preds] raises a [ValueError], whatever the logits, samples,
    flag and mask; no prediction is returned. *)
Theorem formatted_preds_pooled_requires_last_layer {F : Type} {N : Numeric F}
    (self : Extraction) (logits : LMOutput * list LMOutput)
    (samples : list Sample) (ignore_first_token : bool)
    (padding_mask : option (Tensor2 Z)) (layer : Z) :
  extraction_strategy self = Some "pooled" ->
  extraction_layer self = Some layer ->
  layer <> (-1)%Z ->
  exists msg,
    formatted_preds self logits samples ignore_first_token padding_mask
    = raise (ValueError msg).
Proof.
  intros Hs Hl Hne. unfold formatted_preds. rewrite Hs, Hl.
  change (String.eqb "pooled" "pooled") with true. cbv iota.
  destruct (Z.eqb_spec layer (-1)) as [-> | _]; [contradiction |].
  cbn [negb]. eexists. rewrite bind_raise. reflexivity.
Qed.




Lemma formatted_preds_pooled_requires_last_layer_witness :
  exists msg,
    formatted_preds (N := Numeric_Z) (MkExtraction (Some (-2)%Z) (Some "pooled"))
      example_logits example_samples true None
    = raise (ValueError msg).
Proof.
  apply (formatted_preds_pooled_requires_last_layer (N := Numeric_Z)
           (MkExtraction (Some (-2)%Z) (Some "pooled")) example_logits
           example_samples true None (-2)%Z);
    [reflexivity | reflexivity | lia].
Defined.

(** C4.  With the strategy "cls_token" and at least one token position,
    [formatted_preds] returns, for every item of the batch that has a sample,
    the vector at token position 0 of that item, paired with the tokens of
    the sample; the padding mask and the flag have no influence. *)
Theorem formatted_preds_cls_token {F : Type} {N : Numeric F}
    (self : Extraction) (logits : LMOutput * list LMOutput)
    (samples : list Sample) (ignore_first_token : bool)
    (padding_mask : option (Tensor2 Z)) (layer : Z) :
  extraction_strategy self = Some "cls_token" ->
  extraction_layer self = Some layer ->
  (0 < dim1 (sequence_output (fst logits)))%nat ->
  let t := sequence_output (fst logits) in
  exists preds,
    formatted_preds self logits samples ignore_first_token padding_mask = ret preds
    /\ length preds = Nat.min (dim0 t) (length samples)
    /\ (forall i sample,
          (i < dim0 t)%nat -> nth_error samples i = Some sample ->
          nth_error preds i = Some (MkPred (tokens sample) (Vec (token_vector t i 0))))
    /\ (forall ignore_first_token' padding_mask',
          formatted_preds self logits samples ignore_first_token' padding_mask' = ret preds).
Proof.
  intros Hs Hl Hpos t.
  assert (Hrun : forall ift mask,
             formatted_preds self logits samples ift mask =
             ret (zip_preds (map (fun i => Vec (token_vector t i 0)) (seq 0 (dim0 t))) samples)).
  { intros ift mask. unfold formatted_preds. rewrite Hs, Hl.
    change (String.eqb "cls_token" "pooled") with false.
    change (String.eqb "cls_token" "per_token") with false.
    change (String.eqb "cls_token" "reduce_mean") with false.
    change (String.eqb "cls_token" "reduce_max") with false.
    change (String.eqb "cls_token" "cls_token") with true. cbv iota.
    fold t. destruct (Nat.eqb_spec (dim1 t) 0) as [Hz | _]; [unfold t in Hz; lia |].
    rewrite bind_ret_l. reflexivity. }
  eexists. split; [apply Hrun |]. split; [| split].
  - rewrite zip_preds_length, length_map, length_seq. reflexivity.
  - intros i sample Hi Hsample. apply zip_preds_lookup; [| exact Hsample].
    apply (nth_error_map_seq (fun i => Vec (token_vector t i 0))). exact Hi.
  - intros ift mask. apply Hrun.
Qed.

Lemma formatted_preds_cls_token_witness :
  exists preds,
    formatted_preds (N := Numeric_Z) (MkExtraction (Some (-1)%Z) (Some "cls_token"))
      example_logits example_samples true None = ret preds
    /\ nth_error preds 1 = Some (MkPred ["[CLS]"; "good"; "bye"] (Vec [100; 101]%Z)).
Proof.
  destruct (formatted_preds_cls_token (N := Numeric_Z)
              (MkExtraction (Some (-1)%Z) (Some "cls_token")) example_logits
              example_samples true None (-1)%Z eq_refl eq_refl)
    as (preds & Hrun & _ & Hvec & _).
  - simpl. lia.
  - exists preds. split; [exact Hrun |].
    apply (Hvec 1%nat (MkSample ["[CLS]"; "good"; "bye"])); [simpl; lia | reflexivity].
Defined.

(** C5.  With a padding mask of ones only (of the shape of the batch, or
    broadcast to it), the strategy "reduce_mean", the flag for the first
    token off and at least one token position, [_pool_tokens] returns for
    each item the unweighted arithmetic mean of its token vectors along the
    sequence axis, and [formatted_preds] pairs these means with the
    samples. *)
Theorem reduce_mean_all_valid {F : Type} {N : Numeric F}
    (self : Extraction) (logits : LMOutput * list LMOutput)
    (samples : list Sample) (padding_mask : Tensor2 Z) (layer : Z) :
  let t := sequence_output (fst logits) in
  extraction_strategy self = Some "reduce_mean" ->
  extraction_layer self = Some layer ->
  (rows padding_mask = dim0 t \/ rows padding_mask = 1%nat) ->
  (cols padding_mask = dim1 t \/ cols padding_mask = 1%nat) ->
  (forall i j, (i < rows padding_mask)%nat -> (j < cols padding_mask)%nat ->
               at2 padding_mask i j = 1%Z) ->
  (0 < dim1 t)%nat ->
  _pool_tokens t (Some padding_mask) "reduce_mean" false
  = ret (map (unweighted_mean t) (seq 0 (dim0 t)))
  /\ formatted_preds self logits samples false (Some padding_mask)
     = ret (zip_preds (map (fun i => Vec (unweighted_mean t i)) (seq 0 (dim0 t))) samples).
Proof.
  intros t Hs Hl Hrows Hcols Hones Hpos.
  assert (Hpool : _pool_tokens t (Some padding_mask) "reduce_mean" false
                  = ret (map (unweighted_mean t) (seq 0 (dim0 t)))).
  { unfold _pool_tokens. rewrite bind_ret_l.
    assert (Hfit : ((rows padding_mask =? dim0 t)%nat || (rows padding_mask =? 1)%nat)
                   && ((cols padding_mask =? dim1 t)%nat || (cols padding_mask =? 1)%nat)
                   = true).
    { apply andb_true_iff. split; apply orb_true_iff.
      - destruct Hrows as [-> | ->]; [left | right]; apply Nat.eqb_refl.
      - destruct Hcols as [-> | ->]; [left | right]; apply Nat.eqb_refl. }
    rewrite Hfit. cbn [negb].
    change (String.eqb "reduce_mean" "reduce_max") with false.
    change (String.eqb "reduce_mean" "reduce_mean") with true. cbv iota.
    f_equal. apply ma_mean_nothing_ignored; [exact Hpos |].
    intros i j _ Hi Hj. rewrite Hones; [reflexivity | |].
    - destruct (Nat.eqb_spec (rows padding_mask) 1); lia.
    - destruct (Nat.eqb_spec (cols padding_mask) 1); lia. }
  split; [exact Hpool |].
  unfold formatted_preds. rewrite Hs, Hl.
  change (String.eqb "reduce_mean" "pooled") with false.
  change (String.eqb "reduce_mean" "per_token") with false.
  change (String.eqb "reduce_mean" "reduce_mean") with true. cbv iota.
  fold t. rewrite Hpool, !bind_ret_l, map_map. reflexivity.
Qed.


Lemma reduce_mean_all_valid_witness :
  formatted_preds (N := Numeric_Z) (MkExtraction (Some (-1)%Z) (Some "reduce_mean"))
    example_logits example_samples false (Some example_mask)
  = ret [MkPred ["[CLS]"; "hello"; "world"] (Vec [10; 11]%Z);
         MkPred ["[CLS]"; "good"; "bye"] (Vec [110; 111]%Z)].
Proof.
  apply (reduce_mean_all_valid (N := Numeric_Z)
           (MkExtraction (Some (-1)%Z) (Some "reduce_mean")) example_logits
           example_samples example_mask (-1)%Z);
    [reflexivity | reflexivity | left; reflexivity | left; reflexivity
     | intros; reflexivity | simpl; lia].
Defined.

(** ** Forward passes *)

Section ForwardFacts.
Context {L : Library}.

Lemma DistilBert_forward_pair_only (self : Adapter) (input_ids padding_mask : tensor)
    (out : forward_output) :
  outcome (DistilBert_forward self input_ids padding_mask) = inr out ->
  exists s p, out = Pair s p.
Proof.
  unfold DistilBert_forward, lift, getitem.
  destruct (call_model _ _ _ _ _) as [e | output_tuple]; [discriminate |].
  rewrite bind_inr_nil.
  destruct output_tuple as [| o0 rest]; [discriminate |].
  cbn [nth_error]. rewrite bind_ret_l.
  destruct (eq_True _).
  - rewrite bind_ret_l. destruct rest as [| o1 rest]; [discriminate |].
    cbn [nth_error]. rewrite bind_ret_l. intros [= <-]. eauto.
  - rewrite bind_ret_l. intros [= <-]. eauto.
Qed.

Lemma enabled_config_flag (self : Adapter) :
  eq_True (hf_config (model (DistilBert_enable_hidden_states_output self))
             !! "output_hidden_states") = true.
Proof.
  unfold DistilBert_enable_hidden_states_output, set_config_flag. cbn [model hf_config].
  rewrite lookup_insert_eq. reflexivity.
Qed.

End ForwardFacts.

(** C10.  After [enable_hidden_states_output], [DistilBert.forward] does not
    return the pair it returned before: the method sets the attribute of the
    configuration only, so a model that was built without hidden states
    still yields the one component of its output, and the second one, which
    the branch of the enabled flag reads, is out of range. *)
Theorem DistilBert_forward_enabled_IndexError {L : Library} (self : Adapter)
    (input_ids padding_mask o0 : tensor) :
  (eq_True (hf_config (model self) !! "output_hidden_states") = false ->
   call_model (adapter_class self) (model self) input_ids None padding_mask = inr [o0] ->
   DistilBert_forward self input_ids padding_mask = ret (Pair o0 (pooler self o0)))
  /\ (call_model (adapter_class self)
        (model (DistilBert_enable_hidden_states_output self)) input_ids None padding_mask
      = inr [o0] ->
      DistilBert_forward (DistilBert_enable_hidden_states_output self) input_ids padding_mask
      = raise IndexError).
Proof.
  split.
  - intros Hflag Hcall. unfold DistilBert_forward.
    rewrite Hcall. unfold lift. rewrite bind_inr_nil. unfold getitem. cbn [nth_error].
    rewrite bind_ret_l, Hflag, bind_ret_l. reflexivity.
  - intros Hcall. unfold DistilBert_forward.
    cbn [adapter_class DistilBert_enable_hidden_states_output set_config_flag] in *.
    rewrite Hcall. unfold lift. rewrite bind_inr_nil. unfold getitem. cbn [nth_error].
    rewrite bind_ret_l.
    rewrite (enabled_config_flag self). rewrite bind_ret_l. reflexivity.
Qed.

Lemma DistilBert_forward_enabled_IndexError_witness :
  DistilBert_forward (L := built_flag_library) example_built_distilbert 7%Z 9%Z
  = ret (Pair (L := built_flag_library) 7%Z 14%Z)
  /\ call_model (Library := built_flag_library) DistilBert
       (model (DistilBert_enable_hidden_states_output example_built_distilbert)) 7%Z None 9%Z
     = inr [7%Z]
  /\ DistilBert_forward (L := built_flag_library)
       (DistilBert_enable_hidden_states_output example_built_distilbert) 7%Z 9%Z
     = raise IndexError.
Proof.
  destruct (DistilBert_forward_enabled_IndexError (L := built_flag_library)
              example_built_distilbert 7%Z 9%Z 7%Z) as [Hbefore Hafter].
  split; [apply Hbefore; reflexivity |].
  split; [reflexivity | apply Hafter; reflexivity].
Defined.

(** ** The word-embedding reader *)

Lemma bind_inr {A B} (m : M A) (k : A -> M B) (a : A) (l : list log_record)
    (r : exn + B) (l' : list log_record) :
  m = (inr a, l) -> k a = (r, l') -> bind m k = (r, l ++ l').
Proof. intros -> Hk. simpl. rewrite Hk. reflexivity. Qed.

Section ReaderFacts.
Context {F : Type} {N : Numeric F}.

Lemma reader_init_inv : reader_inv (F := F) reader_init.
Proof.
  unfold reader_inv, reader_init. cbn. repeat split.
  - intros w v Hv. rewrite lookup_empty in Hv. discriminate.
  - intros w Hw. set_solver.
  - intros d [=].
Qed.

(** One turn of the loop on a line that reads as [w] and [vs]. *)
Lemma read_line_reads (st : @Reader F) (l w vs : string) :
  line_reads l w vs ->
  read_line st l =
  if bool_decide (w ∈ words_transformed st) then
    ret (MkReader (words_transformed st) (repetitions st + 1)
                  (embeddings_dimensionality st) (vectors st))
  else
    match fromstring vs with
    | None =>
        logger DEBUG ("Embeddings reader: Could not convert line: " +:+ strip l);;
        ret st
    | Some np_vec =>
        let store (dimensionality : nat) : M Reader :=
          if (length np_vec =? dimensionality)%nat then
            ret (MkReader ({[w]} ∪ words_transformed st) (repetitions st)
                          (Some dimensionality) (<[w := np_vec]> (vectors st)))
          else
            ret (MkReader (words_transformed st) (repetitions st)
                          (Some dimensionality) (vectors st)) in
        match embeddings_dimensionality st with
        | None =>
            if (length np_vec <? 4)%nat then
              logger INFO "Skipping header";;
              ret st
            else store (length np_vec)
        | Some dimensionality => store dimensionality
        end
    end.
Proof.
  intros [Hne Hsplit]. unfold read_line. cbv zeta. rewrite Hne, Hsplit. reflexivity.
Qed.

(** A header: fewer than four numbers before any dimensionality is known. *)
Lemma read_line_header (st : @Reader F) (l w vs : string) (v : list F) :
  line_reads l w vs -> w ∉ words_transformed st -> fromstring vs = Some v ->
  embeddings_dimensionality st = None -> (length v < 4)%nat ->
  read_line st l = (inr st, [LogRecord INFO "Skipping header"]).
Proof.
  intros Hl Hw Hv Hd Hlen. rewrite (read_line_reads _ _ _ _ Hl).
  rewrite bool_decide_eq_false_2 by exact Hw. rewrite Hv, Hd.
  destruct (Nat.ltb_spec (length v) 4); [reflexivity | lia].
Qed.

(** The first line with at least four numbers establishes the
    dimensionality and is stored. *)
Lemma read_line_first (st : @Reader F) (l w vs : string) (v : list F) :
  line_reads l w vs -> w ∉ words_transformed st -> fromstring vs = Some v ->
  embeddings_dimensionality st = None -> (4 <= length v)%nat ->
  read_line st l =
  ret (MkReader ({[w]} ∪ words_transformed st) (repetitions st)
                (Some (length v)) (<[w := v]> (vectors st))).
Proof.
  intros Hl Hw Hv Hd Hlen. rewrite (read_line_reads _ _ _ _ Hl).
  rewrite bool_decide_eq_false_2 by exact Hw. rewrite Hv, Hd. cbv beta iota zeta.
  destruct (Nat.ltb_spec (length v) 4); [lia |].
  rewrite Nat.eqb_refl. reflexivity.
Qed.

(** A later line of the established dimensionality is stored. *)
Lemma read_line_match (st : @Reader F) (l w vs : string) (v : list F) (d : nat) :
  line_reads l w vs -> w ∉ words_transformed st -> fromstring vs = Some v ->
  embeddings_dimensionality st = Some d -> length v = d ->
  read_line st l =
  ret (MkReader ({[w]} ∪ words_transformed st) (repetitions st)
                (Some d) (<[w := v]> (vectors st))).
Proof.
  intros Hl Hw Hv Hd Hlen. rewrite (read_line_reads _ _ _ _ Hl).
  rewrite bool_decide_eq_false_2 by exact Hw. rewrite Hv, Hd. cbv beta iota zeta.
  rewrite Hlen, Nat.eqb_refl. reflexivity.
Qed.

(** A later line of another dimensionality is discarded. *)
Lemma read_line_mismatch (st : @Reader F) (l w vs : string) (v : list F) (d : nat) :
  line_reads l w vs -> w ∉ words_transformed st -> fromstring vs = Some v ->
  embeddings_dimensionality st = Some d -> length v <> d ->
  read_line st l = ret st.
Proof.
  intros Hl Hw Hv Hd Hlen. rewrite (read_line_reads _ _ _ _ Hl).
  rewrite bool_decide_eq_false_2 by exact Hw. rewrite Hv, Hd. cbv beta iota zeta.
  destruct (Nat.eqb_spec (length v) d); [contradiction |].
  destruct st; cbn in *. subst. reflexivity.
Qed.

End ReaderFacts.

Lemma bind_inr_inv {A B} (m : M A) (k : A -> M B) (b : B) (log : list log_record) :
  bind m k = (inr b, log) ->
  exists a l1 l2, m = (inr a, l1) /\ k a = (inr b, l2) /\ log = l1 ++ l2.
Proof.
  destruct m as [[e | a] l1]; simpl; [discriminate |].
  destruct (k a) as [r l2] eqn:Hk. intros [= -> <-]. eauto 6.
Qed.

Section ReaderInvariant.
Context {F : Type} {N : Numeric F}.

Lemma read_line_inv (st st' : @Reader F) (l : string) (log : list log_record) :
  reader_inv st -> read_line st l = (inr st', log) ->
  reader_inv st'
  /\ (forall d, embeddings_dimensionality st = Some d ->
                embeddings_dimensionality st' = Some d).
Proof.
  intros Hinv Hrun. pose proof Hinv as (Hvec & Hwords & Hdim).
  unfold read_line in Hrun. cbv zeta in Hrun.
  destruct (is_empty (strip l)).
  { injection Hrun as <- _. auto. }
  destruct (split_once (strip l)) as [[w vs] |]; [| discriminate].
  case_bool_decide as Hw.
  { injection Hrun as <- _. cbn. repeat split; auto. }
  destruct (fromstring vs) as [v |].
  2: { injection Hrun as <- _. auto. }
  destruct (embeddings_dimensionality st) as [d |] eqn:Hd.
  - destruct (Nat.eqb_spec (length v) d) as [Hlen | Hlen];
      injection Hrun as <- _; cbn.
    + split; [split; [| split] |]; cbn.
      * intros w' v' Hv'. destruct (decide (w = w')) as [<- | Hne].
        -- rewrite lookup_insert_eq in Hv'. injection Hv' as <-. congruence.
        -- rewrite lookup_insert_ne in Hv' by exact Hne. eauto.
      * eauto.
      * auto.
      * auto.
    + split; [split; [| split] |]; cbn; eauto.
  - destruct (Nat.ltb_spec (length v) 4) as [Hlt | Hge].
    { injection Hrun as <- _. split; [exact Hinv | discriminate]. }
    rewrite Nat.eqb_refl in Hrun. injection Hrun as <- _. cbn.
    split; [split; [| split] | discriminate]; cbn.
    + intros w' v' Hv'. destruct (decide (w = w')) as [<- | Hne].
      * rewrite lookup_insert_eq in Hv'. injection Hv' as <-. reflexivity.
      * rewrite lookup_insert_ne in Hv' by exact Hne.
        apply Hvec in Hv'. discriminate.
    + eauto.
    + intros d [= <-]. exact Hge.
Qed.

Lemma read_lines_inv (f : list string) (st st' : @Reader F) (log : list log_record) :
  reader_inv st -> read_lines st f = (inr st', log) ->
  reader_inv st'
  /\ (forall d, embeddings_dimensionality st = Some d ->
                embeddings_dimensionality st' = Some d).
Proof.
  revert st log. induction f as [| l f IH]; intros st log Hinv Hrun.
  - injection Hrun as <- _. auto.
  - cbn [read_lines] in Hrun.
    apply bind_inr_inv in Hrun as (st1 & l1 & l2 & Hstep & Hrest & _).
    destruct (read_line_inv _ _ _ _ Hinv Hstep) as [Hinv1 Hd1].
    destruct (IH _ _ Hinv1 Hrest) as [Hinv' Hd']. auto.
Qed.

Lemma read_line_total (st : @Reader F) (l : string) :
  splittable l -> exists st' log, read_line st l = (inr st', log).
Proof.
  intros Hs. unfold read_line. cbv zeta.
  destruct (is_empty (strip l)) eqn:He; [eexists _, _; reflexivity |].
  destruct Hs as [Hs | (w & vs & ->)]; [congruence |].
  case_bool_decide; [eexists _, _; reflexivity |].
  destruct (fromstring vs) as [v |]; [| eexists _, _; reflexivity].
  destruct (embeddings_dimensionality st) as [d |].
  - destruct (length v =? d)%nat; eexists _, _; reflexivity.
  - destruct (length v <? 4)%nat; [eexists _, _; reflexivity |].
    destruct (length v =? length v)%nat; eexists _, _; reflexivity.
Qed.

Lemma read_line_establishes (st st' : @Reader F) (l : string) (log : list log_record) :
  reader_inv st -> carries_vector l -> read_line st l = (inr st', log) ->
  is_Some (embeddings_dimensionality st').
Proof.
  intros (Hvec & Hwords & Hdim) (w & vs & v & Hl & Hv & Hlen) Hrun.
  rewrite (read_line_reads _ _ _ _ Hl) in Hrun. rewrite Hv in Hrun.
  case_bool_decide as Hw.
  { injection Hrun as <- _. cbn. eauto. }
  cbv beta iota zeta in Hrun.
  destruct (embeddings_dimensionality st) as [d |].
  - destruct (length v =? d)%nat; injection Hrun as <- _; cbn; eauto.
  - destruct (Nat.ltb_spec (length v) 4); [lia |].
    destruct (length v =? length v)%nat; injection Hrun as <- _; cbn; eauto.
Qed.

(** The loop runs through a table whose lines can all be split, and has
    established the dimensionality when one of them carries a vector. *)
Lemma read_lines_establishes (f : list string) (st : @Reader F) :
  reader_inv st -> Forall splittable f ->
  (is_Some (embeddings_dimensionality st) \/ Exists carries_vector f) ->
  exists st' log,
    read_lines st f = (inr st', log) /\ reader_inv st'
    /\ is_Some (embeddings_dimensionality st').
Proof.
  revert st. induction f as [| l f IH]; intros st Hinv Hall Hex.
  - destruct Hex as [Hd | Hex]; [| inversion Hex].
    exists st, []. auto.
  - inversion Hall as [| ? ? Hl Hf]; subst.
    destruct (read_line_total st l Hl) as (st1 & l1 & Hstep).
    destruct (read_line_inv _ _ _ _ Hinv Hstep) as [Hinv1 Hd1].
    assert (Hex1 : is_Some (embeddings_dimensionality st1) \/ Exists carries_vector f).
    { destruct Hex as [[d Hd] | Hex].
      - left. rewrite (Hd1 d Hd). eauto.
      - inversion Hex; subst; [left | right; assumption].
        apply (read_line_establishes st st1 l l1 Hinv); assumption. }
    destruct (IH st1 Hinv1 Hf Hex1) as (st' & l2 & Hrest & Hinv' & Hd').
    exists st', (l1 ++ l2). split; [| auto].
    cbn [read_lines]. eapply bind_inr; eassumption.
Qed.

End ReaderInvariant.

Section FillFacts.
Context {F : Type} {N : Numeric F}.

(** The second loop of [load_vectors] writes row [k + j] for the [j]-th
    word and leaves the rows before [k] alone. *)
Lemma fill_embeddings_spec (vecs : gmap string (list F)) (d : nat) :
  (forall w v, vecs !! w = Some v -> length v = d) ->
  forall (ws : list string) (k : nat) (emb : list (list F)),
    length emb = (k + length ws)%nat ->
    Forall (fun row => length row = d) emb ->
    exists emb' log,
      fill_embeddings vecs d (combine (seq k (length ws)) ws) emb = (inr emb', log)
      /\ length emb' = length emb
      /\ Forall (fun row => length row = d) emb'
      /\ (forall i, (i < k)%nat -> emb' !! i = emb !! i)
      /\ (forall j w, ws !! j = Some w ->
                      emb' !! (k + j)%nat = Some (default (replicate d fzero) (vecs !! w)))
      /\ (forall w, In w ws -> vecs !! w = None -> In (missing_warning w) log).
Proof.
  intros Hvecs ws. induction ws as [| w ws IH]; intros k emb Hlen Hrows.
  - exists emb, []. cbn. repeat split; auto.
    intros j w Hj. rewrite lookup_nil in Hj. discriminate.
  - cbn [length seq combine fill_embeddings].
    set (current := default (replicate d fzero) (vecs !! w)).
    assert (Hcur : length current = d).
    { unfold current. destruct (vecs !! w) as [v |] eqn:Hv; cbn.
      - eapply Hvecs; eassumption.
      - apply length_replicate. }
    assert (Hset : set_row emb d k current = ret (<[k := current]> emb)).
    { unfold set_row. rewrite Hcur, Nat.eqb_refl. reflexivity. }
    destruct (IH (S k) (<[k := current]> emb)) as (emb' & log & Hrun & Hlen' & Hrows' & Hbefore & Hat & Hlog).
    { rewrite length_insert, Hlen. cbn. lia. }
    { apply Forall_insert; assumption. }
    set (warn := if bool_decide (vecs !! w = None)
                 then [missing_warning w] else []).
    exists emb', (warn ++ log).
    split.
    { eapply (bind_inr _ _ tt warn).
      - unfold warn. case_bool_decide; reflexivity.
      - rewrite Hset, bind_ret_l. exact Hrun. }
    split; [rewrite Hlen', length_insert; reflexivity |].
    split; [exact Hrows' |].
    split; [| split].
    + intros i Hi. rewrite Hbefore by lia.
      apply list_lookup_insert_ne. lia.
    + intros [| j] w' Hj.
      * cbn in Hj. injection Hj as <-. rewrite Nat.add_0_r, Hbefore by lia.
        apply list_lookup_insert_eq. rewrite Hlen. cbn. lia.
      * cbn in Hj. replace (k + S j)%nat with (S k + j)%nat by lia.
        apply Hat. exact Hj.
    + intros w' [<- | Hin] Hnone; apply in_or_app.
      * left. unfold warn. rewrite bool_decide_eq_true_2 by exact Hnone.
        left. reflexivity.
      * right. apply Hlog; assumption.
Qed.

(** [load_vectors] from the state the reading loop ends in. *)
Lemma load_vectors_of_state (f : list string) (vocab : odict) (st : @Reader F)
    (log0 : list log_record) (d : nat) :
  read_lines reader_init f = (inr st, log0) ->
  embeddings_dimensionality st = Some d ->
  exists embeddings log,
    load_vectors f vocab = (inr embeddings, log)
    /\ length embeddings = length vocab
    /\ Forall (fun row => length row = d) embeddings
    /\ (forall i w, odict_keys vocab !! i = Some w ->
                    embeddings !! i = Some (default (replicate d fzero) (vectors st !! w)))
    /\ (forall w, In w (odict_keys vocab) -> vectors st !! w = None ->
                  In (missing_warning w) log).
Proof.
  intros Hread Hd.
  destruct (read_lines_inv _ _ _ _ reader_init_inv Hread) as [(Hvec & _ & _) _].
  assert (Hvecs : forall w v, vectors st !! w = Some v -> length v = d).
  { intros w v Hv. apply Hvec in Hv. congruence. }
  assert (Hkeys : length (odict_keys vocab) = length vocab).
  { unfold odict_keys. apply length_map. }
  destruct (fill_embeddings_spec (vectors st) d Hvecs (odict_keys vocab) 0
              (replicate (length vocab) (replicate d fzero)))
    as (emb & log & Hrun & Hlen & Hrows & _ & Hat & Hlog).
  { rewrite length_replicate, Hkeys. reflexivity. }
  { apply Forall_replicate. apply length_replicate. }
  exists emb, (log0 ++ log). split.
  { unfold load_vectors. eapply bind_inr; [exact Hread |].
    rewrite Hd. exact Hrun. }
  split; [rewrite Hlen; apply length_replicate |].
  split; [exact Hrows |].
  split.
  - intros i w Hi. apply (Hat i w Hi).
  - intros w Hin Hnone. apply in_or_app. right. apply Hlog; assumption.
Qed.

End FillFacts.

(** C7.  When every line of the table can be split and one of them carries
    a word and at least four numbers, [load_vectors] returns: the
    dimensionality is established, every vocabulary entry receives a row of
    that length, and a vocabulary word without a vector in the table
    receives the zero vector and a logged warning. *)
Theorem load_vectors_zero_vector_fallback {F : Type} {N : Numeric F}
    (f : list string) (vocab : odict) :
  Forall splittable f ->
  Exists carries_vector f ->
  exists (st : @Reader F) log0 d embeddings log,
    read_lines reader_init f = (inr st, log0)
    /\ embeddings_dimensionality st = Some d
    /\ load_vectors f vocab = (inr embeddings, log)
    /\ length embeddings = length vocab
    /\ (forall i w, odict_keys vocab !! i = Some w ->
                    exists row, embeddings !! i = Some row /\ length row = d)
    /\ (forall i w, odict_keys vocab !! i = Some w -> vectors st !! w = None ->
                    embeddings !! i = Some (replicate d fzero)
                    /\ In (missing_warning w) log).
Proof.
  intros Hall Hex.
  destruct (read_lines_establishes f reader_init reader_init_inv Hall (or_intror Hex))
    as (st & log0 & Hread & Hinv & [d Hd]).
  destruct (load_vectors_of_state f vocab st log0 d Hread Hd)
    as (emb & log & Hrun & Hlen & Hrows & Hat & Hlog).
  exists st, log0, d, emb, log.
  split; [exact Hread |]. split; [exact Hd |]. split; [exact Hrun |].
  split; [exact Hlen |]. split.
  - intros i w Hi. exists (default (replicate d fzero) (vectors st !! w)).
    split; [apply Hat; exact Hi |].
    rewrite Forall_forall in Hrows. apply Hrows.
    eapply list_elem_of_lookup_2. apply Hat. exact Hi.
  - intros i w Hi Hnone. split.
    + rewrite (Hat i w Hi), Hnone. reflexivity.
    + apply Hlog; [| exact Hnone].
      apply list_elem_of_In. eapply list_elem_of_lookup_2. exact Hi.
Qed.

Lemma load_vectors_zero_vector_fallback_witness :
  exists embeddings log,
    load_vectors (N := Numeric_Z) example_table4 (load_vocab example_vocab_file)
    = (inr embeddings, log)
    /\ embeddings !! 0%nat = Some [0; 0; 0; 0]%Z
    /\ In (missing_warning "[UNK]") log.
Proof.
  destruct (load_vectors_zero_vector_fallback (N := Numeric_Z) example_table4
              (load_vocab example_vocab_file))
    as (st & log0 & d & emb & log & Hread & Hd & Hrun & _ & _ & Hzero).
  - constructor; [right; exists "2", "4"; reflexivity |].
    constructor; [right; exists "hello", "1 2 3 4"; reflexivity |].
    constructor; [right; exists "world", "5 6 7 8"; reflexivity |].
    constructor.
  - apply List.Exists_cons_tl, List.Exists_cons_hd.
    exists "hello", "1 2 3 4", [1; 2; 3; 4]%Z.
    split; [split; reflexivity |]. split; [reflexivity | simpl; lia].
  - assert (Hst : (inr st, log0) = read_lines (N := Numeric_Z) reader_init example_table4)
      by (symmetry; exact Hread).
    vm_compute in Hst. injection Hst as -> _. injection Hd as <-.
    destruct (Hzero 0%nat "[UNK]") as [Hrow Hwarn]; [reflexivity | reflexivity |].
    exists emb, log. split; [exact Hrun |]. split; [exact Hrow | exact Hwarn].
Defined.

(** C6, as stated, fails: with 3 numbers per word every line is taken for
    a header, no dimensionality is established and [load_vectors] raises
    instead of returning a table. *)
Lemma load_vectors_three_dimensional_counterexample :
  fromstring (Numeric := Numeric_Z) "1 2 3" = Some [1; 2; 3]%Z
  /\ odict_get (load_vocab example_vocab_file) "hello" = Some 1%nat
  /\ odict_get (load_vocab example_vocab_file) "world" = Some 2%nat
  /\ outcome (load_vectors (N := Numeric_Z) example_table3 (load_vocab example_vocab_file))
     = inl TypeError.
Proof. repeat split; vm_compute; reflexivity. Qed.

(** ** The vocabulary *)

Lemma odict_get_combine (names : list string) (k n i : nat) (w : string) :
  odict_get (combine names (seq k n)) w = Some i ->
  (k <= i)%nat /\ names !! (i - k)%nat = Some w.
Proof.
  revert k n. induction names as [| x names IH]; intros k [| n]; cbn;
    try discriminate.
  destruct (String.eqb_spec x w) as [-> | Hne].
  - intros [= ->]. rewrite Nat.sub_diag. auto.
  - intros Hget. apply IH in Hget as [Hle Hat]. split; [lia |].
    replace (i - k)%nat with (S (i - S k)) by lia. exact Hat.
Qed.

Lemma odict_set_fresh (d : odict) (k : string) (v : nat) :
  ~ In k (odict_keys d) -> odict_set d k v = d ++ [(k, v)].
Proof.
  induction d as [| [k' v'] d IH]; cbn; intros Hfresh; [reflexivity |].
  destruct (String.eqb_spec k' k) as [-> | Hne]; [tauto |].
  rewrite IH by tauto. reflexivity.
Qed.

Lemma load_vocab_fold (tokens : list string) (k : nat) (acc : odict) :
  NoDup (odict_keys acc ++ map rstrip_newline tokens) ->
  fold_left (fun vocab '(index, token) => odict_set vocab (rstrip_newline token) index)
            (combine (seq k (length tokens)) tokens) acc
  = acc ++ combine (map rstrip_newline tokens) (seq k (length tokens)).
Proof.
  revert k acc. induction tokens as [| t tokens IH]; intros k acc Hnd; cbn.
  - rewrite app_nil_r. reflexivity.
  - assert (Hfresh : ~ In (rstrip_newline t) (odict_keys acc)).
    { intros Hin. apply NoDup_app in Hnd as (_ & Hdisj & _).
      apply (Hdisj (rstrip_newline t)); [apply list_elem_of_In; exact Hin |].
      apply list_elem_of_In. left. reflexivity. }
    rewrite odict_set_fresh by exact Hfresh. rewrite IH.
    + rewrite <- app_assoc. reflexivity.
    + unfold odict_keys. rewrite map_app. cbn. rewrite <- app_assoc. exact Hnd.
Qed.

(** A vocabulary file without repeated tokens gives each token the index of
    its position. *)
Lemma load_vocab_distinct (tokens : list string) :
  NoDup (map rstrip_newline tokens) ->
  load_vocab tokens = combine (map rstrip_newline tokens) (seq 0 (length tokens)).
Proof.
  intros Hnd. unfold load_vocab, enumerate. rewrite load_vocab_fold; [reflexivity |].
  exact Hnd.
Qed.

Lemma keys_combine_seq (names : list string) (k : nat) :
  odict_keys (combine names (seq k (length names))) = names.
Proof.
  revert k. induction names as [| x names IH]; intros k; cbn; [reflexivity |].
  unfold odict_keys in IH. rewrite IH. reflexivity.
Qed.

Lemma load_vocab_index (tokens : list string) (w : string) (i : nat) :
  NoDup (map rstrip_newline tokens) ->
  odict_get (load_vocab tokens) w = Some i ->
  odict_keys (load_vocab tokens) !! i = Some w.
Proof.
  intros Hnd. rewrite (load_vocab_distinct tokens Hnd). intros Hget.
  apply odict_get_combine in Hget as [_ Hat]. rewrite Nat.sub_0_r in Hat.
  rewrite <- (length_map rstrip_newline tokens), keys_combine_seq. exact Hat.
Qed.

(** C6 (as amended).  From a table of a header line (fewer than four
    numbers) followed by two distinct words with vectors of one length of at
    least four, [load_vectors] returns a table with one row per vocabulary
    entry: the vector of the first word in the rows of that word, the vector
    of the second word in the rows of that word, zeros elsewhere.  When the
    vocabulary was read from a file without repeated tokens, these rows are
    at the vocabulary indices of the words.  The first line with at least
    four numbers establishes the dimensionality, and a later line of
    another dimensionality leaves the state of the reader as it is. *)
Theorem load_vectors_header_and_two_words {F : Type} {N : Numeric F}
    (header l1 l2 hw hvs w1 vs1 w2 vs2 : string) (hv v1 v2 : list F)
    (vocab : odict) :
  line_reads header hw hvs -> fromstring hvs = Some hv -> (length hv < 4)%nat ->
  line_reads l1 w1 vs1 -> fromstring vs1 = Some v1 -> (4 <= length v1)%nat ->
  line_reads l2 w2 vs2 -> fromstring vs2 = Some v2 -> length v2 = length v1 ->
  w1 <> w2 ->
  exists embeddings log (st : @Reader F) log0,
    load_vectors [header; l1; l2] vocab = (inr embeddings, log)
    /\ read_lines reader_init [header; l1; l2] = (inr st, log0)
    /\ embeddings_dimensionality st = Some (length v1)
    /\ length embeddings = length vocab
    /\ (forall i w, odict_keys vocab !! i = Some w ->
          embeddings !! i =
          Some (if decide (w = w1) then v1
                else if decide (w = w2) then v2
                else replicate (length v1) fzero))
    /\ (forall tokens, vocab = load_vocab tokens ->
          NoDup (map rstrip_newline tokens) ->
          (forall i, odict_get vocab w1 = Some i -> embeddings !! i = Some v1)
          /\ (forall i, odict_get vocab w2 = Some i -> embeddings !! i = Some v2))
    /\ (forall (st' : @Reader F) l w vs v d,
          line_reads l w vs -> w ∉ words_transformed st' -> fromstring vs = Some v ->
          embeddings_dimensionality st' = Some d -> length v <> d ->
          read_line st' l = ret st').
Proof.
  intros Hh Hhv Hhlen H1 Hv1 Hlen1 H2 Hv2 Hlen2 Hne.
  set (st1 := MkReader ({[w1]} ∪ ∅) 0 (Some (length v1)) (<[w1 := v1]> ∅)).
  set (st2 := MkReader ({[w2]} ∪ ({[w1]} ∪ ∅)) 0 (Some (length v1))
                       (<[w2 := v2]> (<[w1 := v1]> ∅))).
  assert (Hread : read_lines reader_init [header; l1; l2]
                  = (inr st2, [LogRecord INFO "Skipping header"])).
  { assert (Hfresh : w2 ∉ words_transformed st1).
    { cbn. rewrite elem_of_union, elem_of_singleton.
      intros [Heq | Hin]; [congruence | exact (not_elem_of_empty _ Hin)]. }
    cbn [read_lines].
    rewrite (read_line_header reader_init header hw hvs hv Hh
               (not_elem_of_empty _) Hhv eq_refl Hhlen).
    cbn [bind].
    rewrite (read_line_first reader_init l1 w1 vs1 v1 H1
               (not_elem_of_empty _) Hv1 eq_refl Hlen1).
    rewrite bind_ret_l.
    change (MkReader ({[w1]} ∪ words_transformed reader_init) (repetitions reader_init)
                     (Some (length v1)) (<[w1 := v1]> (vectors reader_init))) with st1.
    rewrite (read_line_match st1 l2 w2 vs2 v2 (length v1) H2 Hfresh Hv2 eq_refl Hlen2).
    rewrite !bind_ret_l. reflexivity. }
  destruct (load_vectors_of_state _ vocab st2 _ (length v1) Hread eq_refl)
    as (emb & log & Hrun & Hlen & _ & Hat & _).
  assert (Hrows : forall i w, odict_keys vocab !! i = Some w ->
            emb !! i = Some (if decide (w = w1) then v1
                             else if decide (w = w2) then v2
                             else replicate (length v1) fzero)).
  { intros i w Hi. rewrite (Hat i w Hi). f_equal. cbn [vectors st2].
    destruct (decide (w = w1)) as [-> | Hn1].
    - rewrite lookup_insert_ne by congruence. rewrite lookup_insert_eq. reflexivity.
    - destruct (decide (w = w2)) as [-> | Hn2].
      + rewrite lookup_insert_eq. reflexivity.
      + rewrite !lookup_insert_ne by congruence. rewrite lookup_empty. reflexivity. }
  exists emb, log, st2, [LogRecord INFO "Skipping header"].
  split; [exact Hrun |]. split; [exact Hread |]. split; [reflexivity |].
  split; [exact Hlen |]. split; [exact Hrows |].
  split; [| intros st' l w vs v d; apply read_line_mismatch].
  intros tokens -> Hnd. split; intros i Hi.
  - rewrite (Hrows i w1 (load_vocab_index tokens w1 i Hnd Hi)).
    rewrite decide_True by reflexivity. reflexivity.
  - rewrite (Hrows i w2 (load_vocab_index tokens w2 i Hnd Hi)).
    rewrite decide_False by congruence. rewrite decide_True by reflexivity. reflexivity.
Qed.

Lemma load_vectors_header_and_two_words_witness :
  exists embeddings log,
    load_vectors (N := Numeric_Z) example_table4 (load_vocab example_vocab_file)
    = (inr embeddings, log)
    /\ embeddings !! 1%nat = Some [1; 2; 3; 4]%Z
    /\ embeddings !! 2%nat = Some [5; 6; 7; 8]%Z.
Proof.
  destruct (load_vectors_header_and_two_words (N := Numeric_Z)
              (line "2 4") (line "hello 1 2 3 4") (line "world 5 6 7 8")
              "2" "4" "hello" "1 2 3 4" "world" "5 6 7 8"
              [4]%Z [1; 2; 3; 4]%Z [5; 6; 7; 8]%Z (load_vocab example_vocab_file))
    as (emb & log & st & log0 & Hrun & _ & _ & _ & _ & Hidx & _).
  - split; reflexivity.
  - reflexivity.
  - simpl. lia.
  - split; reflexivity.
  - reflexivity.
  - simpl. lia.
  - split; reflexivity.
  - reflexivity.
  - reflexivity.
  - discriminate.
  - destruct (Hidx example_vocab_file eq_refl) as [H1 H2].
    + apply (bool_decide_eq_true_1 _). vm_compute. reflexivity.
    + exists emb, log. split; [exact Hrun |].
      split; [apply H1 | apply H2]; reflexivity.
Defined.

Lemma odict_get_None (d : odict) (k : string) :
  odict_get d k = None <-> ~ In k (odict_keys d).
Proof.
  induction d as [| [k' v'] d IH]; cbn; [tauto |].
  destruct (String.eqb_spec k' k) as [-> | Hne].
  - split; [discriminate | tauto].
  - rewrite IH. tauto.
Qed.

Lemma odict_get_Some_In (d : odict) (k : string) (i : nat) :
  odict_get d k = Some i -> In k (odict_keys d).
Proof.
  induction d as [| [k' v'] d IH]; cbn; [discriminate |].
  destruct (String.eqb_spec k' k) as [-> | Hne]; [tauto | auto].
Qed.

(** C8.  [EmbeddingModel.__init__] returns a model only for a vocabulary
    with the marker "[UNK]", whose index it records.  Once the vocabulary
    file and the table are read and [load_vectors] has returned, a
    vocabulary without the marker ends in the assertion error, and one with
    the marker in the model whose [unk_idx] is the vocabulary index of the
    marker. *)
Theorem EmbeddingModel_requires_unk {F : Type} {N : Numeric F} {L : Library}
    (fs : gmap string (file weights)) (path : string)
    (config : gmap string jval) (vocab_filename : string) :
  (forall (m : @EmbeddingModel F) log,
      EmbeddingModel_init fs path config vocab_filename = (inr m, log) ->
      In "[UNK]" (odict_keys (vocab m))
      /\ odict_get (vocab m) "[UNK]" = Some (unk_idx m))
  /\ (forall tokens f (embeddings : list (list F)) log,
      readlines fs vocab_filename = ret tokens ->
      readlines fs path = ret f ->
      load_vectors f (load_vocab tokens) = (inr embeddings, log) ->
      (~ In "[UNK]" (odict_keys (load_vocab tokens)) ->
       EmbeddingModel_init fs path config vocab_filename
       = (inl (AssertionError "No [UNK] symbol in Wordembeddingmodel! Aborting"), log))
      /\ (In "[UNK]" (odict_keys (load_vocab tokens)) ->
          exists i,
            odict_get (load_vocab tokens) "[UNK]" = Some i
            /\ EmbeddingModel_init fs path config vocab_filename
               = (inr (MkEmbeddingModel (EmbeddingConfig config) (load_vocab tokens)
                                        embeddings i), log))).
Proof.
  split.
  - intros m log Hrun. unfold EmbeddingModel_init in Hrun. cbv zeta in Hrun.
    apply bind_inr_inv in Hrun as (tokens & l1 & l2 & _ & Hrun & _).
    apply bind_inr_inv in Hrun as (f & l3 & l4 & _ & Hrun & _).
    apply bind_inr_inv in Hrun as (emb & l5 & l6 & _ & Hrun & _).
    destruct (odict_get (load_vocab tokens) "[UNK]") as [i |] eqn:Hget; [| discriminate].
    injection Hrun as <- _. cbn. split; [| exact Hget].
    eapply odict_get_Some_In. exact Hget.
  - intros tokens f emb log Htokens Hf Hload.
    assert (Hrun : forall r,
               (match odict_get (load_vocab tokens) "[UNK]" with
                | None => raise (AssertionError "No [UNK] symbol in Wordembeddingmodel! Aborting")
                | Some i => ret (MkEmbeddingModel (EmbeddingConfig config) (load_vocab tokens) emb i)
                end) = (r, []) ->
               EmbeddingModel_init fs path config vocab_filename = (r, log)).
    { intros r Hr. unfold EmbeddingModel_init. cbv zeta.
      rewrite Htokens, bind_ret_l, Hf, bind_ret_l.
      rewrite <- (app_nil_r log). eapply bind_inr; [exact Hload | exact Hr]. }
    split.
    + intros Hnot. apply Hrun. apply odict_get_None in Hnot. rewrite Hnot. reflexivity.
    + intros Hin. destruct (odict_get (load_vocab tokens) "[UNK]") as [i |] eqn:Hget.
      * exists i. split; [reflexivity |]. apply Hrun. reflexivity.
      * apply odict_get_None in Hget. contradiction.
Qed.

Lemma EmbeddingModel_requires_unk_witness :
  outcome (EmbeddingModel_init (N := Numeric_Z) (L := toy_library) example_fs
             "A/vectors.txt" example_embedding_config "A/vocab_without_unk.txt")
  = inl (AssertionError "No [UNK] symbol in Wordembeddingmodel! Aborting").
Proof.
  destruct (EmbeddingModel_requires_unk (N := Numeric_Z) (L := toy_library) example_fs
              "A/vectors.txt" example_embedding_config "A/vocab_without_unk.txt")
    as [_ Hinit].
  destruct (load_vectors (N := Numeric_Z) example_table4
              (load_vocab [line "hello"; line "world"]))
    as [[e | embeddings] log] eqn:Hload.
  - vm_compute in Hload. discriminate.
  - destruct (Hinit [line "hello"; line "world"] example_table4 embeddings log)
      as [Hfail _]; [vm_compute; reflexivity | vm_compute; reflexivity | exact Hload |].
    rewrite Hfail; [reflexivity |].
    vm_compute. intros [H | [H | []]]; discriminate.
Defined.

(** ** Saving and loading again *)

Lemma append_inj_l (s a b : string) : s +:+ a = s +:+ b -> a = b.
Proof. induction s as [| c s IH]; cbn; [auto |]. intros [= Heq]. auto. Qed.

Lemma path_join_inj (dir a b : string) : path_join dir a = path_join dir b -> a = b.
Proof.
  unfold path_join. intros Heq. apply append_inj_l in Heq.
  apply (append_inj_l "/") in Heq. exact Heq.
Qed.

Section RoundTrip.
Context {F : Type} {N : Numeric F} {L : Library}.

Lemma stamped_name (self : @LanguageModel F L) (config : gmap string jval) :
  stamped self config !! "name" = Some (JStr (class_name (lm_class self))).
Proof.
  unfold stamped. rewrite lookup_insert_ne by discriminate.
  apply lookup_insert_eq.
Qed.

Lemma stamped_language (self : @LanguageModel F L) (config : gmap string jval) :
  stamped self config !! "language" = Some (lm_language self).
Proof. unfold stamped. apply lookup_insert_eq. Qed.

Lemma stamped_vocab_size (self : @LanguageModel F L) (config : gmap string jval) :
  stamped self config !! "vocab_size" = config !! "vocab_size".
Proof. unfold stamped. rewrite !lookup_insert_ne by discriminate. reflexivity. Qed.

(** The files [LanguageModel.save] leaves in the directory. *)
Lemma LanguageModel_save_files (self : @LanguageModel F L) (m : HFModel weights)
    (save_dir : string) (fs : gmap string (file weights)) :
  lm_model self = Transformer m ->
  exists self' fs',
    LanguageModel_save self save_dir fs = ret (self', fs')
    /\ fs' !! path_join save_dir "language_model_config.json"
       = Some (JsonFile (stamped self (hf_config m)))
    /\ fs' !! path_join save_dir "language_model.bin"
       = Some (StateDictFile (hf_weights m)).
Proof.
  intros Hm. unfold LanguageModel_save, save_config. rewrite Hm. cbv zeta.
  eexists _, _. split; [reflexivity |]. cbn [lm_config lm_model hf_config]. split.
  - apply lookup_insert_eq.
  - rewrite lookup_insert_ne.
    + apply lookup_insert_eq.
    + intros Heq. apply path_join_inj in Heq. discriminate.
Qed.

(** Loading a class of the transformers from a directory [save] wrote. *)
Lemma transformers_load_saved (c : LMClass) (fs : gmap string (file weights))
    (dir : string) (config : gmap string jval) (w : weights) (language : jval) :
  fs !! path_join dir "language_model_config.json" = Some (JsonFile config) ->
  fs !! path_join dir "language_model.bin" = Some (StateDictFile w) ->
  config !! "language" = Some language ->
  transformers_load (F := F) c fs dir JNull ∅ =
  ret (MkLanguageModel c (JStr dir) language
         (Transformer (MkHFModel config w (eq_True (config !! "output_hidden_states"))))).
Proof.
  intros Hcfg Hbin Hlang. unfold transformers_load. cbv zeta.
  unfold exists_file, json_load, model_from_pretrained. rewrite Hcfg, Hbin.
  rewrite bool_decide_eq_true_2 by eauto.
  rewrite !bind_ret_l. cbn [hf_config]. rewrite Hlang, lookup_empty. reflexivity.
Qed.

End RoundTrip.

Section RoundTripLoad.
Context {F : Type} {N : Numeric F} {L : Library}.

Lemma subclass_load_saved (c : LMClass) (fs : gmap string (file weights))
    (dir : string) (config : gmap string jval) (w : weights) (language : jval) :
  c <> WordEmbedding_LM ->
  fs !! path_join dir "language_model_config.json" = Some (JsonFile config) ->
  fs !! path_join dir "language_model.bin" = Some (StateDictFile w) ->
  config !! "language" = Some language ->
  subclass_load (F := F) c fs dir JNull ∅ =
  ret (set_config (summary_attributes c)
         (MkLanguageModel c (JStr dir) language
            (Transformer (MkHFModel config w (eq_True (config !! "output_hidden_states")))))).
Proof.
  intros Hc Hcfg Hbin Hlang.
  pose proof (transformers_load_saved (F := F) c fs dir config w language Hcfg Hbin Hlang) as Hload.
  destruct c; try contradiction; cbn [subclass_load summary_attributes];
    unfold Bert_load, Albert_load, Roberta_load, XLMRoberta_load, DistilBert_load, XLNet_load;
    rewrite Hload; try rewrite bind_ret_l; reflexivity.
Qed.

Lemma set_config_keeps (attrs : list (string * jval)) (lm : @LanguageModel F L)
    (key : string) :
  ~ In key (map fst attrs) ->
  lm_class (set_config attrs lm) = lm_class lm
  /\ lm_language (set_config attrs lm) = lm_language lm
  /\ lm_config (set_config attrs lm) !! key = lm_config lm !! key
  /\ (forall m, lm_model lm = Transformer m ->
        exists m', lm_model (set_config attrs lm) = Transformer m'
                   /\ hf_weights m' = hf_weights m).
Proof.
  intros Hkey. unfold set_config, lm_config.
  destruct (lm_model lm) as [m | em] eqn:Hm; cbn; rewrite ?Hm.
  - repeat split.
    + cbn. generalize (hf_config m). induction attrs as [| [k v] attrs IH]; intros cfg;
        cbn; [reflexivity |].
      rewrite IH by (cbn in Hkey; tauto).
      apply lookup_insert_ne. cbn in Hkey. intros ->. tauto.
    + intros m0 [= <-]. eexists. split; reflexivity.
  - repeat split. intros m0 [=].
Qed.

End RoundTripLoad.

(** The round trip of a model that wraps a transformers model. *)
Lemma save_load_transformer {F : Type} {N : Numeric F} {L : Library}
    (fs : gmap string (file weights)) (self : @LanguageModel F L)
    (m : HFModel weights) (save_dir : string) :
  lm_class self <> WordEmbedding_LM ->
  lm_model self = Transformer m ->
  exists self' fs' config loaded m',
    save self save_dir fs = ret (self', fs')
    /\ fs' !! path_join save_dir "language_model_config.json" = Some (JsonFile config)
    /\ config !! "name" = Some (JStr (class_name (lm_class self)))
    /\ subclasses_getitem (JStr (class_name (lm_class self))) = ret (lm_class self)
    /\ load fs' save_dir 0 JNull ∅ = ret loaded
    /\ save_then_load fs self save_dir = ret loaded
    /\ lm_class loaded = lm_class self
    /\ lm_language loaded = lm_language self
    /\ vocab_size loaded = vocab_size self
    /\ lm_model loaded = Transformer m'
    /\ hf_weights m' = hf_weights m.
Proof.
  intros Hc Hm.
  destruct (LanguageModel_save_files self m save_dir fs Hm) as (self' & fs' & Hsave & Hcfg & Hbin).
  assert (Hsave' : save self save_dir fs = ret (self', fs')).
  { unfold save. destruct (lm_class self); try exact Hsave. contradiction. }
  set (config := stamped self (hf_config m)) in *.
  set (lm0 := MkLanguageModel (F := F) (lm_class self) (JStr save_dir) (lm_language self)
                (Transformer (MkHFModel config (hf_weights m)
                                (eq_True (config !! "output_hidden_states"))))).
  set (loaded := set_config (summary_attributes (lm_class self)) lm0).
  assert (Hload : load fs' save_dir 0 JNull ∅ = ret loaded).
  { unfold load. cbv zeta. unfold exists_file, json_load. rewrite Hcfg.
    rewrite bool_decide_eq_true_2 by eauto.
    rewrite !bind_ret_l. unfold config at 1. rewrite stamped_name, bind_ret_l.
    rewrite subclasses_class_name, bind_ret_l.
    rewrite (subclass_load_saved (lm_class self) fs' save_dir config (hf_weights m)
               (lm_language self) Hc Hcfg Hbin (stamped_language self (hf_config m))).
    rewrite !bind_ret_l. reflexivity. }
  assert (Hkey : ~ In "vocab_size" (map fst (summary_attributes (lm_class self)))).
  { destruct (lm_class self); cbn; intros Hin;
      repeat (destruct Hin as [Hin | Hin]; [discriminate |]); exact Hin. }
  destruct (set_config_keeps (summary_attributes (lm_class self)) lm0 "vocab_size" Hkey)
    as (Hclass & Hlang & Hvocab & Hmodel).
  destruct (Hmodel _ eq_refl) as (m' & Hm' & Hw').
  exists self', fs', config, loaded, m'.
  split; [exact Hsave' |]. split; [exact Hcfg |].
  split; [apply stamped_name |]. split; [apply subclasses_class_name |].
  split; [exact Hload |].
  split; [unfold save_then_load; rewrite Hsave', bind_ret_l; exact Hload |].
  split; [exact Hclass |]. split; [exact Hlang |].
  split.
  - unfold vocab_size. fold loaded in Hvocab. rewrite Hvocab.
    unfold lm_config. rewrite Hm. cbn. apply stamped_vocab_size.
  - split; [exact Hm' | exact Hw'].
Qed.

Section Loaded.
Context {F : Type} {N : Numeric F} {L : Library}.

Lemma transformers_load_backbone (c : LMClass) (fs : gmap string (file weights))
    (p : string) (language : jval) (kwargs : gmap string jval)
    (lm : @LanguageModel F L) (log : list log_record) :
  transformers_load c fs p language kwargs = (inr lm, log) ->
  lm_class lm = c /\ exists m, lm_model lm = Transformer m.
Proof.
  unfold transformers_load. cbv zeta. destruct (exists_file fs _).
  - intros Hrun.
    apply bind_inr_inv in Hrun as (config & l1 & l2 & _ & Hrun & _).
    apply bind_inr_inv in Hrun as (hf & l3 & l4 & _ & Hrun & _).
    destruct (hf_config hf !! "language"); [| discriminate].
    injection Hrun as <- _. cbn. eauto.
  - intros Hrun.
    apply bind_inr_inv in Hrun as ([config w] & l1 & l2 & _ & Hrun & _).
    apply bind_inr_inv in Hrun as (lang & l3 & l4 & _ & Hrun & _).
    injection Hrun as <- _. cbn. eauto.
Qed.

Lemma set_config_backbone (attrs : list (string * jval)) (lm : @LanguageModel F L) :
  lm_class (set_config attrs lm) = lm_class lm
  /\ ((exists m, lm_model lm = Transformer m) ->
      exists m, lm_model (set_config attrs lm) = Transformer m).
Proof.
  unfold set_config. destruct (lm_model lm) eqn:Hm; cbn; rewrite ?Hm; eauto.
Qed.

Lemma subclass_load_backbone (c : LMClass) (fs : gmap string (file weights))
    (p : string) (language : jval) (kwargs : gmap string jval)
    (lm : @LanguageModel F L) (log : list log_record) :
  subclass_load c fs p language kwargs = (inr lm, log) ->
  lm_class lm = c
  /\ (c <> WordEmbedding_LM -> exists m, lm_model lm = Transformer m).
Proof.
  destruct c; cbn [subclass_load];
    unfold Bert_load, Albert_load, Roberta_load, XLMRoberta_load,
           DistilBert_load, XLNet_load; intros Hrun.
  1-4: apply transformers_load_backbone in Hrun as [Hc Hm]; auto.
  1-2: apply bind_inr_inv in Hrun as (lm0 & l1 & l2 & Hload & Hret & _);
       apply transformers_load_backbone in Hload as [Hc Hm];
       injection Hret as <- _;
       match goal with
       | |- context [set_config ?attrs lm0] =>
           destruct (set_config_backbone attrs lm0) as [Hc' Hm']
       end;
       rewrite Hc'; auto.
  unfold WordEmbedding_LM_load in Hrun. cbv zeta in Hrun.
  destruct (exists_file fs _); [| discriminate].
  apply bind_inr_inv in Hrun as (config & l1 & l2 & _ & Hrun & _).
  apply bind_inr_inv in Hrun as (ef & l3 & l4 & _ & Hrun & _).
  apply bind_inr_inv in Hrun as (vf & l5 & l6 & _ & Hrun & _).
  apply bind_inr_inv in Hrun as (em & l7 & l8 & _ & Hrun & _).
  injection Hrun as <- _. cbn. split; [reflexivity | congruence].
Qed.

Lemma resize_backbone (lm lm' : @LanguageModel F L) (n : Z) (log : list log_record) :
  resize_for_custom_vocab lm n = (inr lm', log) ->
  lm_class lm' = lm_class lm
  /\ ((exists m, lm_model lm = Transformer m) -> exists m, lm_model lm' = Transformer m).
Proof.
  unfold resize_for_custom_vocab. destruct (lm_model lm) as [m | em] eqn:Hm; intros Hrun;
    apply bind_inr_inv in Hrun as ([] & l1 & l2 & _ & Hrun & _).
  - destruct (_ =? _)%Z; [| discriminate]. injection Hrun as <- _. cbn. eauto.
  - destruct (_ =? _)%Z; [| discriminate]. injection Hrun as <- _. rewrite Hm. auto.
Qed.

(** A model that [LanguageModel.load] returned for one of the six
    transformer adapters wraps a transformers model. *)
Lemma load_backbone (fs : gmap string (file weights)) (p : string) (n : Z)
    (cls : jval) (kwargs : gmap string jval) (lm : @LanguageModel F L)
    (log : list log_record) :
  load fs p n cls kwargs = (inr lm, log) ->
  lm_class lm <> WordEmbedding_LM ->
  exists m, lm_model lm = Transformer m.
Proof.
  unfold load. cbv zeta. intros Hrun Hclass.
  apply bind_inr_inv in Hrun as ([lm0 n0] & l1 & l2 & Hfirst & Hrest & _).
  assert (Hlm0 : forall c l, subclass_load c fs p
                   (if exists_file fs (path_join p "language_model_config.json")
                    then JNull else default JNull (kwargs !! "language"))
                   (if exists_file fs (path_join p "language_model_config.json")
                    then ∅ else delete "language" kwargs) = (inr lm0, l) ->
                 lm_class lm0 = c
                 /\ (c <> WordEmbedding_LM -> exists m, lm_model lm0 = Transformer m)).
  { intros c l. apply subclass_load_backbone. }
  assert (Hback : lm_class lm0 <> WordEmbedding_LM -> exists m, lm_model lm0 = Transformer m).
  { destruct (exists_file fs _).
    - apply bind_inr_inv in Hfirst as (config & l3 & l4 & _ & Hfirst & _).
      apply bind_inr_inv in Hfirst as (key & l5 & l6 & _ & Hfirst & _).
      apply bind_inr_inv in Hfirst as (c & l7 & l8 & _ & Hfirst & _).
      apply bind_inr_inv in Hfirst as (lm1 & l9 & l10 & Hload & Hret & _).
      injection Hret as -> _. destruct (Hlm0 c l9 Hload) as [<- Hm]. exact Hm.
    - apply bind_inr_inv in Hfirst as (c & l7 & l8 & _ & Hfirst & _).
      apply bind_inr_inv in Hfirst as (lm1 & l9 & l10 & Hload & Hret & _).
      injection Hret as -> _. destruct (Hlm0 c l9 Hload) as [<- Hm]. exact Hm. }
  unfold is_falsy in Hrest. cbv iota in Hrest.
  destruct (negb (n0 =? 0)%Z).
  - apply resize_backbone in Hrest as [Hc Hm]. apply Hm, Hback. congruence.
  - injection Hrest as <- _. apply Hback, Hclass.
Qed.

End Loaded.

(** X28.  For a language model that [LanguageModel.load]
    returned for one of the six transformer adapters, [save] into a
    directory followed by [LanguageModel.load] of that directory returns a
    model of the same class, found in the registry under the name field of
    the saved configuration, with the same language and the same vocabulary
    size. *)
Theorem save_load_round_trip {F : Type} {N : Numeric F} {L : Library}
    (fs0 fs : gmap string (file weights)) (p : string) (n : Z) (cls : jval)
    (kwargs : gmap string jval) (self : @LanguageModel F L)
    (log : list log_record) (save_dir : string) :
  load fs0 p n cls kwargs = (inr self, log) ->
  lm_class self <> WordEmbedding_LM ->
  exists self' fs' config loaded,
    save self save_dir fs = ret (self', fs')
    /\ fs' !! path_join save_dir "language_model_config.json" = Some (JsonFile config)
    /\ config !! "name" = Some (JStr (class_name (lm_class self)))
    /\ subclasses_getitem (JStr (class_name (lm_class self))) = ret (lm_class self)
    /\ load fs' save_dir 0 JNull ∅ = ret loaded
    /\ save_then_load fs self save_dir = ret loaded
    /\ lm_class loaded = lm_class self
    /\ lm_language loaded = lm_language self
    /\ vocab_size loaded = vocab_size self.
Proof.
  intros Hloaded Hclass.
  destruct (load_backbone _ _ _ _ _ _ _ Hloaded Hclass) as [m Hm].
  destruct (save_load_transformer fs self m save_dir Hclass Hm)
    as (self' & fs' & config & loaded & m' & H1 & H2 & H3 & H4 & H5 & H6 & H7 & H8 & H9 & _).
  exists self', fs', config, loaded. repeat split; assumption.
Qed.

Lemma save_load_round_trip_witness :
  exists loaded,
    save_then_load (N := Numeric_Z) (L := toy_library) ∅ example_bert "saved" = ret loaded
    /\ lm_class loaded = Bert
    /\ lm_language loaded = JStr "english"
    /\ vocab_size loaded = Some (JNum 30522).
Proof.
  destruct (save_load_round_trip (N := Numeric_Z) (L := toy_library) ∅ ∅
              "bert-base-cased" 0%Z JNull ∅ example_bert
              [LogRecord WARNING
                 "Could not automatically detect from language model name what language it is."]
              "saved")
    as (self' & fs' & config & loaded & _ & _ & _ & _ & _ & Hrun & Hc & Hl & Hv).
  - vm_compute. reflexivity.
  - discriminate.
  - exists loaded. split; [exact Hrun |]. split; [exact Hc |]. split; [exact Hl |].
    rewrite Hv. vm_compute. reflexivity.
Defined.

(** C9.  The round trip fails for the word-embedding adapter.  Its [save]
    writes the table and the configuration but not the vocabulary file that
    its [load] reads from the directory: for a model whose configuration
    names the two files, saved into a directory that does not hold the
    vocabulary file already, the save succeeds and loading the directory
    raises [FileNotFoundError] for that file. *)
Theorem word_embedding_save_then_load_fails {F : Type} {N : Numeric F} {L : Library}
    (fs : gmap string (file weights)) (self : @LanguageModel F L)
    (em : EmbeddingModel) (save_dir ef vf : string) :
  lm_class self = WordEmbedding_LM ->
  lm_model self = WordVectors em ->
  em_config em !! "embeddings_filename" = Some (JStr ef) ->
  em_config em !! "vocab_filename" = Some (JStr vf) ->
  ef <> vf ->
  vf <> "language_model_config.json" ->
  fs !! path_join save_dir vf = None ->
  exists self1 fs1,
    save self save_dir fs = ret (self1, fs1)
    /\ fs1 !! path_join save_dir vf = None
    /\ load (F := F) fs1 save_dir 0 JNull ∅
       = raise (FileNotFoundError (path_join save_dir vf))
    /\ save_then_load fs self save_dir
       = raise (FileNotFoundError (path_join save_dir vf)).
Proof.
  intros Hc Hm Hef Hvf Hne Hcfgname Hfs.
  set (config := stamped self (em_config em)).
  set (fs1 := <[path_join save_dir "language_model_config.json" := JsonFile config]>
                (<[path_join save_dir ef := TextFile (embedding_lines em)]> fs)).
  assert (Hsave : exists self1, save self save_dir fs = ret (self1, fs1)).
  { unfold save. rewrite Hc. unfold WordEmbedding_LM_save. rewrite Hm.
    unfold EmbeddingModel_save. rewrite Hef, bind_ret_l.
    unfold save_config. cbv zeta. rewrite Hm.
    eexists. reflexivity. }
  destruct Hsave as [self1 Hsave].
  assert (Hcfg : fs1 !! path_join save_dir "language_model_config.json"
                 = Some (JsonFile config)) by apply lookup_insert_eq.
  assert (Hvocab : fs1 !! path_join save_dir vf = None).
  { unfold fs1. rewrite !lookup_insert_ne; [exact Hfs | |].
    - intros Heq. apply path_join_inj in Heq. contradiction.
    - intros Heq. apply path_join_inj in Heq. congruence. }
  assert (Hconfig : config !! "embeddings_filename" = Some (JStr ef)
                    /\ config !! "vocab_filename" = Some (JStr vf)).
  { unfold config, stamped. rewrite !lookup_insert_ne by discriminate. auto. }
  destruct Hconfig as [Hef' Hvf'].
  assert (Hsub : WordEmbedding_LM_load (F := F) fs1 save_dir JNull ∅
                 = raise (FileNotFoundError (path_join save_dir vf))).
  { unfold WordEmbedding_LM_load. cbv zeta. unfold exists_file, json_load. rewrite Hcfg.
    rewrite bool_decide_eq_true_2 by eauto. rewrite bind_ret_l.
    unfold config_filename. rewrite Hef', bind_ret_l, Hvf', bind_ret_l.
    unfold EmbeddingModel_init. cbv zeta. unfold readlines at 1. rewrite Hvocab.
    reflexivity. }
  assert (Hload : load (F := F) fs1 save_dir 0 JNull ∅
                  = raise (FileNotFoundError (path_join save_dir vf))).
  { unfold load. cbv zeta. unfold exists_file, json_load. rewrite Hcfg.
    rewrite bool_decide_eq_true_2 by eauto. rewrite !bind_ret_l.
    unfold config at 1. rewrite stamped_name, bind_ret_l. rewrite Hc.
    rewrite (subclasses_class_name WordEmbedding_LM), bind_ret_l.
    cbn [subclass_load]. rewrite Hsub. reflexivity. }
  exists self1, fs1. split; [exact Hsave |]. split; [exact Hvocab |].
  split; [exact Hload |].
  unfold save_then_load. rewrite Hsave, bind_ret_l. exact Hload.
Qed.

Lemma word_embedding_save_then_load_fails_witness :
  outcome (load (N := Numeric_Z) (L := toy_library) example_fs "A" 0 JNull ∅)
  = inr example_word_embedding
  /\ exists self1 fs1,
       save (N := Numeric_Z) (L := toy_library) example_word_embedding "B" example_fs
       = ret (self1, fs1)
       /\ fs1 !! "B/vocab.txt" = None
       /\ load (N := Numeric_Z) (L := toy_library) fs1 "B" 0 JNull ∅
          = raise (FileNotFoundError "B/vocab.txt")
       /\ save_then_load (N := Numeric_Z) (L := toy_library) example_fs
            example_word_embedding "B"
          = raise (FileNotFoundError "B/vocab.txt").
Proof.
  split; [vm_compute; reflexivity |].
  apply (word_embedding_save_then_load_fails (N := Numeric_Z) (L := toy_library)
           example_fs example_word_embedding example_model "B" "vectors.txt" "vocab.txt").
  - reflexivity.
  - reflexivity.
  - vm_compute. reflexivity.
  - vm_compute. reflexivity.
  - discriminate.
  - discriminate.
  - vm_compute. reflexivity.
Defined.

(** * Further properties *)

(** ** The reading loop *)

Section ReaderMore.
Context {F : Type} {N : Numeric F}.

Lemma read_lines_app (f1 f2 : list string) (st : @Reader F) :
  read_lines st (f1 ++ f2) = (let* st1 := read_lines st f1 in read_lines st1 f2).
Proof.
  revert st. induction f1 as [| l f1 IH]; intros st; cbn [app read_lines].
  - rewrite bind_ret_l. reflexivity.
  - rewrite bind_assoc. apply bind_ext. intros st1. apply IH.
Qed.

Lemma reader_init_dom : reader_dom (F := F) reader_init.
Proof.
  intros w. cbn. rewrite lookup_empty. split.
  - intros Hw. exfalso. exact (not_elem_of_empty _ Hw).
  - intros [v Hv]. discriminate.
Qed.

(** One turn of the loop keeps the vectors it has, keeps the marks in step
    with the vectors, and never lowers the counter. *)
Lemma read_line_keeps (st st' : @Reader F) (l : string) (log : list log_record) :
  reader_dom st -> read_line st l = (inr st', log) ->
  reader_dom st'
  /\ (forall w v, vectors st !! w = Some v -> vectors st' !! w = Some v)
  /\ (repetitions st <= repetitions st')%nat.
Proof.
  intros Hdom Hrun. unfold read_line in Hrun. cbv zeta in Hrun.
  destruct (is_empty (strip l)).
  { injection Hrun as <- _. auto. }
  destruct (split_once (strip l)) as [[w vs] |]; [| discriminate].
  case_bool_decide as Hw.
  { injection Hrun as <- _. cbn. split; [exact Hdom |]. split; [auto | lia]. }
  destruct (fromstring vs) as [v |].
  2: { injection Hrun as <- _. auto. }
  assert (Hstore : forall d,
             (if (length v =? d)%nat
              then ret (MkReader ({[w]} ∪ words_transformed st) (repetitions st)
                                 (Some d) (<[w := v]> (vectors st)))
              else ret (MkReader (words_transformed st) (repetitions st)
                                 (Some d) (vectors st))) = (inr st', log) ->
             reader_dom st'
             /\ (forall w v, vectors st !! w = Some v -> vectors st' !! w = Some v)
             /\ (repetitions st <= repetitions st')%nat).
  { intros d Hd. destruct (length v =? d)%nat; injection Hd as <- _; cbn.
    - split; [| split; [| lia]].
      + intros w'. cbn. rewrite elem_of_union, elem_of_singleton, (Hdom w').
        destruct (decide (w = w')) as [<- | Hne].
        * rewrite lookup_insert_eq. split; eauto.
        * rewrite lookup_insert_ne by exact Hne. split; [intros [? | ?] |]; auto.
          congruence.
      + intros w' v' Hv'. destruct (decide (w = w')) as [<- | Hne].
        * exfalso. apply Hw, Hdom. eauto.
        * rewrite lookup_insert_ne by exact Hne. exact Hv'.
    - split; [exact Hdom |]. split; [auto | lia]. }
  destruct (embeddings_dimensionality st) as [d |].
  - apply (Hstore d Hrun).
  - destruct (length v <? 4)%nat.
    + injection Hrun as <- _. auto.
    + apply (Hstore (length v) Hrun).
Qed.

Lemma read_lines_keeps (f : list string) (st st' : @Reader F) (log : list log_record) :
  reader_dom st -> read_lines st f = (inr st', log) ->
  reader_dom st'
  /\ (forall w v, vectors st !! w = Some v -> vectors st' !! w = Some v)
  /\ (repetitions st <= repetitions st')%nat.
Proof.
  revert st log. induction f as [| l f IH]; intros st log Hdom Hrun.
  - injection Hrun as <- _. auto.
  - cbn [read_lines] in Hrun.
    apply bind_inr_inv in Hrun as (st1 & l1 & l2 & Hstep & Hrest & _).
    destruct (read_line_keeps _ _ _ _ Hdom Hstep) as (Hdom1 & Hkeep1 & Hrep1).
    destruct (IH _ _ Hdom1 Hrest) as (Hdom' & Hkeep' & Hrep').
    split; [exact Hdom' |]. split; [auto | lia].
Qed.

End ReaderMore.

(** X1.  A word keeps the vector of its first stored line: when the table
    read so far has given [w] the vector [v], a later line for [w] is
    counted as a repetition, and whatever lines follow, the table ends with
    [v] for [w]. *)
Theorem load_vectors_first_occurrence_wins {F : Type} {N : Numeric F}
    (f1 f2 : list string) (l w vs : string) (v : list F)
    (st st' : @Reader F) (log log' : list log_record) :
  read_lines reader_init f1 = (inr st, log) ->
  vectors st !! w = Some v ->
  line_reads l w vs ->
  read_lines reader_init (f1 ++ l :: f2) = (inr st', log') ->
  vectors st' !! w = Some v
  /\ (repetitions st + 1 <= repetitions st')%nat.
Proof.
  intros Hread Hv Hl Hall.
  destruct (read_lines_keeps _ _ _ _ reader_init_dom Hread) as (Hdom & _ & _).
  rewrite read_lines_app, Hread in Hall. cbn [bind read_lines] in Hall.
  assert (Hw : w ∈ words_transformed st) by (apply Hdom; eauto).
  rewrite (read_line_reads _ _ _ _ Hl) in Hall.
  rewrite bool_decide_eq_true_2 in Hall by exact Hw.
  rewrite bind_ret_l in Hall.
  destruct (read_lines (MkReader (words_transformed st) (repetitions st + 1)
                                 (embeddings_dimensionality st) (vectors st)) f2)
    as [[e | st2] l2] eqn:Hrest; [discriminate |].
  injection Hall as <- _.
  destruct (read_lines_keeps f2 _ st2 l2 (Hdom : reader_dom (MkReader _ _ _ _)) Hrest)
    as (_ & Hkeep & Hrep).
  split; [apply Hkeep; exact Hv | exact Hrep].
Qed.

Lemma load_vectors_first_occurrence_wins_witness :
  exists st' : @Reader Z,
    outcome (read_lines (N := Numeric_Z) reader_init
               (example_table4 ++ [line "hello 9 9 9 9"])) = inr st'
    /\ vectors st' !! "hello" = Some [1; 2; 3; 4]%Z
    /\ (1 <= repetitions st')%nat.
Proof.
  destruct (read_lines (N := Numeric_Z) reader_init example_table4)
    as [[e | st] log] eqn:H1; [vm_compute in H1; discriminate |].
  destruct (read_lines (N := Numeric_Z) reader_init
              (example_table4 ++ [line "hello 9 9 9 9"]))
    as [[e | st'] log'] eqn:H2; [vm_compute in H2; discriminate |].
  exists st'. split; [reflexivity |].
  assert (Hst : (inr st, log) = read_lines (N := Numeric_Z) reader_init example_table4)
    by (symmetry; exact H1).
  vm_compute in Hst. injection Hst as -> ->.
  destruct (load_vectors_first_occurrence_wins (N := Numeric_Z) example_table4 []
              (line "hello 9 9 9 9") "hello" "9 9 9 9" [1; 2; 3; 4]%Z _ st' _ log' H1)
    as [Hv Hrep].
  - reflexivity.
  - split; reflexivity.
  - exact H2.
  - split; [exact Hv |]. cbn in Hrep. exact Hrep.
Defined.

Lemma load_vectors_shape {F : Type} {N : Numeric F}
    (f : list string) (vocab : odict) (embeddings : list (list F))
    (log : list log_record) :
  load_vectors f vocab = (inr embeddings, log) ->
  exists d,
    (4 <= d)%nat
    /\ length embeddings = length vocab
    /\ Forall (fun row => length row = d) embeddings.
Proof.
  intros Hrun. pose proof Hrun as Hrun'. unfold load_vectors in Hrun'.
  apply bind_inr_inv in Hrun' as (st & l1 & l2 & Hread & Hfill & _).
  destruct (read_lines_inv _ _ _ _ reader_init_inv Hread) as [(_ & _ & Hdim) _].
  destruct (embeddings_dimensionality st) as [d |] eqn:Hd; [| discriminate].
  destruct (load_vectors_of_state f vocab st l1 d Hread Hd)
    as (emb & log' & Hrun2 & Hlen & Hrows & _).
  rewrite Hrun in Hrun2. injection Hrun2 as <- _.
  exists d. split; [apply Hdim; reflexivity |]. split; assumption.
Qed.

(** X2.  Whenever [load_vectors] returns, the table is rectangular: one row
    per vocabulary entry, all rows of one length, which is at least 4. *)
Theorem load_vectors_rectangular {F : Type} {N : Numeric F}
    (f : list string) (vocab : odict) (embeddings : list (list F))
    (log : list log_record) :
  load_vectors f vocab = (inr embeddings, log) ->
  exists d,
    (4 <= d)%nat
    /\ length embeddings = length vocab
    /\ Forall (fun row => length row = d) embeddings.
Proof. apply load_vectors_shape. Qed.

Lemma load_vectors_rectangular_witness :
  exists embeddings : list (list Z),
    outcome (load_vectors (N := Numeric_Z) example_table4 (load_vocab example_vocab_file))
    = inr embeddings
    /\ exists d, (4 <= d)%nat /\ length embeddings = 3%nat
                 /\ Forall (fun row => length row = d) embeddings.
Proof.
  destruct (load_vectors (N := Numeric_Z) example_table4 (load_vocab example_vocab_file))
    as [[e | embeddings] log] eqn:Hrun; [vm_compute in Hrun; discriminate |].
  exists embeddings. split; [reflexivity |].
  exact (load_vectors_rectangular (N := Numeric_Z) _ _ _ _ Hrun).
Defined.

Section ReaderEdges.
Context {F : Type} {N : Numeric F}.

(** A line that cannot establish a dimensionality leaves a reader without
    dimensionality as it is. *)
Lemma read_line_no_vector (st : @Reader F) (l : string) :
  embeddings_dimensionality st = None -> words_transformed st = ∅ ->
  no_vector_line l ->
  exists log, read_line st l = (inr st, log).
Proof.
  intros Hd Hwt [Hblank | (w & vs & Hl & Hv)].
  - unfold read_line. cbv zeta. rewrite Hblank. eexists. reflexivity.
  - rewrite (read_line_reads _ _ _ _ Hl), Hwt.
    rewrite bool_decide_eq_false_2 by apply not_elem_of_empty.
    destruct Hv as [-> | (v & -> & Hlen)].
    + eexists. reflexivity.
    + rewrite Hd. destruct (Nat.ltb_spec (length v) 4); [| lia].
      eexists. reflexivity.
Qed.

Lemma read_lines_no_vector (f : list string) (st : @Reader F) :
  embeddings_dimensionality st = None -> words_transformed st = ∅ ->
  Forall no_vector_line f ->
  exists log, read_lines st f = (inr st, log).
Proof.
  intros Hd Hwt Hall. induction Hall as [| l f Hl Hf IH].
  - exists []. reflexivity.
  - destruct (read_line_no_vector st l Hd Hwt Hl) as [l1 Hstep].
    destruct IH as [l2 Hrest]. exists (l1 ++ l2).
    cbn [read_lines]. eapply bind_inr; eassumption.
Qed.

End ReaderEdges.

(** X3.  A table without a line of at least four numbers (an empty file, a
    header alone, vectors of three dimensions, text that does not parse)
    establishes no dimensionality, and [load_vectors] raises a
    [TypeError] when it allocates the table. *)
Theorem load_vectors_needs_four_numbers {F : Type} {N : Numeric F}
    (f : list string) (vocab : odict) :
  Forall (no_vector_line (N := N)) f ->
  outcome (load_vectors f vocab) = inl TypeError.
Proof.
  intros Hall.
  destruct (read_lines_no_vector f reader_init eq_refl eq_refl Hall) as [log Hread].
  unfold load_vectors. rewrite Hread. reflexivity.
Qed.

Lemma load_vectors_needs_four_numbers_witness :
  outcome (load_vectors (N := Numeric_Z) [line ""; line "2 3"; line "cat 1 2 3"; line "dog x y z w"]
             (load_vocab example_vocab_file))
  = inl TypeError.
Proof.
  apply (load_vectors_needs_four_numbers (N := Numeric_Z)).
  constructor; [left; reflexivity |].
  constructor; [right; exists "2", "3"; split; [split; reflexivity |];
                right; exists [3]%Z; split; [reflexivity | simpl; lia] |].
  constructor; [right; exists "cat", "1 2 3"; split; [split; reflexivity |];
                right; exists [1; 2; 3]%Z; split; [reflexivity | simpl; lia] |].
  constructor; [right; exists "dog", "x y z w"; split; [split; reflexivity |];
                left; reflexivity |].
  constructor.
Defined.

(** X4.  A line that is not blank and has no space ends the whole load: the
    unpacking of [line.split(' ', 1)] stands outside the [try], so
    [load_vectors] raises a [ValueError], whatever the lines before (once
    read) and after it. *)
Theorem load_vectors_line_without_space {F : Type} {N : Numeric F}
    (f1 f2 : list string) (l : string) (vocab : odict)
    (st : @Reader F) (log : list log_record) :
  read_lines reader_init f1 = (inr st, log) ->
  is_empty (strip l) = false ->
  split_once (strip l) = None ->
  outcome (load_vectors (f1 ++ l :: f2) vocab)
  = inl (ValueError "not enough values to unpack (expected 2, got 1)").
Proof.
  intros Hread Hne Hsplit.
  unfold load_vectors. rewrite read_lines_app, Hread. cbn [bind read_lines].
  unfold read_line. cbv zeta. rewrite Hne, Hsplit. reflexivity.
Qed.

Lemma load_vectors_line_without_space_witness :
  outcome (load_vectors (N := Numeric_Z) (example_table4 ++ [line "orphan"])
             (load_vocab example_vocab_file))
  = inl (ValueError "not enough values to unpack (expected 2, got 1)").
Proof.
  destruct (read_lines (N := Numeric_Z) reader_init example_table4)
    as [[e | st] log] eqn:H1; [vm_compute in H1; discriminate |].
  apply (load_vectors_line_without_space (N := Numeric_Z) example_table4 []
           (line "orphan") (load_vocab example_vocab_file) st log H1);
    reflexivity.
Defined.

Section ReaderCounter.
Context {F : Type} {N : Numeric F}.

(** The counter has no influence on a turn of the loop. *)
Lemma read_line_table (st st' : @Reader F) (l : string) :
  table_of st = table_of st' ->
  table_outcome (read_line st l) = table_outcome (read_line st' l).
Proof.
  destruct st as [wt rep dim vecs], st' as [wt' rep' dim' vecs']. unfold table_of. cbn.
  intros [= <- <- <-]. unfold read_line. cbv zeta.
  cbn [words_transformed repetitions embeddings_dimensionality vectors].
  destruct (is_empty (strip l)); [reflexivity |].
  destruct (split_once (strip l)) as [[w vs] |]; [| reflexivity].
  case_bool_decide; [reflexivity |].
  destruct (fromstring vs) as [v |]; [| reflexivity].
  destruct dim as [d |].
  - destruct (length v =? d)%nat; reflexivity.
  - destruct (length v <? 4)%nat; [reflexivity |].
    destruct (length v =? length v)%nat; reflexivity.
Qed.

Lemma table_outcome_bind (m m' : M (@Reader F)) (k k' : @Reader F -> M (@Reader F)) :
  table_outcome m = table_outcome m' ->
  (forall st st', table_of st = table_of st' -> table_outcome (k st) = table_outcome (k' st')) ->
  table_outcome (bind m k) = table_outcome (bind m' k').
Proof.
  destruct m as [[e | st] l1], m' as [[e' | st'] l1']; unfold table_outcome at 1 2; cbn;
    intros Hm Hk; try discriminate.
  - exact Hm.
  - assert (Ht : table_of st = table_of st') by congruence.
    specialize (Hk st st' Ht).
    unfold table_outcome in *. destruct (k st) as [r l2], (k' st') as [r' l2']. exact Hk.
Qed.

Lemma read_lines_table (f : list string) (st st' : @Reader F) :
  table_of st = table_of st' ->
  table_outcome (read_lines st f) = table_outcome (read_lines st' f).
Proof.
  revert st st'. induction f as [| l f IH]; intros st st' Ht; cbn [read_lines].
  - unfold table_outcome. cbn. rewrite Ht. reflexivity.
  - apply table_outcome_bind; [apply read_line_table; exact Ht | exact IH].
Qed.

(** A line that leaves the table as it is can be left out. *)
Lemma read_lines_skip (st : @Reader F) (l : string) (f : list string) :
  table_outcome (read_line st l) = inr (table_of st) ->
  table_outcome (read_lines st (l :: f)) = table_outcome (read_lines st f).
Proof.
  intros Hstep. cbn [read_lines].
  destruct (read_line st l) as [[e | st1] l1]; unfold table_outcome in Hstep;
    cbn in Hstep; [discriminate |].
  assert (Hstep' : table_of st1 = table_of st) by congruence. cbn [bind].
  pose proof (read_lines_table f st1 st Hstep') as Hrest.
  unfold table_outcome in *. destruct (read_lines st1 f) as [r l2]. exact Hrest.
Qed.

(** A blank line changes nothing. *)
Lemma read_line_blank (st : @Reader F) (l : string) :
  is_empty (strip l) = true ->
  table_outcome (read_line st l) = inr (table_of st).
Proof. intros Hblank. unfold read_line. cbv zeta. rewrite Hblank. reflexivity. Qed.

(** Once a dimensionality is established, a line with a vector of another
    length changes at most the counter. *)
Lemma read_line_other_length (st : @Reader F) (l w vs : string) (v : list F) (d : nat) :
  embeddings_dimensionality st = Some d ->
  line_reads l w vs -> fromstring vs = Some v -> length v <> d ->
  table_outcome (read_line st l) = inr (table_of st).
Proof.
  intros Hd Hl Hv Hlen.
  destruct (decide (w ∈ words_transformed st)) as [Hw | Hw].
  - rewrite (read_line_reads _ _ _ _ Hl).
    rewrite bool_decide_eq_true_2 by exact Hw. reflexivity.
  - rewrite (read_line_mismatch st l w vs v d Hl Hw Hv Hd Hlen). reflexivity.
Qed.

(** What [load_vectors] makes of the outcome of the loop. *)
Lemma load_vectors_table (f f' : list string) (vocab : odict) :
  table_outcome (read_lines (F := F) reader_init f)
  = table_outcome (read_lines reader_init f') ->
  outcome (load_vectors f vocab) = outcome (load_vectors f' vocab).
Proof.
  unfold load_vectors, table_outcome, outcome.
  destruct (read_lines reader_init f) as [[e | st] l1],
           (read_lines reader_init f') as [[e' | st'] l1']; cbn; try discriminate.
  - intros [= ->]. reflexivity.
  - unfold table_of. intros [= _ Hd Hv]. rewrite Hd, Hv.
    destruct (embeddings_dimensionality st'); [| reflexivity].
    destruct (fill_embeddings _ _ _ _). reflexivity.
Qed.

End ReaderCounter.

(** X5.  A blank line, and a line whose vector has another length than
    the dimensionality that the lines before it established, have no
    influence on what [load_vectors] returns or raises: the table is the
    one of the file without that line (the log and the repetition counter
    apart). *)
Theorem load_vectors_skips_dropped_line {F : Type} {N : Numeric F}
    (f1 f2 : list string) (l : string) (vocab : odict) :
  (is_empty (strip l) = true
   \/ exists (st : @Reader F) log d w vs v,
        read_lines reader_init f1 = (inr st, log)
        /\ embeddings_dimensionality st = Some d
        /\ line_reads l w vs
        /\ fromstring vs = Some v
        /\ length v <> d) ->
  outcome (load_vectors (f1 ++ l :: f2) vocab) = outcome (load_vectors (f1 ++ f2) vocab).
Proof.
  intros Hl.
  apply load_vectors_table. rewrite !read_lines_app.
  destruct (read_lines (F := F) reader_init f1) as [[e | st] log] eqn:Hread;
    [reflexivity |].
  assert (Hstep : table_outcome (read_line st l) = inr (table_of st)).
  { destruct Hl as [Hblank | (st' & log' & d & w & vs & v & Hread' & Hd & Hline & Hv & Hlen)].
    - apply read_line_blank. exact Hblank.
    - assert (st' = st) by congruence. subst st'.
      exact (read_line_other_length st l w vs v d Hd Hline Hv Hlen). }
  pose proof (read_lines_skip st l f2 Hstep) as Hskip.
  unfold table_outcome in *. unfold bind.
  destruct (read_lines st (l :: f2)) as [r1 l1], (read_lines st f2) as [r2 l2].
  exact Hskip.
Qed.

Lemma load_vectors_skips_dropped_line_witness :
  outcome (load_vectors (N := Numeric_Z)
             ([line "2 4"; line "hello 1 2 3 4"] ++ line "dog 1 2 3" :: [line "world 5 6 7 8"])
             (load_vocab example_vocab_file))
  = outcome (load_vectors (N := Numeric_Z) example_table4 (load_vocab example_vocab_file)).
Proof.
  destruct (read_lines (N := Numeric_Z) reader_init [line "2 4"; line "hello 1 2 3 4"])
    as [[e | st] log] eqn:Hread; [vm_compute in Hread; discriminate |].
  apply (load_vectors_skips_dropped_line (N := Numeric_Z) [line "2 4"; line "hello 1 2 3 4"]
           [line "world 5 6 7 8"] (line "dog 1 2 3")).
  right. exists st, log, 4%nat, "dog", "1 2 3", [1; 2; 3]%Z.
  split; [exact Hread |].
  pose proof Hread as Hread'. vm_compute in Hread'. injection Hread' as <- _.
  split; [reflexivity |]. split; [split; reflexivity |].
  split; [reflexivity | discriminate].
Defined.

(** ** Lines written by [EmbeddingModel.save] *)

Lemma is_empty_append (a b : string) :
  is_empty b = false -> is_empty (a +:+ b) = false.
Proof. destruct a; cbn; auto. Qed.

Lemma rstrip_append (a b : string) :
  is_empty (rstrip b) = false -> rstrip (a +:+ b) = a +:+ rstrip b.
Proof.
  intros Hb. induction a as [| c a IH]; [reflexivity |].
  change (String c a +:+ b) with (String c (a +:+ b)).
  change (String c a +:+ rstrip b) with (String c (a +:+ rstrip b)).
  cbn [rstrip]. cbv zeta.
  rewrite IH, (is_empty_append a _ Hb), andb_false_r. reflexivity.
Qed.

Lemma rstrip_newline_end (t : string) :
  rstrip (t +:+ String "010"%char "") = rstrip t.
Proof.
  induction t as [| c t IH]; [reflexivity |].
  change (String c t +:+ String "010"%char "")
    with (String c (t +:+ String "010"%char "")).
  cbn [rstrip]. rewrite IH. reflexivity.
Qed.

Lemma split_once_word (w t : string) :
  no_space w = true -> split_once (w +:+ " " +:+ t) = Some (w, t).
Proof.
  induction w as [| c w IH]; intros Hw.
  - reflexivity.
  - cbn [no_space] in Hw. apply andb_true_iff in Hw as [Hc Hw].
    change (String c w +:+ " " +:+ t) with (String c (w +:+ " " +:+ t)).
    cbn [split_once].
    destruct (Ascii.eqb_spec c " "%char) as [-> | _]; [discriminate |].
    rewrite (IH Hw). reflexivity.
Qed.

Lemma saved_line_reads {F : Type} {N : Numeric F} (w : string) (vec : list F) :
  word_ok w = true -> row_ok vec ->
  line_reads (saved_line (w, vec)) w (row_text vec).
Proof.
  intros Hw (Hne & Hr & _). apply andb_true_iff in Hw as [Hw1 Hw2].
  assert (Hstrip : strip (saved_line (w, vec)) = w +:+ " " +:+ row_text vec).
  { unfold strip, saved_line. cbn [fst snd].
    assert (Hend : rstrip (row_text vec +:+ String "010"%char "") = row_text vec)
      by (rewrite rstrip_newline_end; exact Hr).
    rewrite (rstrip_append w).
    2: { rewrite (rstrip_append " "); rewrite Hend; [reflexivity | exact Hne]. }
    rewrite (rstrip_append " ") by (rewrite Hend; exact Hne). rewrite Hend.
    destruct w as [| c w]; [discriminate |]. cbn [no_space] in Hw2.
    apply andb_true_iff in Hw2 as [Hc _].
    change (String c w +:+ " " +:+ row_text vec)
      with (String c (w +:+ " " +:+ row_text vec)).
    cbn [lstrip].
    destruct (is_space c); [discriminate | reflexivity]. }
  split.
  - rewrite Hstrip. destruct w; [discriminate | reflexivity].
  - rewrite Hstrip. apply split_once_word. exact Hw2.
Qed.

Section SavedTable.
Context {F : Type} {N : Numeric F}.

Lemma stored_notin (ps : list (string * list F)) (m : gmap string (list F)) (w : string) :
  ~ In w (map fst ps) -> stored ps m !! w = m !! w.
Proof.
  revert m. induction ps as [| [k r] ps IH]; intros m Hw; [reflexivity |].
  cbn in Hw. unfold stored. cbn [fold_left fst snd]. fold (stored ps (<[k := r]> m)).
  rewrite IH by tauto. apply lookup_insert_ne. tauto.
Qed.

Lemma stored_lookup (ps : list (string * list F)) (m : gmap string (list F))
    (i : nat) (w : string) (r : list F) :
  NoDup (map fst ps) -> ps !! i = Some (w, r) -> stored ps m !! w = Some r.
Proof.
  revert m i. induction ps as [| [k r'] ps IH]; intros m i Hnd Hi.
  - rewrite lookup_nil in Hi. discriminate.
  - cbn in Hnd. apply NoDup_cons in Hnd as [Hk Hnd].
    unfold stored. cbn [fold_left fst snd]. fold (stored ps (<[k := r']> m)).
    destruct i as [| i]; cbn in Hi.
    + injection Hi as -> ->. rewrite stored_notin.
      * apply lookup_insert_eq.
      * intros Hin. apply Hk. apply list_elem_of_In. exact Hin.
    + apply (IH _ i Hnd Hi).
Qed.

Lemma combine_lookup {A B} (l1 : list A) (l2 : list B) (i : nat) (a : A) (b : B) :
  l1 !! i = Some a -> l2 !! i = Some b -> combine l1 l2 !! i = Some (a, b).
Proof.
  revert l2 i. induction l1 as [| x l1 IH]; intros [| y l2] [| i]; cbn; try discriminate.
  - intros [= ->] [= ->]. reflexivity.
  - apply IH.
Qed.

Lemma map_fst_combine {A B} (l1 : list A) (l2 : list B) :
  length l1 = length l2 -> map fst (combine l1 l2) = l1.
Proof.
  revert l2. induction l1 as [| x l1 IH]; intros [| y l2]; cbn; try discriminate; auto.
  intros [= Hlen]. rewrite IH by exact Hlen. reflexivity.
Qed.

(** Reading back lines that [save] wrote, once a dimensionality is
    established: every line is stored. *)
Lemma read_saved_lines (d : nat) (ps : list (string * list F)) (st : @Reader F) :
  embeddings_dimensionality st = Some d ->
  Forall (fun p => word_ok (fst p) = true /\ row_ok (snd p) /\ length (snd p) = d) ps ->
  NoDup (map fst ps) ->
  (forall w, In w (map fst ps) -> w ∉ words_transformed st) ->
  read_lines st (map saved_line ps) =
  ret (MkReader (marked ps (words_transformed st)) (repetitions st) (Some d)
                (stored ps (vectors st))).
Proof.
  revert st. induction ps as [| [w r] ps IH]; intros st Hd Hall Hnd Hfresh.
  - destruct st. cbn in *. subst. reflexivity.
  - inversion Hall as [| ? ? (Hw & Hr & Hlen) Hps]; subst. cbn [fst snd] in *.
    cbn in Hnd. apply NoDup_cons in Hnd as [Hw' Hnd].
    cbn [map read_lines].
    rewrite (read_line_match st (saved_line (w, r)) w (row_text r) r (length r)
               (saved_line_reads w r Hw Hr) (Hfresh w (or_introl eq_refl))
               (proj2 (proj2 Hr)) Hd eq_refl).
    rewrite bind_ret_l. rewrite IH; [reflexivity | reflexivity | exact Hps | exact Hnd |].
    intros w0 Hin. cbn. rewrite elem_of_union, elem_of_singleton.
    intros [-> | Hold].
    + apply Hw'. apply list_elem_of_In. exact Hin.
    + apply (Hfresh w0); [right; exact Hin | exact Hold].
Qed.

Lemma read_saved_table (d : nat) (ps : list (string * list F)) :
  ps <> [] -> (4 <= d)%nat ->
  Forall (fun p => word_ok (fst p) = true /\ row_ok (snd p) /\ length (snd p) = d) ps ->
  NoDup (map fst ps) ->
  read_lines reader_init (map saved_line ps) =
  ret (MkReader (marked ps ∅) 0 (Some d) (stored ps ∅)).
Proof.
  intros Hne Hd Hall Hnd. destruct ps as [| [w r] ps]; [congruence |].
  inversion Hall as [| ? ? (Hw & Hr & Hlen) Hps]; subst. cbn [fst snd] in *.
  cbn in Hnd. apply NoDup_cons in Hnd as [Hw' Hnd].
  cbn [map read_lines].
  rewrite (read_line_first reader_init (saved_line (w, r)) w (row_text r) r
             (saved_line_reads w r Hw Hr) (not_elem_of_empty _)
             (proj2 (proj2 Hr)) eq_refl Hd).
  rewrite bind_ret_l. rewrite (read_saved_lines (length r)); try assumption; try reflexivity.
  intros w0 Hin. cbn. rewrite elem_of_union, elem_of_singleton.
  intros [-> | Hold].
  - apply Hw'. apply list_elem_of_In. exact Hin.
  - exact (not_elem_of_empty _ Hold).
Qed.

End SavedTable.

Lemma embedding_lines_saved {F : Type} {N : Numeric F} (m : @EmbeddingModel F) :
  embedding_lines m = map saved_line (combine (odict_keys (vocab m)) (embeddings m)).
Proof.
  unfold embedding_lines. apply map_ext. intros [w vec]. reflexivity.
Qed.

(** X6.  The table of a word-embedding model survives [EmbeddingModel.save]
    followed by [load_vectors]: for a model with one row per vocabulary
    entry, rows of one length of at least four whose text parses back,
    and distinct words without whitespace, the lines written to the
    embeddings file are read back as the same embeddings. *)
Theorem save_then_load_vectors {F : Type} {N : Numeric F} {L : Library}
    (m : @EmbeddingModel F) (d : nat) (save_dir name : string)
    (fs : gmap string (file weights)) :
  em_config m !! "embeddings_filename" = Some (JStr name) ->
  vocab m <> [] ->
  length (embeddings m) = length (vocab m) ->
  NoDup (odict_keys (vocab m)) ->
  Forall (fun w => word_ok w = true) (odict_keys (vocab m)) ->
  Forall (fun row => row_ok row /\ length row = d) (embeddings m) ->
  (4 <= d)%nat ->
  exists fs' f,
    EmbeddingModel_save m save_dir fs = ret fs'
    /\ readlines fs' (path_join save_dir name) = ret f
    /\ f = embedding_lines m
    /\ outcome (load_vectors f (vocab m)) = inr (embeddings m).
Proof.
  intros Hname Hne Hlen Hnd Hwords Hrows Hd.
  exists (<[path_join save_dir name := TextFile (embedding_lines m)]> fs), (embedding_lines m).
  split; [unfold EmbeddingModel_save; rewrite Hname; reflexivity |].
  split; [unfold readlines; rewrite lookup_insert_eq; reflexivity |].
  split; [reflexivity |].
  set (keys := odict_keys (vocab m)) in *.
  set (ps := combine keys (embeddings m)).
  assert (Hklen : length keys = length (embeddings m)).
  { unfold keys, odict_keys. rewrite length_map. symmetry. exact Hlen. }
  assert (Hfst : map fst ps = keys) by (apply map_fst_combine; exact Hklen).
  assert (Hps : Forall (fun p => word_ok (fst p) = true /\ row_ok (snd p)
                                 /\ length (snd p) = d) ps).
  { apply List.Forall_forall. intros [w r] Hin. cbn [fst snd].
    rewrite List.Forall_forall in Hwords, Hrows.
    pose proof (in_combine_l _ _ _ _ Hin) as Hw.
    pose proof (in_combine_r _ _ _ _ Hin) as Hr.
    destruct (Hrows r Hr). auto. }
  assert (Hpsne : ps <> []).
  { unfold ps. destruct keys as [| k keys'] eqn:Hk.
    - unfold keys, odict_keys in Hk. destruct (vocab m); [congruence | discriminate].
    - destruct (embeddings m); [discriminate | discriminate]. }
  pose proof (read_saved_table d ps Hpsne Hd Hps (eq_ind_r (@NoDup string) Hnd Hfst)) as Hread.
  assert (Hlines : embedding_lines m = map saved_line ps) by apply embedding_lines_saved.
  rewrite <- Hlines in Hread.
  destruct (load_vectors_of_state (embedding_lines m) (vocab m) _ [] d Hread eq_refl)
    as (emb & log & Hrun & Hemblen & _ & Hat & _).
  rewrite Hrun. unfold outcome. cbn [fst]. f_equal.
  apply list_eq. intros i.
  destruct (keys !! i) as [w |] eqn:Hw.
  - rewrite (Hat i w Hw). cbn [vectors].
    destruct (lookup_lt_is_Some_2 (embeddings m) i) as [r Hr].
    { rewrite <- Hklen. eapply lookup_lt_Some. exact Hw. }
    rewrite Hr.
    rewrite (stored_lookup ps ∅ i w r); [reflexivity | rewrite Hfst; exact Hnd |].
    apply combine_lookup; assumption.
  - apply lookup_ge_None in Hw.
    rewrite (proj2 (lookup_ge_None emb i)) by (rewrite Hemblen, <- Hlen, <- Hklen; exact Hw).
    symmetry. apply lookup_ge_None. rewrite <- Hklen. exact Hw.
Qed.

Lemma save_then_load_vectors_witness :
  exists fs' f,
    EmbeddingModel_save (N := Numeric_Z_plain) (L := toy_library) example_model "B" ∅ = ret fs'
    /\ readlines fs' "B/vectors.txt" = ret f
    /\ outcome (load_vectors (N := Numeric_Z_plain) f (vocab example_model))
       = inr [[0; 0; 0; 0]; [1; 2; 3; 4]; [5; 6; 7; 8]]%Z.
Proof.
  destruct (save_then_load_vectors (N := Numeric_Z_plain) (L := toy_library)
              example_model 4 "B" "vectors.txt" ∅)
    as (fs' & f & Hsave & Hread & _ & Hload).
  - vm_compute. reflexivity.
  - discriminate.
  - reflexivity.
  - apply (bool_decide_eq_true_1 _). vm_compute. reflexivity.
  - repeat constructor.
  - repeat constructor.
  - lia.
  - exists fs', f. split; [exact Hsave |]. split; [exact Hread | exact Hload].
Defined.

(** ** Pooling with a mask *)

Section PoolingMore.
Context {F : Type} {N : Numeric F}.

Lemma unmasked_ext (t t' : Tensor3 F) (ignore : nat -> nat -> nat -> bool) (i k : nat) :
  dim1 t = dim1 t' ->
  (forall j, (j < dim1 t)%nat -> ignore i j k = false -> at3 t i j k = at3 t' i j k) ->
  unmasked t ignore i k = unmasked t' ignore i k.
Proof.
  intros Hs Hval. unfold unmasked. rewrite <- Hs.
  apply map_ext_in. intros j Hj. apply filter_In in Hj as [Hj Hkeep].
  apply in_seq in Hj. apply Hval; [lia |].
  destruct (ignore i j k); [discriminate | reflexivity].
Qed.

Lemma ma_mean_ext (t t' : Tensor3 F) (ignore : nat -> nat -> nat -> bool) :
  dim0 t = dim0 t' -> dim1 t = dim1 t' -> dim2 t = dim2 t' ->
  (forall i j k, (i < dim0 t)%nat -> (j < dim1 t)%nat -> ignore i j k = false ->
                 at3 t i j k = at3 t' i j k) ->
  ma_mean_axis1 t ignore = ma_mean_axis1 t' ignore.
Proof.
  intros Hb Hs Hd Hval. unfold ma_mean_axis1. rewrite <- Hb, <- Hd.
  apply map_ext_in. intros i Hi. apply in_seq in Hi.
  apply map_ext_in. intros k _.
  rewrite (unmasked_ext t t' ignore i k Hs); [reflexivity |].
  intros j Hj. apply Hval; [lia | exact Hj].
Qed.

Lemma ma_max_ext (t t' : Tensor3 F) (ignore : nat -> nat -> nat -> bool) :
  dim0 t = dim0 t' -> dim1 t = dim1 t' -> dim2 t = dim2 t' ->
  (forall i j k, (i < dim0 t)%nat -> (j < dim1 t)%nat -> ignore i j k = false ->
                 at3 t i j k = at3 t' i j k) ->
  ma_max_axis1 t ignore = ma_max_axis1 t' ignore.
Proof.
  intros Hb Hs Hd Hval. unfold ma_max_axis1. rewrite <- Hb, <- Hs, <- Hd.
  destruct (dim1 t =? 0)%nat; [reflexivity |]. f_equal.
  apply map_ext_in. intros i Hi. apply in_seq in Hi.
  apply map_ext_in. intros k _.
  rewrite (unmasked_ext t t' ignore i k Hs); [reflexivity |].
  intros j Hj. apply Hval; [lia | exact Hj].
Qed.

(** The mask [_pool_tokens] applies, in terms of [kept]. *)
Lemma pool_tokens_unfold (t : Tensor3 F) (padding_mask : Tensor2 Z) (strategy : string)
    (ignore_first_token : bool) :
  negb (ignore_first_token && (cols padding_mask =? 0)%nat) = true ->
  ((rows padding_mask =? dim0 t)%nat || (rows padding_mask =? 1)%nat)
  && ((cols padding_mask =? dim1 t)%nat || (cols padding_mask =? 1)%nat) = true ->
  _pool_tokens t (Some padding_mask) strategy ignore_first_token =
  let ignore := fun i j (_ : nat) => negb (kept padding_mask ignore_first_token i j) in
  if String.eqb strategy "reduce_max" then ma_max_axis1 t ignore
  else if String.eqb strategy "reduce_mean" then ret (ma_mean_axis1 t ignore)
  else raise UnboundLocalError.
Proof.
  intros Hcols Hfit. unfold _pool_tokens. cbv zeta.
  assert (Hext : forall (g g' : nat -> nat -> nat -> bool),
             (forall i j k, g i j k = g' i j k) ->
             ma_max_axis1 t g = ma_max_axis1 t g'
             /\ ma_mean_axis1 t g = ma_mean_axis1 t g').
  { intros g g' Hg. split.
    - unfold ma_max_axis1. destruct (dim1 t =? 0)%nat; [reflexivity |]. f_equal.
      apply map_ext. intros i. apply map_ext. intros k. unfold unmasked.
      rewrite (filter_ext _ (fun j => negb (g' i j k))); [reflexivity |].
      intros j. rewrite Hg. reflexivity.
    - unfold ma_mean_axis1. apply map_ext. intros i. apply map_ext. intros k.
      unfold unmasked.
      rewrite (filter_ext _ (fun j => negb (g' i j k))); [reflexivity |].
      intros j. rewrite Hg. reflexivity. }
  destruct ignore_first_token.
  - cbn [andb] in Hcols. destruct (cols padding_mask =? 0)%nat eqn:Hc0; [discriminate |].
    rewrite bind_ret_l, Hfit. cbn [negb].
    edestruct Hext as [Hmax Hmean]; [| rewrite Hmax, Hmean; reflexivity].
    intros i j k. unfold kept. cbv zeta. cbn [andb].
    destruct ((if (cols padding_mask =? 1)%nat then 0%nat else j) =? 0)%nat;
      cbn [negb andb]; [reflexivity | rewrite negb_involutive; reflexivity].
  - rewrite bind_ret_l, Hfit. cbn [negb].
    edestruct Hext as [Hmax Hmean]; [| rewrite Hmax, Hmean; reflexivity].
    intros i j k. unfold kept. cbv zeta. cbn [andb negb].
    rewrite negb_involutive. reflexivity.
Qed.

End PoolingMore.

(** X7.  Padding does not bias the pooling: what [_pool_tokens] returns
    depends on the token vectors only at the positions that the mask keeps
    (mask entry not 0, and not the first position when the first token is
    ignored).  Two batches of one shape that agree there are pooled alike,
    under either strategy. *)
Theorem pool_tokens_ignores_masked_values {F : Type} {N : Numeric F}
    (t t' : Tensor3 F) (padding_mask : Tensor2 Z) (strategy : string)
    (ignore_first_token : bool) :
  dim0 t = dim0 t' -> dim1 t = dim1 t' -> dim2 t = dim2 t' ->
  (forall i j k, (i < dim0 t)%nat -> (j < dim1 t)%nat ->
                 kept padding_mask ignore_first_token i j = true ->
                 at3 t i j k = at3 t' i j k) ->
  _pool_tokens t (Some padding_mask) strategy ignore_first_token
  = _pool_tokens t' (Some padding_mask) strategy ignore_first_token.
Proof.
  intros Hb Hs Hd Hval.
  destruct (negb (ignore_first_token && (cols padding_mask =? 0)%nat)) eqn:Hcols.
  2: { unfold _pool_tokens. cbv zeta.
       destruct ignore_first_token; [| discriminate].
       destruct (cols padding_mask =? 0)%nat; [reflexivity | discriminate]. }
  destruct (((rows padding_mask =? dim0 t)%nat || (rows padding_mask =? 1)%nat)
            && ((cols padding_mask =? dim1 t)%nat || (cols padding_mask =? 1)%nat)) eqn:Hfit.
  - rewrite (pool_tokens_unfold t padding_mask strategy ignore_first_token Hcols Hfit).
    rewrite Hb, Hs in Hfit.
    rewrite (pool_tokens_unfold t' padding_mask strategy ignore_first_token Hcols Hfit).
    cbv zeta.
    assert (Hval' : forall i j k, (i < dim0 t)%nat -> (j < dim1 t)%nat ->
                      negb (kept padding_mask ignore_first_token i j) = false ->
                      at3 t i j k = at3 t' i j k).
    { intros i j k Hi Hj Hk. apply Hval; try assumption.
      destruct (kept padding_mask ignore_first_token i j); [reflexivity | discriminate]. }
    rewrite (ma_max_ext t t' _ Hb Hs Hd Hval'), (ma_mean_ext t t' _ Hb Hs Hd Hval').
    reflexivity.
  - unfold _pool_tokens. cbv zeta. rewrite <- Hb, <- Hs.
    destruct ignore_first_token.
    + destruct (cols padding_mask =? 0)%nat; [reflexivity |].
      rewrite !bind_ret_l, Hfit. reflexivity.
    + rewrite !bind_ret_l, Hfit. reflexivity.
Qed.

Lemma pool_tokens_ignores_masked_values_witness :
  _pool_tokens (N := Numeric_Z) example_tensor (Some example_padded_mask) "reduce_mean" true
  = _pool_tokens (N := Numeric_Z)
      (MkTensor3 2 3 2 (fun i j k => if (j =? 1)%nat then Z.of_nat (100 * i + 10 + k) else 77%Z))
      (Some example_padded_mask) "reduce_mean" true.
Proof.
  apply (pool_tokens_ignores_masked_values (N := Numeric_Z)); try reflexivity.
  intros i j k Hi Hj Hkept. cbn in Hi, Hj.
  destruct j as [| [| [| j]]]; try discriminate; try lia. reflexivity.
Defined.

Section PoolingAllValid.
Context {F : Type} {N : Numeric F}.

Lemma filter_seq_tail (f : nat -> bool) (s : nat) :
  (forall j, (j < s)%nat -> f j = negb (j =? 0)%nat) ->
  List.filter f (seq 0 s) = seq 1 (s - 1).
Proof.
  intros Hf. destruct s as [| s]; [reflexivity |].
  cbn [seq List.filter]. rewrite (Hf 0%nat) by lia. cbn [Nat.eqb negb].
  replace (S s - 1)%nat with s by lia. apply filter_keeps_all.
  intros j Hj. apply in_seq in Hj. rewrite Hf by lia.
  destruct j; [lia | reflexivity].
Qed.

Lemma kept_all_ones (padding_mask : Tensor2 Z) (ignore_first_token : bool)
    (b s i j : nat) :
  rows padding_mask = b -> cols padding_mask = s ->
  (forall i j, (i < b)%nat -> (j < s)%nat -> at2 padding_mask i j = 1%Z) ->
  (i < b)%nat -> (j < s)%nat ->
  kept padding_mask ignore_first_token i j
  = negb (ignore_first_token && ((if (s =? 1)%nat then 0%nat else j) =? 0)%nat).
Proof.
  intros Hr Hc Hones Hi Hj. unfold kept. cbv zeta. rewrite Hr, Hc.
  rewrite Hones; [apply andb_true_r | |].
  - destruct (Nat.eqb_spec b 1); lia.
  - destruct (Nat.eqb_spec s 1); lia.
Qed.

End PoolingAllValid.

(** X8.  With a mask of ones of the shape of the batch and the first token
    ignored, ["reduce_mean"] is the mean over the positions from 1 on; for
    sequences of a single position nothing is left to average, and every
    pooled entry is the data left under a masked result. *)
Theorem reduce_mean_skips_first_token {F : Type} {N : Numeric F}
    (t : Tensor3 F) (padding_mask : Tensor2 Z) :
  rows padding_mask = dim0 t ->
  cols padding_mask = dim1 t ->
  (forall i j, (i < dim0 t)%nat -> (j < dim1 t)%nat -> at2 padding_mask i j = 1%Z) ->
  (1 <= dim1 t)%nat ->
  _pool_tokens t (Some padding_mask) "reduce_mean" true
  = ret (map (fun i =>
                map (fun k =>
                       if (dim1 t =? 1)%nat then masked_mean_data
                       else arithmetic_mean (column t i k (seq 1 (dim1 t - 1))))
                    (seq 0 (dim2 t)))
             (seq 0 (dim0 t))).
Proof.
  intros Hr Hc Hones Hpos.
  rewrite pool_tokens_unfold.
  2: { rewrite Hc. destruct (Nat.eqb_spec (dim1 t) 0); [lia | reflexivity]. }
  2: { rewrite Hr, Hc, !Nat.eqb_refl. reflexivity. }
  cbv zeta. change (String.eqb "reduce_mean" "reduce_max") with false.
  change (String.eqb "reduce_mean" "reduce_mean") with true. cbv iota. f_equal.
  unfold ma_mean_axis1. apply map_ext_in. intros i Hi. apply in_seq in Hi.
  apply map_ext_in. intros k _. unfold unmasked.
  assert (Hkept : forall j, (j < dim1 t)%nat ->
             negb (negb (kept padding_mask true i j))
             = negb ((if (dim1 t =? 1)%nat then 0%nat else j) =? 0)%nat).
  { intros j Hj. rewrite negb_involutive.
    rewrite (kept_all_ones padding_mask true (dim0 t) (dim1 t) i j Hr Hc Hones) by lia.
    reflexivity. }
  destruct (Nat.eqb_spec (dim1 t) 1) as [H1 | H1].
  - rewrite H1 in *. cbn [seq List.filter]. rewrite (Hkept 0%nat) by lia. reflexivity.
  - rewrite (filter_seq_tail _ (dim1 t)).
    + unfold arithmetic_mean, column.
      destruct (dim1 t) as [| [| s]]; [lia | lia |]. reflexivity.
    + intros j Hj. apply Hkept. exact Hj.
Qed.

Lemma reduce_mean_skips_first_token_witness :
  _pool_tokens (N := Numeric_Z) example_tensor (Some example_mask) "reduce_mean" true
  = ret [[15; 16]; [115; 116]]%Z.
Proof.
  apply (reduce_mean_skips_first_token (N := Numeric_Z) example_tensor example_mask);
    [reflexivity | reflexivity | intros; reflexivity | simpl; lia].
Defined.

(** X9.  With a mask of ones and the first token included, ["reduce_max"]
    is the maximum over all positions of the sequence; a batch without
    positions is refused by the reduction. *)
Theorem reduce_max_all_valid {F : Type} {N : Numeric F}
    (t : Tensor3 F) (padding_mask : Tensor2 Z) :
  (rows padding_mask = dim0 t \/ rows padding_mask = 1%nat) ->
  (cols padding_mask = dim1 t \/ cols padding_mask = 1%nat) ->
  (forall i j, (i < rows padding_mask)%nat -> (j < cols padding_mask)%nat ->
               at2 padding_mask i j = 1%Z) ->
  _pool_tokens t (Some padding_mask) "reduce_max" false
  = if (dim1 t =? 0)%nat then
      raise (ValueError "zero-size array to reduction operation maximum which has no identity")
    else
      ret (map (fun i =>
                  map (fun k => fold_left fmax (column t i k (seq 1 (dim1 t - 1))) (at3 t i 0 k))
                      (seq 0 (dim2 t)))
               (seq 0 (dim0 t))).
Proof.
  intros Hr Hc Hones.
  rewrite pool_tokens_unfold; [| reflexivity |].
  2: { apply andb_true_iff. split; apply orb_true_iff.
       - destruct Hr as [-> | ->]; [left | right]; apply Nat.eqb_refl.
       - destruct Hc as [-> | ->]; [left | right]; apply Nat.eqb_refl. }
  cbv zeta. change (String.eqb "reduce_max" "reduce_max") with true. cbv iota.
  unfold ma_max_axis1. destruct (Nat.eqb_spec (dim1 t) 0) as [| Hpos]; [reflexivity |].
  f_equal. apply map_ext_in. intros i Hi. apply in_seq in Hi.
  apply map_ext_in. intros k _. unfold unmasked.
  rewrite filter_keeps_all.
  - unfold column. destruct (dim1 t) as [| s]; [lia |].
    replace (S s - 1)%nat with s by lia. reflexivity.
  - intros j Hj. apply in_seq in Hj. rewrite negb_involutive.
    unfold kept. cbv zeta. cbn [andb negb]. rewrite Hones; [reflexivity | |].
    + destruct (Nat.eqb_spec (rows padding_mask) 1); lia.
    + destruct (Nat.eqb_spec (cols padding_mask) 1); lia.
Qed.

Lemma reduce_max_all_valid_witness :
  _pool_tokens (N := Numeric_Z) example_tensor (Some example_mask) "reduce_max" false
  = ret [[20; 21]; [120; 121]]%Z.
Proof.
  apply (reduce_max_all_valid (N := Numeric_Z) example_tensor example_mask);
    [left; reflexivity | left; reflexivity | intros; reflexivity].
Defined.

(** ** The predictions of [formatted_preds] *)

Section PredsFacts.
Context {F : Type} {N : Numeric F}.

Lemma zip_preds_contexts (vecs : list (@pred_vec F)) (samples : list Sample) :
  map context (zip_preds vecs samples)
  = map tokens (firstn (length (zip_preds vecs samples)) samples).
Proof.
  revert samples. induction vecs as [| v vecs IH]; intros [| sample samples]; cbn;
    try reflexivity.
  f_equal. apply IH.
Qed.

End PredsFacts.

(** X10.  Whenever [formatted_preds] returns, there are no more predictions
    than samples, and the contexts of the predictions are the tokens of the
    leading samples, in their order: a sample beyond the vectors is dropped
    without notice. *)
Theorem formatted_preds_contexts {F : Type} {N : Numeric F}
    (self : Extraction) (logits : @LMOutput F * list (@LMOutput F))
    (samples : list Sample) (ignore_first_token : bool)
    (padding_mask : option (Tensor2 Z)) (preds : list (@Pred F))
    (log : list log_record) :
  formatted_preds self logits samples ignore_first_token padding_mask = (inr preds, log) ->
  (length preds <= length samples)%nat
  /\ map context preds = map tokens (firstn (length preds) samples).
Proof.
  unfold formatted_preds.
  destruct (extraction_layer self) as [layer |]; [| discriminate].
  destruct (extraction_strategy self) as [strategy |]; [| discriminate].
  cbv zeta. intros Hrun.
  apply bind_inr_inv in Hrun as (vecs & l1 & l2 & _ & Hret & _).
  injection Hret as <- _. split.
  - rewrite zip_preds_length. lia.
  - apply zip_preds_contexts.
Qed.

Lemma formatted_preds_contexts_witness :
  exists preds log,
    formatted_preds (N := Numeric_Z) (MkExtraction (Some (-1)%Z) (Some "cls_token"))
      example_logits example_samples true None = (inr preds, log)
    /\ (length preds <= length example_samples)%nat
    /\ map context preds = map tokens (firstn (length preds) example_samples).
Proof.
  destruct (formatted_preds (N := Numeric_Z) (MkExtraction (Some (-1)%Z) (Some "cls_token"))
              example_logits example_samples true None) as [[e | preds] log] eqn:Hrun;
    [vm_compute in Hrun; discriminate |].
  exists preds, log. split; [reflexivity |].
  exact (formatted_preds_contexts (N := Numeric_Z) _ _ _ _ _ _ _ Hrun).
Defined.

(** ** The language of a model name *)

Lemma filter_unique {A} (f : A -> bool) (l : list A) (x : A) :
  List.NoDup l -> In x l -> f x = true ->
  (forall y, In y l -> f y = true -> y = x) ->
  List.filter f l = [x].
Proof.
  induction l as [| a l IH]; intros Hnd Hin Hx Huniq; [destruct Hin |].
  inversion Hnd as [| a' l' Hnotin Hnd']; subst. cbn [List.filter].
  destruct Hin as [-> | Hin].
  - rewrite Hx. f_equal.
    destruct (List.filter f l) as [| y r] eqn:Hf; [reflexivity |].
    assert (Hy : In y (List.filter f l)) by (rewrite Hf; left; reflexivity).
    apply filter_In in Hy as [Hy Hfy].
    exfalso. apply Hnotin. rewrite <- (Huniq y (or_intror Hy) Hfy). exact Hy.
  - destruct (f a) eqn:Hfa.
    + exfalso. apply Hnotin. rewrite (Huniq a (or_introl eq_refl) Hfa). exact Hin.
    + apply IH; auto. intros y Hy. apply Huniq. right. exact Hy.
Qed.

Lemma known_languages_NoDup : List.NoDup known_languages.
Proof.
  unfold known_languages.
  repeat (constructor; [cbn; intros Hin;
                        repeat (destruct Hin as [Hin | Hin]; [discriminate |]); exact Hin |]).
  constructor.
Qed.

(** X11.  A name that contains exactly one of the known languages is given
    that language. *)
Theorem infer_language_unique_match (name lang : string) :
  In lang known_languages ->
  contains lang name = true ->
  (forall l, In l known_languages -> contains l name = true -> l = lang) ->
  outcome (_infer_language_from_name name) = inr lang
  /\ _get_or_infer_language_from_name JNull name
     = (inr (JStr lang), logged (_infer_language_from_name name)).
Proof.
  intros Hin Hc Huniq.
  assert (Hrun : exists l, _infer_language_from_name name = (inr lang, l)).
  { unfold _infer_language_from_name. cbv zeta.
    rewrite (filter_unique _ known_languages lang known_languages_NoDup Hin Hc Huniq).
    eexists. reflexivity. }
  destruct Hrun as [l Hrun]. split.
  - rewrite Hrun. reflexivity.
  - unfold _get_or_infer_language_from_name. rewrite Hrun. cbn.
    rewrite app_nil_r. reflexivity.
Qed.

Lemma infer_language_unique_match_witness :
  outcome (_infer_language_from_name "bert-base-german-cased") = inr "german"
  /\ _get_or_infer_language_from_name JNull "bert-base-german-cased"
     = (inr (JStr "german"), logged (_infer_language_from_name "bert-base-german-cased")).
Proof.
  apply (infer_language_unique_match "bert-base-german-cased" "german").
  - cbn. tauto.
  - vm_compute. reflexivity.
  - intros l Hl Hc. cbn in Hl.
    repeat (destruct Hl as [<- | Hl]; [first [reflexivity | vm_compute in Hc; discriminate] |]).
    destruct Hl.
Defined.

Lemma infer_language_two_matches (name l1 l2 : string) :
  In l1 known_languages -> In l2 known_languages -> l1 <> l2 ->
  contains l1 name = true -> contains l2 name = true ->
  exists msg, _infer_language_from_name name = raise (ValueError msg).
Proof.
  intros H1 H2 Hne Hc1 Hc2. unfold _infer_language_from_name. cbv zeta.
  assert (Hm1 : In l1 (List.filter (fun lang => contains lang name) known_languages))
    by (apply filter_In; auto).
  assert (Hm2 : In l2 (List.filter (fun lang => contains lang name) known_languages))
    by (apply filter_In; auto).
  destruct (List.filter (fun lang => contains lang name) known_languages)
    as [| a [| b r]]; [destruct Hm1 | | eexists; reflexivity].
  exfalso. apply Hne. destruct Hm1 as [<- | []]. destruct Hm2 as [<- | []]. reflexivity.
Qed.

(** X12.  A name that contains two of the known languages is refused: no
    language is guessed, neither the first match nor english. *)
Theorem infer_language_ambiguous (name l1 l2 : string) :
  In l1 known_languages -> In l2 known_languages -> l1 <> l2 ->
  contains l1 name = true -> contains l2 name = true ->
  exists msg, _infer_language_from_name name = raise (ValueError msg).
Proof. apply infer_language_two_matches. Qed.

Lemma infer_language_ambiguous_witness :
  exists msg,
    _infer_language_from_name "bert-german-english" = raise (ValueError msg).
Proof.
  apply (infer_language_ambiguous "bert-german-english" "german" "english").
  - cbn. tauto.
  - cbn. tauto.
  - discriminate.
  - vm_compute. reflexivity.
  - vm_compute. reflexivity.
Defined.

(** ** Loading by format *)

Lemma outcome_bind_inr {A B} (m : M A) (k : A -> M B) (a : A) (l : list log_record) :
  m = (inr a, l) -> outcome (bind m k) = outcome (k a).
Proof. intros ->. unfold bind, outcome. destruct (k a). reflexivity. Qed.

Lemma subclasses_getitem_inv (key : jval) (c : LMClass) (l : list log_record) :
  subclasses_getitem key = (inr c, l) -> key = JStr (class_name c).
Proof.
  unfold subclasses_getitem. destruct key as [| b | n | k]; try discriminate.
  destruct (subclasses !! k) as [c' |] eqn:Hk; [| discriminate].
  intros [= -> _]. unfold subclasses in Hk.
  apply elem_of_list_to_map_2 in Hk. cbn in Hk.
  repeat (apply elem_of_cons in Hk as [Hk | Hk]; [injection Hk as -> ->; reflexivity |]).
  apply elem_of_nil in Hk. destruct Hk.
Qed.

Section LoadFacts.
Context {F : Type} {N : Numeric F} {L : Library}.

(** With a configuration file in the directory, [load] takes the class from
    the file and calls its [load] without language and keyword arguments. *)
Lemma load_farm_format (fs : gmap string (file weights)) (p : string)
    (n : Z) (cls : jval) (kwargs : gmap string jval) :
  exists_file fs (path_join p "language_model_config.json") = true ->
  load (F := F) fs p n cls kwargs =
  (let* config := json_load fs (path_join p "language_model_config.json") in
   let* key := match config !! "name" with
               | Some key => ret key
               | None => raise (KeyError (JStr "name"))
               end in
   let* c := subclasses_getitem key in
   let* language_model := subclass_load c fs p JNull ∅ in
   if negb (n =? 0)%Z then resize_for_custom_vocab language_model n
   else ret language_model).
Proof.
  intros Hyes. unfold load. rewrite Hyes. cbv zeta.
  rewrite bind_assoc. apply bind_ext. intros config.
  rewrite bind_assoc. apply bind_ext. intros key.
  rewrite bind_assoc. apply bind_ext. intros c.
  rewrite bind_assoc. apply bind_ext. intros language_model.
  rewrite bind_ret_l. reflexivity.
Qed.

Lemma WordEmbedding_LM_load_backbone (fs : gmap string (file weights)) (p : string)
    (language : jval) (kwargs : gmap string jval) (lm : @LanguageModel F L)
    (log : list log_record) :
  WordEmbedding_LM_load fs p language kwargs = (inr lm, log) ->
  exists_file fs (path_join p "language_model_config.json") = true
  /\ exists em, lm_model lm = WordVectors em.
Proof.
  unfold WordEmbedding_LM_load. cbv zeta. intros Hrun.
  destruct (exists_file fs _); [| discriminate]. split; [reflexivity |].
  apply bind_inr_inv in Hrun as (config & l1 & l2 & _ & Hrun & _).
  apply bind_inr_inv in Hrun as (ef & l3 & l4 & _ & Hrun & _).
  apply bind_inr_inv in Hrun as (vf & l5 & l6 & _ & Hrun & _).
  apply bind_inr_inv in Hrun as (em & l7 & l8 & _ & Hrun & _).
  injection Hrun as <- _. eauto.
Qed.

Lemma resize_word_vectors (lm : @LanguageModel F L) (em : EmbeddingModel) (n : Z) :
  lm_model lm = WordVectors em -> n <> 0%Z ->
  outcome (resize_for_custom_vocab lm n) = inl (AssertionError "").
Proof.
  intros Hm Hn. unfold resize_for_custom_vocab. rewrite Hm. cbv zeta.
  destruct (Z.eqb_spec (EmbeddingModel_num_embeddings em + n)
                       (EmbeddingModel_num_embeddings em)) as [Heq | _]; [lia |].
  reflexivity.
Qed.

(** The class of a returned model is the one looked up in the registry. *)
Lemma load_class_farm (fs : gmap string (file weights)) (p : string) (n : Z)
    (cls : jval) (kwargs : gmap string jval) (lm : @LanguageModel F L)
    (log : list log_record) :
  exists_file fs (path_join p "language_model_config.json") = true ->
  load fs p n cls kwargs = (inr lm, log) ->
  exists config l1 lm0 l2,
    json_load fs (path_join p "language_model_config.json") = (inr config, l1)
    /\ config !! "name" = Some (JStr (class_name (lm_class lm)))
    /\ subclass_load (lm_class lm) fs p JNull ∅ = (inr lm0, l2)
    /\ lm_class lm0 = lm_class lm
    /\ (if negb (n =? 0)%Z then outcome (resize_for_custom_vocab lm0 n) = inr lm
        else lm0 = lm).
Proof.
  intros Hyes Hrun. rewrite (load_farm_format _ _ _ _ _ Hyes) in Hrun.
  apply bind_inr_inv in Hrun as (config & l1 & l1' & Hjson & Hrun & _).
  apply bind_inr_inv in Hrun as (key & l2 & l2' & Hkey & Hrun & _).
  apply bind_inr_inv in Hrun as (c & l3 & l3' & Hc & Hrun & _).
  apply bind_inr_inv in Hrun as (lm0 & l4 & l4' & Hload & Hrun & _).
  apply subclasses_getitem_inv in Hc. subst key.
  destruct (config !! "name") as [key |] eqn:Hname; [| discriminate].
  injection Hkey as -> _.
  pose proof (subclass_load_backbone _ _ _ _ _ _ _ Hload) as [Hc0 _].
  assert (Hclass : lm_class lm = c).
  { destruct (negb (n =? 0)%Z).
    - apply resize_backbone in Hrun as [Hc1 _]. congruence.
    - injection Hrun as <- _. exact Hc0. }
  rewrite Hclass. exists config, l1, lm0, l4.
  split; [exact Hjson |]. split; [exact Hname |]. split; [exact Hload |].
  split; [exact Hc0 |].
  destruct (negb (n =? 0)%Z).
  - rewrite Hrun. reflexivity.
  - injection Hrun as <- _. reflexivity.
Qed.

Lemma load_class_transformers (fs : gmap string (file weights)) (p : string) (n : Z)
    (cls : jval) (kwargs : gmap string jval) (lm : @LanguageModel F L)
    (log : list log_record) :
  exists_file fs (path_join p "language_model_config.json") = false ->
  load fs p n cls kwargs = (inr lm, log) ->
  exists lm0 l0,
    match cls with JNull => infer_language_model_class p | _ => cls end
    = JStr (class_name (lm_class lm))
    /\ subclass_load (lm_class lm) fs p (default JNull (kwargs !! "language"))
         (delete "language" kwargs) = (inr lm0, l0)
    /\ lm_class lm0 = lm_class lm
    /\ (let n' := if bool_decide (lm_class lm = XLMRoberta) then 3%Z else n in
        if negb (n' =? 0)%Z then resize_for_custom_vocab lm0 n' = (inr lm, skipn (length l0) log)
        else lm0 = lm).
Proof.
  intros Hno Hrun. rewrite (load_transformers_format _ _ _ _ _ Hno) in Hrun.
  cbv zeta in Hrun.
  apply bind_inr_inv in Hrun as (c & l3 & l3' & Hc & Hrun & Hlog).
  apply bind_inr_inv in Hrun as (lm0 & l4 & l4' & Hload & Hrun & Hlog').
  pose proof (subclasses_getitem_inv _ _ _ Hc) as Hkey.
  assert (Hl3 : l3 = []).
  { rewrite Hkey in Hc. rewrite subclasses_class_name in Hc. unfold ret in Hc. congruence. }
  subst l3. cbn [app] in Hlog. subst l3'.
  rewrite Hkey in Hrun.
  assert (Hxlm : bool_decide (JStr (class_name c) = JStr "XLMRoberta")
                 = bool_decide (c = XLMRoberta)).
  { apply bool_decide_ext. split; [| intros ->; reflexivity].
    destruct c; intros Heq; first [reflexivity | discriminate Heq]. }
  rewrite Hxlm in Hrun.
  pose proof (subclass_load_backbone _ _ _ _ _ _ _ Hload) as [Hc0 _].
  assert (Hclass : lm_class lm = c).
  { destruct (negb (_ =? 0)%Z).
    - apply resize_backbone in Hrun as [Hc1 _]. congruence.
    - injection Hrun as <- _. exact Hc0. }
  rewrite Hclass. exists lm0, l4.
  split; [exact Hkey |]. split; [exact Hload |]. split; [exact Hc0 |].
  cbv zeta. subst log. rewrite drop_app_length.
  destruct (negb (_ =? 0)%Z).
  - exact Hrun.
  - injection Hrun as <- _. reflexivity.
Qed.

Lemma class_name_inj (c c' : LMClass) : class_name c = class_name c' -> c = c'.
Proof. destruct c, c'; intros Heq; first [reflexivity | discriminate Heq]. Qed.

Lemma resize_keeps (lm lm' : @LanguageModel F L) (n : Z) (log : list log_record) :
  resize_for_custom_vocab lm n = (inr lm', log) ->
  lm_name lm' = lm_name lm /\ lm_language lm' = lm_language lm.
Proof.
  unfold resize_for_custom_vocab. destruct (lm_model lm) as [m | em] eqn:Hm; intros Hrun;
    apply bind_inr_inv in Hrun as ([] & l1 & l2 & _ & Hrun & _).
  - destruct (_ =? _)%Z; [| discriminate]. injection Hrun as <- _. cbn. auto.
  - destruct (_ =? _)%Z; [| discriminate]. injection Hrun as <- _. auto.
Qed.

Lemma set_config_name (attrs : list (string * jval)) (lm : @LanguageModel F L) :
  lm_name (set_config attrs lm) = lm_name lm
  /\ lm_language (set_config attrs lm) = lm_language lm.
Proof. unfold set_config. destruct (lm_model lm); cbn; auto. Qed.

Lemma transformers_load_farm (c : LMClass) (fs : gmap string (file weights)) (p : string)
    (config : gmap string jval) (l1 : list log_record) (lm : @LanguageModel F L)
    (log : list log_record) :
  exists_file fs (path_join p "language_model_config.json") = true ->
  json_load fs (path_join p "language_model_config.json") = (inr config, l1) ->
  transformers_load c fs p JNull ∅ = (inr lm, log) ->
  lm_name lm = JStr p /\ lm_language lm = default JNull (config !! "language").
Proof.
  intros Hyes Hjson. unfold transformers_load. cbv zeta. rewrite Hyes. intros Hrun.
  apply bind_inr_inv in Hrun as (config' & l2 & l2' & Hjson' & Hrun & _).
  assert (config' = config) by congruence. subst config'.
  apply bind_inr_inv in Hrun as (m & l3 & l3' & Hm & Hrun & _).
  assert (Hcfg : hf_config m = config).
  { unfold model_from_pretrained in Hm.
    destruct (fs !! _) as [[obj | w | lines] |]; try discriminate.
    injection Hm as <- _. reflexivity. }
  rewrite Hcfg in Hrun. destruct (config !! "language") as [language |]; [| discriminate].
  injection Hrun as <- _. cbn. rewrite lookup_empty. auto.
Qed.

Lemma subclass_load_farm (c : LMClass) (fs : gmap string (file weights)) (p : string)
    (config : gmap string jval) (l1 : list log_record) (lm : @LanguageModel F L)
    (log : list log_record) :
  exists_file fs (path_join p "language_model_config.json") = true ->
  json_load fs (path_join p "language_model_config.json") = (inr config, l1) ->
  subclass_load c fs p JNull ∅ = (inr lm, log) ->
  lm_name lm = JStr p /\ lm_language lm = default JNull (config !! "language").
Proof.
  intros Hyes Hjson.
  destruct c; cbn [subclass_load];
    unfold Bert_load, Albert_load, Roberta_load, XLMRoberta_load,
           DistilBert_load, XLNet_load; intros Hrun.
  1-4: exact (transformers_load_farm _ _ _ _ _ _ _ Hyes Hjson Hrun).
  1-2: apply bind_inr_inv in Hrun as (lm0 & l2 & l2' & Hload & Hret & _);
       injection Hret as <- _;
       match goal with
       | |- context [set_config ?attrs lm0] =>
           destruct (set_config_name attrs lm0) as [-> ->]
       end;
       exact (transformers_load_farm _ _ _ _ _ _ _ Hyes Hjson Hload).
  unfold WordEmbedding_LM_load in Hrun. cbv zeta in Hrun. rewrite Hyes in Hrun.
  apply bind_inr_inv in Hrun as (config' & l2 & l2' & Hjson' & Hrun & _).
  assert (config' = config) by congruence. subst config'.
  apply bind_inr_inv in Hrun as (ef & l3 & l4 & _ & Hrun & _).
  apply bind_inr_inv in Hrun as (vf & l5 & l6 & _ & Hrun & _).
  apply bind_inr_inv in Hrun as (em & l7 & l8 & _ & Hrun & _).
  injection Hrun as <- _. cbn. rewrite lookup_empty. auto.
Qed.

End LoadFacts.

(** X13.  An identifier with "xlm" and "roberta" that names no local
    configuration file is loaded with three more embedding rows than the
    pretrained model has, whatever [n_added_tokens] the caller gave; the
    vocabulary size of the configuration follows. *)
Theorem load_xlm_roberta_three_more_tokens {F : Type} {N : Numeric F} {L : Library}
    (fs : gmap string (file weights)) (p : string) (n : Z)
    (kwargs : gmap string jval) (lm : @LanguageModel F L) (log : list log_record) :
  exists_file fs (path_join p "language_model_config.json") = false ->
  contains "xlm" p = true -> contains "roberta" p = true ->
  load fs p n JNull kwargs = (inr lm, log) ->
  exists config w m,
    hub_from_pretrained XLMRoberta p (delete "language" kwargs) = inr (config, w)
    /\ lm_class lm = XLMRoberta
    /\ lm_model lm = Transformer m
    /\ num_embeddings (hf_weights m) = (num_embeddings w + 3)%Z
    /\ hf_config m !! "vocab_size" = Some (JNum (num_embeddings w + 3)).
Proof.
  intros Hno Hx Hr Hrun.
  destruct (load_class_transformers _ _ _ _ _ _ _ Hno Hrun)
    as (lm0 & l0 & Hkey & Hload & _ & Hresize).
  assert (Hclass : lm_class lm = XLMRoberta).
  { unfold infer_language_model_class in Hkey. cbv zeta in Hkey.
    rewrite Hx, Hr in Hkey. cbn [andb] in Hkey. injection Hkey as Hkey.
    apply (class_name_inj XLMRoberta) in Hkey. congruence. }
  rewrite Hclass in Hload, Hresize. cbv zeta in Hresize.
  rewrite bool_decide_eq_true_2 in Hresize by reflexivity.
  change (negb (3 =? 0)%Z) with true in Hresize. cbv iota in Hresize.
  cbn [subclass_load] in Hload. unfold XLMRoberta_load, transformers_load in Hload.
  cbv zeta in Hload. rewrite Hno in Hload.
  apply bind_inr_inv in Hload as ([config w] & l1 & l1' & Hhub & Hload & _).
  apply bind_inr_inv in Hload as (language & l2 & l2' & _ & Hload & _).
  injection Hload as <- _.
  unfold resize_for_custom_vocab in Hresize. cbn [lm_model] in Hresize.
  cbv zeta in Hresize.
  apply bind_inr_inv in Hresize as ([] & l3 & l3' & _ & Hresize & _).
  cbn [hf_weights hf_config hf_output_hidden_states lm_class lm_name lm_language] in Hresize.
  rewrite num_embeddings_resize, Z.eqb_refl in Hresize.
  injection Hresize as <- _.
  exists config, w. eexists.
  split; [unfold lift in Hhub; congruence |].
  split; [reflexivity |]. split; [reflexivity |]. cbn [hf_weights hf_config]. split.
  - apply num_embeddings_resize.
  - apply lookup_insert_eq.
Qed.

Lemma load_xlm_roberta_three_more_tokens_witness :
  exists lm log config w m,
    load (N := Numeric_Z) (L := toy_library) ∅ "xlm-roberta-base" 0 JNull ∅ = (inr lm, log)
    /\ hub_from_pretrained (Library := toy_library) XLMRoberta "xlm-roberta-base" (delete "language" ∅)
       = inr (config, w)
    /\ lm_class lm = XLMRoberta
    /\ lm_model lm = Transformer m
    /\ num_embeddings (Library := toy_library) (hf_weights m) = (num_embeddings w + 3)%Z
    /\ hf_config m !! "vocab_size" = Some (JNum (num_embeddings w + 3)).
Proof.
  destruct (load (N := Numeric_Z) (L := toy_library) ∅ "xlm-roberta-base" 0 JNull ∅)
    as [[e | lm] log] eqn:Hrun; [vm_compute in Hrun; discriminate |].
  destruct (load_xlm_roberta_three_more_tokens (N := Numeric_Z) (L := toy_library)
              ∅ "xlm-roberta-base" 0 ∅ lm log) as (config & w & m & H);
    [apply exists_file_empty | vm_compute; reflexivity | vm_compute; reflexivity
     | exact Hrun |].
  exists lm, log, config, w, m. split; [reflexivity | exact H].
Defined.

(** X14.  A directory that loads as a word-embedding model cannot be loaded
    with added tokens: the table of a word-embedding model is not resized,
    and the check after the resize fails. *)
Theorem load_word_embedding_added_tokens {F : Type} {N : Numeric F} {L : Library}
    (fs : gmap string (file weights)) (p : string) (n : Z)
    (cls cls' : jval) (kwargs kwargs' : gmap string jval)
    (lm : @LanguageModel F L) (log : list log_record) :
  load fs p 0 cls kwargs = (inr lm, log) ->
  lm_class lm = WordEmbedding_LM ->
  n <> 0%Z ->
  outcome (load (F := F) fs p n cls' kwargs') = inl (AssertionError "").
Proof.
  intros Hrun Hclass Hn.
  destruct (exists_file fs (path_join p "language_model_config.json")) eqn:Hfile.
  - destruct (load_class_farm _ _ _ _ _ _ _ Hfile Hrun)
      as (config & l1 & lm0 & l2 & Hjson & Hname & Hload & _ & Hsame).
    change (negb (0 =? 0)%Z) with false in Hsame. cbv iota in Hsame. subst lm0.
    rewrite Hclass in Hname, Hload.
    pose proof Hload as Hload'. cbn [subclass_load] in Hload'.
    apply WordEmbedding_LM_load_backbone in Hload' as [_ [em Hem]].
    rewrite (load_farm_format _ _ _ _ _ Hfile).
    rewrite (outcome_bind_inr _ _ _ _ Hjson). rewrite Hname, bind_ret_l.
    rewrite (subclasses_class_name WordEmbedding_LM), bind_ret_l.
    rewrite (outcome_bind_inr _ _ _ _ Hload).
    destruct (Z.eqb_spec n 0) as [| _]; [contradiction |]. cbn [negb].
    exact (resize_word_vectors lm em n Hem Hn).
  - destruct (load_class_transformers _ _ _ _ _ _ _ Hfile Hrun)
      as (lm0 & l0 & _ & Hload & _).
    rewrite Hclass in Hload. cbn [subclass_load] in Hload.
    apply WordEmbedding_LM_load_backbone in Hload as [Hyes _]. congruence.
Qed.

Lemma load_word_embedding_added_tokens_witness :
  outcome (load (N := Numeric_Z) (L := toy_library) example_fs "A" 2 JNull ∅)
  = inl (AssertionError "").
Proof.
  destruct (load (N := Numeric_Z) (L := toy_library) example_fs "A" 0 JNull ∅)
    as [[e | lm] log] eqn:Hrun; [vm_compute in Hrun; discriminate |].
  apply (load_word_embedding_added_tokens (N := Numeric_Z) (L := toy_library)
           example_fs "A" 2 JNull JNull ∅ ∅ lm log Hrun); [| lia].
  pose proof Hrun as Hrun'. vm_compute in Hrun'. injection Hrun' as <- _. reflexivity.
Defined.

(** X15.  Without a configuration file in the directory no word-embedding
    model is loaded: an identifier that resolves to [WordEmbedding_LM], by
    its name ("word2vec", "glove") or by the class the caller names, ends in
    [NotImplementedError]. *)
Theorem load_word_embedding_needs_farm_directory {F : Type} {N : Numeric F} {L : Library}
    (fs : gmap string (file weights)) (p : string) (n : Z) (cls : jval)
    (kwargs : gmap string jval) :
  exists_file fs (path_join p "language_model_config.json") = false ->
  (cls = JStr "WordEmbedding_LM"
   \/ (cls = JNull /\ first_match p = Some WordEmbedding_LM)) ->
  load (F := F) fs p n cls kwargs = raise NotImplementedError.
Proof.
  intros Hno Hcls. rewrite (load_transformers_format _ _ _ _ _ Hno). cbv zeta.
  assert (Hkey : match cls with JNull => infer_language_model_class p | _ => cls end
                 = JStr (class_name WordEmbedding_LM)).
  { destruct Hcls as [-> | [-> Hfirst]]; [reflexivity |].
    rewrite infer_first_match, Hfirst. reflexivity. }
  rewrite Hkey, subclasses_class_name, bind_ret_l.
  cbn [subclass_load]. unfold WordEmbedding_LM_load. cbv zeta. rewrite Hno.
  reflexivity.
Qed.

Lemma load_word_embedding_needs_farm_directory_witness :
  load (N := Numeric_Z) (L := toy_library) ∅ "glove-german-300" 0 JNull ∅
  = raise NotImplementedError.
Proof.
  apply (load_word_embedding_needs_farm_directory (N := Numeric_Z) (L := toy_library)).
  - apply exists_file_empty.
  - right. split; [reflexivity | vm_compute; reflexivity].
Defined.

(** X16.  For a directory with a configuration file, [load] takes nothing
    from its class argument and its keyword arguments: the class of the
    model is the one the file names, its language the one of the file
    ([None] without one), and its name the directory. *)
Theorem load_farm_directory_ignores_arguments {F : Type} {N : Numeric F} {L : Library}
    (fs : gmap string (file weights)) (p : string) (n : Z)
    (cls cls' : jval) (kwargs kwargs' : gmap string jval) :
  exists_file fs (path_join p "language_model_config.json") = true ->
  load (F := F) fs p n cls kwargs = load fs p n cls' kwargs'
  /\ forall (lm : @LanguageModel F L) log,
       load fs p n cls kwargs = (inr lm, log) ->
       exists config,
         outcome (json_load fs (path_join p "language_model_config.json")) = inr config
         /\ config !! "name" = Some (JStr (class_name (lm_class lm)))
         /\ lm_language lm = default JNull (config !! "language")
         /\ lm_name lm = JStr p.
Proof.
  intros Hyes. split.
  - rewrite !(load_farm_format _ _ _ _ _ Hyes). reflexivity.
  - intros lm log Hrun.
    destruct (load_class_farm _ _ _ _ _ _ _ Hyes Hrun)
      as (config & l1 & lm0 & l2 & Hjson & Hname & Hload & _ & Hrest).
    destruct (subclass_load_farm _ _ _ _ _ _ _ Hyes Hjson Hload) as [Hn Hl].
    exists config. split; [rewrite Hjson; reflexivity |]. split; [exact Hname |].
    destruct (negb (n =? 0)%Z).
    + destruct (resize_for_custom_vocab lm0 n) as [r l] eqn:Hres.
      cbn in Hrest. subst r.
      apply resize_keeps in Hres as [-> ->]. auto.
    + subst lm0. auto.
Qed.

Lemma load_farm_directory_ignores_arguments_witness :
  load (N := Numeric_Z) (L := toy_library) example_fs "A" 0 JNull ∅
  = load (N := Numeric_Z) (L := toy_library) example_fs "A" 0 (JStr "Bert")
      {["language" := JStr "english"]}
  /\ forall (lm : @LanguageModel Z toy_library) log,
       load (N := Numeric_Z) (L := toy_library) example_fs "A" 0 JNull ∅ = (inr lm, log) ->
       exists config,
         outcome (json_load (L := toy_library) example_fs
                    (path_join "A" "language_model_config.json")) = inr config
         /\ config !! "name" = Some (JStr (class_name (lm_class lm)))
         /\ lm_language lm = default JNull (config !! "language")
         /\ lm_name lm = JStr "A".
Proof.
  apply (load_farm_directory_ignores_arguments (N := Numeric_Z) (L := toy_library)).
  vm_compute. reflexivity.
Defined.

(** ** Saving *)

Section SaveFacts.
Context {F : Type} {N : Numeric F} {L : Library}.

Lemma stamped_idem (self self' : @LanguageModel F L) (config : gmap string jval) :
  lm_class self' = lm_class self -> lm_language self' = lm_language self ->
  stamped self' (stamped self config) = stamped self config.
Proof.
  intros Hc Hl. unfold stamped. rewrite Hc, Hl. apply map_eq. intros i.
  destruct (decide (i = "language")) as [-> | Hi]; [rewrite !lookup_insert_eq; reflexivity |].
  destruct (decide (i = "name")) as [-> | Hi']; lookup_inserts.
Qed.

Lemma insert_twice_pair (fs : gmap string (file weights)) (a b : string)
    (x y : file weights) :
  <[a := x]> (<[b := y]> (<[a := x]> (<[b := y]> fs))) = <[a := x]> (<[b := y]> fs).
Proof.
  apply map_eq. intros i.
  destruct (decide (i = a)) as [-> | Ha]; [rewrite !lookup_insert_eq; reflexivity |].
  destruct (decide (i = b)) as [-> | Hb]; lookup_inserts.
Qed.

Lemma save_config_idem (self self1 : @LanguageModel F L) (save_dir b : string)
    (y : file weights) (fs fs1 : gmap string (file weights)) :
  save_config self save_dir (<[b := y]> fs) = ret (self1, fs1) ->
  save_config self1 save_dir (<[b := y]> fs1) = ret (self1, fs1)
  /\ lm_class self1 = lm_class self.
Proof.
  unfold save_config. cbv zeta. intros Hsave. unfold ret in Hsave.
  injection Hsave as Hself Hfs. subst self1 fs1. split; [| reflexivity].
  cbn [lm_class lm_name lm_language lm_model]. unfold ret.
  destruct (lm_model self) as [m | em];
    cbn [lm_config lm_model hf_config hf_weights hf_output_hidden_states
         em_config vocab embeddings unk_idx];
    rewrite stamped_idem by reflexivity;
    rewrite insert_twice_pair; reflexivity.
Qed.

End SaveFacts.

(** X17.  Saving is idempotent: after a successful [save], saving the model
    again into the same directory leaves the files and the model as the
    first call left them. *)
Theorem save_idempotent {F : Type} {N : Numeric F} {L : Library}
    (self self1 : @LanguageModel F L) (save_dir : string)
    (fs fs1 : gmap string (file weights)) :
  save self save_dir fs = ret (self1, fs1) ->
  save self1 save_dir fs1 = ret (self1, fs1).
Proof.
  intros Hsave.
  assert (Hgoal : (lm_class self = WordEmbedding_LM ->
                   WordEmbedding_LM_save self1 save_dir fs1 = ret (self1, fs1))
                  /\ (lm_class self <> WordEmbedding_LM ->
                      LanguageModel_save self1 save_dir fs1 = ret (self1, fs1))
                  /\ lm_class self1 = lm_class self).
  { destruct (decide (lm_class self = WordEmbedding_LM)) as [Hc | Hc].
    - unfold save in Hsave. rewrite Hc in Hsave. unfold WordEmbedding_LM_save in Hsave.
      destruct (lm_model self) as [m | em] eqn:Hm; [discriminate |].
      unfold EmbeddingModel_save in Hsave.
      destruct (em_config em !! "embeddings_filename") as [[| | | name] |] eqn:Hname;
        try discriminate.
      rewrite bind_ret_l in Hsave.
      pose proof (save_config_idem _ _ _ _ _ _ _ Hsave) as [Hidem Hclass].
      split; [| split; [contradiction | exact Hclass]]. intros _.
      unfold WordEmbedding_LM_save.
      pose proof Hsave as Hshape. unfold save_config in Hshape. cbv zeta in Hshape.
      unfold ret in Hshape. injection Hshape as Hself _.
      assert (Hm1 : lm_model self1
                    = WordVectors (MkEmbeddingModel (stamped self (em_config em)) (vocab em)
                                     (embeddings em) (unk_idx em))).
      { rewrite <- Hself. cbn [lm_model]. rewrite Hm. reflexivity. }
      rewrite Hm1. unfold EmbeddingModel_save. cbn [em_config].
      unfold stamped at 1. rewrite !lookup_insert_ne by discriminate. rewrite Hname.
      rewrite bind_ret_l. exact Hidem.
    - assert (Hsave' : LanguageModel_save self save_dir fs = ret (self1, fs1)).
      { unfold save in Hsave. destruct (lm_class self); try exact Hsave. contradiction. }
      unfold LanguageModel_save in Hsave'.
      destruct (lm_model self) as [m | em] eqn:Hm; [| discriminate].
      pose proof (save_config_idem _ _ _ _ _ _ _ Hsave') as [Hidem Hclass].
      split; [contradiction |]. split; [| exact Hclass]. intros _.
      unfold LanguageModel_save.
      pose proof Hsave' as Hshape. unfold save_config in Hshape. cbv zeta in Hshape.
      unfold ret in Hshape. injection Hshape as Hself _.
      assert (Hm1 : lm_model self1
                    = Transformer (MkHFModel (stamped self (hf_config m)) (hf_weights m)
                                     (hf_output_hidden_states m))).
      { rewrite <- Hself. cbn [lm_model]. rewrite Hm. reflexivity. }
      rewrite Hm1. cbn [hf_weights]. exact Hidem. }
  destruct Hgoal as (Hw & Ht & Hclass). unfold save. rewrite Hclass.
  destruct (lm_class self) eqn:Hc; first [apply Ht; discriminate | apply Hw; reflexivity].
Qed.

Lemma save_idempotent_witness :
  exists self1 fs1,
    save (N := Numeric_Z) example_bert "B" ∅ = ret (self1, fs1)
    /\ save (N := Numeric_Z) self1 "B" fs1 = ret (self1, fs1).
Proof.
  destruct (save (N := Numeric_Z) example_bert "B" ∅) as [[e | [self1 fs1]] log] eqn:Hrun;
    [vm_compute in Hrun; discriminate |].
  assert (Hlog : log = []).
  { unfold save, example_bert, LanguageModel_save, save_config in Hrun.
    cbn in Hrun. unfold ret in Hrun. congruence. }
  subst log. exists self1, fs1. split; [reflexivity |].
  exact (save_idempotent (N := Numeric_Z) _ _ _ _ _ Hrun).
Defined.

(** ** The round trip, in full *)

Section RoundTripFacts.
Context {F : Type} {N : Numeric F} {L : Library}.

(** The model that comes back from a directory a transformer adapter was
    saved in: the stamped configuration and the saved parameters, under the
    name of the directory. *)
Lemma save_then_load_exact (fs : gmap string (file weights)) (self : @LanguageModel F L)
    (m : HFModel weights) (save_dir : string) :
  lm_class self <> WordEmbedding_LM ->
  lm_model self = Transformer m ->
  save_then_load fs self save_dir =
  ret (set_config (summary_attributes (lm_class self))
         (MkLanguageModel (lm_class self) (JStr save_dir) (lm_language self)
            (Transformer
               (MkHFModel (stamped self (hf_config m)) (hf_weights m)
                  (eq_True (stamped self (hf_config m) !! "output_hidden_states")))))).
Proof.
  intros Hc Hm.
  destruct (LanguageModel_save_files self m save_dir fs Hm) as (self' & fs' & Hsave & Hcfg & Hbin).
  assert (Hsave' : save self save_dir fs = ret (self', fs')).
  { unfold save. destruct (lm_class self); try exact Hsave. contradiction. }
  unfold save_then_load. rewrite Hsave', bind_ret_l.
  unfold load. cbv zeta. unfold exists_file, json_load. rewrite Hcfg.
  rewrite bool_decide_eq_true_2 by eauto.
  rewrite !bind_ret_l. rewrite stamped_name, bind_ret_l.
  rewrite subclasses_class_name, bind_ret_l.
  rewrite (subclass_load_saved (lm_class self) fs' save_dir (stamped self (hf_config m))
             (hf_weights m) (lm_language self) Hc Hcfg Hbin
             (stamped_language self (hf_config m))).
  rewrite !bind_ret_l. reflexivity.
Qed.

Lemma summary_attributes_keys (c : LMClass) (key : string) :
  key <> "summary_last_dropout" -> key <> "summary_type" -> key <> "summary_activation" ->
  ~ In key (map fst (summary_attributes c)).
Proof.
  intros H1 H2 H3. destruct c; cbn; intros Hin;
    repeat (destruct Hin as [Hin | Hin]; [congruence |]); exact Hin.
Qed.

Lemma get_output_dims_ext (a b : @LanguageModel F L) :
  (forall key, In key OUTPUT_DIM_NAMES -> lm_config a !! key = lm_config b !! key) ->
  get_output_dims a = get_output_dims b.
Proof.
  intros Hsame. unfold get_output_dims. cbv zeta.
  cbn [List.find OUTPUT_DIM_NAMES].
  pose proof (Hsame "dim") as Hdim. pose proof (Hsame "hidden_size") as Hhidden.
  pose proof (Hsame "d_model") as Hmodel.
  rewrite Hdim, Hhidden, Hmodel by (cbn; tauto).
  repeat (destruct (bool_decide _); [rewrite <- ?Hdim, <- ?Hhidden, <- ?Hmodel by (cbn; tauto);
                                     reflexivity |]).
  reflexivity.
Qed.

Lemma set_config_flag_kept (attrs : list (string * jval)) (lm : @LanguageModel F L)
    (m : HFModel weights) :
  lm_model lm = Transformer m ->
  exists m', lm_model (set_config attrs lm) = Transformer m'
             /\ hf_output_hidden_states m' = hf_output_hidden_states m.
Proof. intros Hm. unfold set_config. rewrite Hm. cbn. eauto. Qed.

Lemma EmbeddingConfig_dims (config : gmap string jval) :
  EmbeddingConfig config !! "dim" = None
  /\ EmbeddingConfig config !! "hidden_size" = Some (default JNull (config !! "hidden_size")).
Proof.
  unfold EmbeddingConfig, embedding_config_keys. cbn [map list_to_map foldr fst snd].
  split.
  - repeat (rewrite lookup_insert_ne by (intros Heq; discriminate Heq)). apply lookup_empty.
  - repeat (rewrite lookup_insert_ne by (intros Heq; discriminate Heq)). apply lookup_insert_eq.
Qed.

Lemma WordEmbedding_LM_load_config (fs : gmap string (file weights)) (p : string)
    (language : jval) (kwargs : gmap string jval) (lm : @LanguageModel F L)
    (log l1 : list log_record) (config : gmap string jval) :
  WordEmbedding_LM_load fs p language kwargs = (inr lm, log) ->
  json_load fs (path_join p "language_model_config.json") = (inr config, l1) ->
  exists em, lm_model lm = WordVectors em /\ em_config em = EmbeddingConfig config.
Proof.
  unfold WordEmbedding_LM_load. cbv zeta. intros Hrun Hjson.
  destruct (exists_file fs _); [| discriminate].
  apply bind_inr_inv in Hrun as (config' & l2 & l2' & Hjson' & Hrun & _).
  assert (config' = config) by congruence. subst config'.
  apply bind_inr_inv in Hrun as (ef & l3 & l4 & _ & Hrun & _).
  apply bind_inr_inv in Hrun as (vf & l5 & l6 & _ & Hrun & _).
  apply bind_inr_inv in Hrun as (em & l7 & l8 & Hinit & Hrun & _).
  injection Hrun as <- _. exists em. split; [reflexivity |].
  unfold EmbeddingModel_init in Hinit. cbv zeta in Hinit.
  apply bind_inr_inv in Hinit as (tokens & l9 & l10 & _ & Hinit & _).
  apply bind_inr_inv in Hinit as (f & l11 & l12 & _ & Hinit & _).
  apply bind_inr_inv in Hinit as (emb & l13 & l14 & _ & Hinit & _).
  destruct (odict_get _ _); [| discriminate]. injection Hinit as <- _. reflexivity.
Qed.

End RoundTripFacts.

(** X19.  The output dimension survives the round trip: a transformer
    adapter saved into a directory and loaded from it answers
    [get_output_dims] as before, under the name of the directory. *)
Theorem save_then_load_output_dims {F : Type} {N : Numeric F} {L : Library}
    (fs : gmap string (file weights)) (self : @LanguageModel F L)
    (m : HFModel weights) (save_dir : string) :
  lm_class self <> WordEmbedding_LM ->
  lm_model self = Transformer m ->
  exists loaded,
    save_then_load fs self save_dir = ret loaded
    /\ get_output_dims loaded = get_output_dims self
    /\ lm_name loaded = JStr save_dir.
Proof.
  intros Hc Hm. eexists. split; [apply (save_then_load_exact fs self m save_dir Hc Hm) |].
  split.
  - apply get_output_dims_ext. intros key Hkey.
    match goal with
    | |- lm_config (set_config ?attrs ?lm0) !! _ = _ =>
        destruct (set_config_keeps attrs lm0 key) as (_ & _ & -> & _)
    end.
    + apply summary_attributes_keys;
        cbn in Hkey; intros ->; repeat (destruct Hkey as [Hkey | Hkey]; [discriminate |]);
        exact Hkey.
    + unfold lm_config. rewrite Hm. cbn [lm_model hf_config]. unfold stamped.
      cbn in Hkey.
      repeat (destruct Hkey as [<- | Hkey];
              [rewrite !lookup_insert_ne by discriminate; reflexivity |]).
      destruct Hkey.
  - match goal with
    | |- lm_name (set_config ?attrs ?lm0) = _ =>
        destruct (set_config_name attrs lm0) as [-> _]
    end.
    reflexivity.
Qed.

Lemma save_then_load_output_dims_witness :
  exists loaded,
    save_then_load (N := Numeric_Z) ∅ example_bert "B" = ret loaded
    /\ get_output_dims loaded = get_output_dims example_bert
    /\ lm_name loaded = JStr "B".
Proof.
  apply (save_then_load_output_dims (N := Numeric_Z) ∅ example_bert
           (@MkHFModel (@weights toy_library) {["vocab_size" := JNum 30522]} 30522%Z false) "B").
  - discriminate.
  - reflexivity.
Defined.

(** X20.  A word-embedding model always answers [get_output_dims]: its
    configuration object has the attribute [hidden_size] whatever the file
    held, so the answer is the value of the file, and [None] for a file
    without one. *)
Theorem word_embedding_output_dims {F : Type} {N : Numeric F} {L : Library}
    (fs : gmap string (file weights)) (p : string) (n : Z) (cls : jval)
    (kwargs : gmap string jval) (lm : @LanguageModel F L) (log : list log_record) :
  load fs p n cls kwargs = (inr lm, log) ->
  lm_class lm = WordEmbedding_LM ->
  exists config,
    outcome (json_load fs (path_join p "language_model_config.json")) = inr config
    /\ get_output_dims lm = inr (default JNull (config !! "hidden_size")).
Proof.
  intros Hrun Hclass.
  destruct (exists_file fs (path_join p "language_model_config.json")) eqn:Hfile.
  - destruct (load_class_farm _ _ _ _ _ _ _ Hfile Hrun)
      as (config & l1 & lm0 & l2 & Hjson & _ & Hload & _ & Hrest).
    rewrite Hclass in Hload. cbn [subclass_load] in Hload.
    destruct (WordEmbedding_LM_load_config _ _ _ _ _ _ _ _ Hload Hjson) as (em & Hem & Hcfg).
    assert (Hsame : lm0 = lm).
    { destruct (Z.eqb_spec n 0) as [| Hn]; cbn [negb] in Hrest; [exact Hrest |].
      rewrite (resize_word_vectors lm0 em n Hem Hn) in Hrest. discriminate. }
    subst lm0. exists config. split; [rewrite Hjson; reflexivity |].
    unfold get_output_dims. cbv zeta. unfold lm_config. rewrite Hem, Hcfg.
    destruct (EmbeddingConfig_dims config) as [Hdim Hhidden].
    cbn [List.find OUTPUT_DIM_NAMES]. rewrite Hdim, Hhidden.
    rewrite bool_decide_eq_false_2 by (intros [v Hv]; discriminate).
    rewrite bool_decide_eq_true_2 by eauto. reflexivity.
  - destruct (load_class_transformers _ _ _ _ _ _ _ Hfile Hrun)
      as (lm0 & l0 & _ & Hload & _).
    rewrite Hclass in Hload. cbn [subclass_load] in Hload.
    apply WordEmbedding_LM_load_backbone in Hload as [Hyes _]. congruence.
Qed.

Lemma word_embedding_output_dims_witness :
  exists lm log config,
    load (N := Numeric_Z) (L := toy_library) example_fs "A" 0 JNull ∅ = (inr lm, log)
    /\ outcome (json_load (L := toy_library) example_fs
                  (path_join "A" "language_model_config.json")) = inr config
    /\ get_output_dims lm = inr (default JNull (config !! "hidden_size")).
Proof.
  destruct (load (N := Numeric_Z) (L := toy_library) example_fs "A" 0 JNull ∅)
    as [[e | lm] log] eqn:Hrun; [vm_compute in Hrun; discriminate |].
  destruct (word_embedding_output_dims (N := Numeric_Z) (L := toy_library)
              example_fs "A" 0 JNull ∅ lm log Hrun) as (config & Hjson & Hdims).
  - pose proof Hrun as Hrun'. vm_compute in Hrun'. injection Hrun' as <- _. reflexivity.
  - exists lm, log, config. split; [reflexivity |]. split; assumption.
Defined.

(** X21.  For a vocabulary file without repeated tokens, the model that
    [EmbeddingModel.__init__] returns has a row for every index of its
    vocabulary, all of one length of at least 4; the index of the unknown
    token is one of them. *)
Theorem EmbeddingModel_rows_for_vocabulary {F : Type} {N : Numeric F} {L : Library}
    (fs : gmap string (file weights)) (path : string) (config : gmap string jval)
    (vocab_filename : string) (tokens : list string) (m : @EmbeddingModel F)
    (log : list log_record) :
  EmbeddingModel_init fs path config vocab_filename = (inr m, log) ->
  readlines fs vocab_filename = ret tokens ->
  NoDup (map rstrip_newline tokens) ->
  exists d,
    (4 <= d)%nat
    /\ (forall w i, odict_get (vocab m) w = Some i ->
          exists row, embeddings m !! i = Some row /\ length row = d)
    /\ odict_get (vocab m) "[UNK]" = Some (unk_idx m).
Proof.
  intros Hinit Htokens Hnd. unfold EmbeddingModel_init in Hinit. cbv zeta in Hinit.
  rewrite Htokens, bind_ret_l in Hinit.
  apply bind_inr_inv in Hinit as (f & l1 & l2 & _ & Hinit & _).
  apply bind_inr_inv in Hinit as (emb & l3 & l4 & Hvec & Hinit & _).
  destruct (odict_get (load_vocab tokens) "[UNK]") as [u |] eqn:Hunk; [| discriminate].
  injection Hinit as <- _. cbn [vocab embeddings unk_idx].
  destruct (load_vectors_shape _ _ _ _ Hvec) as (d & Hd & Hlen & Hrows).
  exists d. split; [exact Hd |]. split; [| exact Hunk].
  intros w i Hget.
  assert (Hi : (i < length emb)%nat).
  { rewrite Hlen. rewrite (load_vocab_distinct tokens Hnd) in Hget |- *.
    apply odict_get_combine in Hget as [_ Hat].
    apply lookup_lt_Some in Hat. rewrite length_map in Hat.
    rewrite length_combine, length_map, length_seq. lia. }
  destruct (lookup_lt_is_Some_2 emb i Hi) as [row Hrow].
  exists row. split; [exact Hrow |].
  rewrite Forall_lookup in Hrows. exact (Hrows i row Hrow).
Qed.

Lemma EmbeddingModel_rows_for_vocabulary_witness :
  exists m log d,
    EmbeddingModel_init (N := Numeric_Z) (L := toy_library) example_fs "A/vectors.txt"
      example_embedding_config "A/vocab.txt" = (inr m, log)
    /\ (4 <= d)%nat
    /\ (forall w i, odict_get (vocab m) w = Some i ->
          exists row, embeddings m !! i = Some row /\ length row = d)
    /\ odict_get (vocab m) "[UNK]" = Some (unk_idx m).
Proof.
  destruct (EmbeddingModel_init (N := Numeric_Z) (L := toy_library) example_fs "A/vectors.txt"
              example_embedding_config "A/vocab.txt") as [[e | m] log] eqn:Hrun;
    [vm_compute in Hrun; discriminate |].
  destruct (EmbeddingModel_rows_for_vocabulary (N := Numeric_Z) (L := toy_library)
              example_fs "A/vectors.txt" example_embedding_config "A/vocab.txt"
              example_vocab_file m log Hrun) as (d & H).
  - reflexivity.
  - apply (bool_decide_eq_true_1 _). vm_compute. reflexivity.
  - exists m, log, d. split; [reflexivity | exact H].
Defined.

(** ** The hidden-states flag across the round trip *)

(** X22.  [enable_hidden_states_output] of Bert, Albert, Roberta, XLMRoberta
    and XLNet sets an attribute of the module, which [save] does not write:
    the model loaded back from the directory has the flag its saved
    configuration gives, whatever was enabled before the save. *)
Theorem enabled_hidden_states_not_saved {F : Type} {N : Numeric F} {L : Library}
    (fs : gmap string (file weights)) (self : @LanguageModel F L)
    (m : HFModel weights) (save_dir : string) (pooler : tensor -> tensor) :
  lm_class self <> WordEmbedding_LM ->
  lm_class self <> DistilBert ->
  lm_model self = Transformer m ->
  let enabled := Bert_enable_hidden_states_output (MkAdapter (lm_class self) m pooler) in
  hf_output_hidden_states (model enabled) = true
  /\ exists loaded m',
       save_then_load fs
         (MkLanguageModel (F := F) (lm_class self) (lm_name self) (lm_language self)
            (Transformer (model enabled))) save_dir = ret loaded
       /\ lm_model loaded = Transformer m'
       /\ hf_output_hidden_states m' = eq_True (hf_config m !! "output_hidden_states").
Proof.
  intros Hc _ Hm enabled. split; [reflexivity |].
  set (self1 := MkLanguageModel (F := F) (lm_class self) (lm_name self) (lm_language self)
                  (Transformer (model enabled))).
  pose proof (save_then_load_exact fs self1 (model enabled) save_dir Hc eq_refl) as Hrun.
  match type of Hrun with
  | _ = ret (set_config ?attrs ?lm0) =>
      destruct (set_config_flag_kept attrs lm0 _ eq_refl) as (m' & Hm' & Hflag)
  end.
  eexists _, m'. split; [exact Hrun |]. split; [exact Hm' |].
  rewrite Hflag. cbn [hf_output_hidden_states]. unfold stamped.
  rewrite !lookup_insert_ne by discriminate. reflexivity.
Qed.

Lemma enabled_hidden_states_not_saved_witness :
  exists loaded m',
    save_then_load (N := Numeric_Z) ∅
      (MkLanguageModel (F := Z) Bert (JStr "bert-base-cased") (JStr "english")
         (Transformer
            (model (Bert_enable_hidden_states_output
                      (MkAdapter Bert
                         (@MkHFModel (@weights toy_library) {["vocab_size" := JNum 30522]}
                            30522%Z false)
                         (fun t => t)))))) "B" = ret loaded
    /\ lm_model loaded = Transformer m'
    /\ hf_output_hidden_states m' = false.
Proof.
  destruct (enabled_hidden_states_not_saved (N := Numeric_Z) ∅ example_bert
              (@MkHFModel (@weights toy_library) {["vocab_size" := JNum 30522]} 30522%Z false)
              "B" (fun t => t)) as [_ (loaded & m' & Hrun & Hm' & Hflag)].
  - discriminate.
  - discriminate.
  - reflexivity.
  - exists loaded, m'. split; [exact Hrun |]. split; [exact Hm' | exact Hflag].
Defined.

(** X23.  [enable_hidden_states_output] of DistilBert sets an attribute of
    the configuration, which [save] writes: the model loaded back from the
    directory has the flag that [DistilBert.forward] reads set. *)
Theorem distilbert_enabled_hidden_states_saved {F : Type} {N : Numeric F} {L : Library}
    (fs : gmap string (file weights)) (self : @LanguageModel F L)
    (m : HFModel weights) (save_dir : string) (pooler : tensor -> tensor) :
  lm_class self = DistilBert ->
  lm_model self = Transformer m ->
  let enabled := DistilBert_enable_hidden_states_output (MkAdapter DistilBert m pooler) in
  exists loaded m',
    save_then_load fs
      (MkLanguageModel (F := F) (lm_class self) (lm_name self) (lm_language self)
         (Transformer (model enabled))) save_dir = ret loaded
    /\ lm_model loaded = Transformer m'
    /\ eq_True (hf_config m' !! "output_hidden_states") = true.
Proof.
  intros Hc Hm enabled.
  set (self1 := MkLanguageModel (F := F) (lm_class self) (lm_name self) (lm_language self)
                  (Transformer (model enabled))).
  assert (Hc1 : lm_class self1 <> WordEmbedding_LM) by (cbn; rewrite Hc; discriminate).
  pose proof (save_then_load_exact fs self1 (model enabled) save_dir Hc1 eq_refl) as Hrun.
  match type of Hrun with
  | _ = ret (set_config ?attrs ?lm0) =>
      destruct (set_config_flag_kept attrs lm0 _ eq_refl) as (m' & Hm' & _);
      destruct (set_config_keeps attrs lm0 "output_hidden_states") as (_ & _ & Hkey & _);
      [apply summary_attributes_keys; discriminate |]
  end.
  eexists _, m'. split; [exact Hrun |]. split; [exact Hm' |].
  unfold lm_config in Hkey. rewrite Hm' in Hkey. rewrite Hkey.
  cbn [lm_model hf_config]. unfold stamped.
  rewrite !lookup_insert_ne by discriminate.
  unfold enabled, DistilBert_enable_hidden_states_output, set_config_flag.
  cbn [model hf_config]. rewrite lookup_insert_eq. reflexivity.
Qed.

Lemma distilbert_enabled_hidden_states_saved_witness :
  exists loaded m',
    save_then_load (N := Numeric_Z) ∅
      (MkLanguageModel (F := Z) DistilBert (JStr "distilbert-base-cased") (JStr "english")
         (Transformer
            (model (DistilBert_enable_hidden_states_output
                      (MkAdapter DistilBert (model example_distilbert) (fun t => t))))))
      "B" = ret loaded
    /\ lm_model loaded = Transformer m'
    /\ eq_True (hf_config m' !! "output_hidden_states") = true.
Proof.
  apply (distilbert_enabled_hidden_states_saved (N := Numeric_Z) ∅
           (MkLanguageModel (F := Z) DistilBert (JStr "distilbert-base-cased")
              (JStr "english") (Transformer (model example_distilbert)))
           (model example_distilbert) "B" (fun t => t)).
  - reflexivity.
  - reflexivity.
Defined.

(** ** Name and language of a model loaded in transformers format *)

Section HubFacts.
Context {F : Type} {N : Numeric F} {L : Library}.

Lemma transformers_load_hub (c : LMClass) (fs : gmap string (file weights)) (p : string)
    (language : jval) (kwargs : gmap string jval) (lm : @LanguageModel F L)
    (log : list log_record) :
  exists_file fs (path_join p "language_model_config.json") = false ->
  transformers_load c fs p language kwargs = (inr lm, log) ->
  lm_name lm = default (JStr p) (kwargs !! "farm_lm_name")
  /\ exists l, _get_or_infer_language_from_name language p = (inr (lm_language lm), l).
Proof.
  intros Hno. unfold transformers_load. cbv zeta. rewrite Hno. intros Hrun.
  apply bind_inr_inv in Hrun as ([config w] & l1 & l2 & _ & Hrun & _).
  apply bind_inr_inv in Hrun as (lang & l3 & l4 & Hlang & Hrun & _).
  injection Hrun as <- _. cbn. eauto.
Qed.

Lemma subclass_load_hub (c : LMClass) (fs : gmap string (file weights)) (p : string)
    (language : jval) (kwargs : gmap string jval) (lm : @LanguageModel F L)
    (log : list log_record) :
  exists_file fs (path_join p "language_model_config.json") = false ->
  subclass_load c fs p language kwargs = (inr lm, log) ->
  lm_name lm = default (JStr p) (kwargs !! "farm_lm_name")
  /\ exists l, _get_or_infer_language_from_name language p = (inr (lm_language lm), l).
Proof.
  intros Hno.
  destruct c; cbn [subclass_load];
    unfold Bert_load, Albert_load, Roberta_load, XLMRoberta_load,
           DistilBert_load, XLNet_load; intros Hrun.
  1-4: exact (transformers_load_hub _ _ _ _ _ _ _ Hno Hrun).
  1-2: apply bind_inr_inv in Hrun as (lm0 & l2 & l2' & Hload & Hret & _);
       injection Hret as <- _;
       match goal with
       | |- context [set_config ?attrs lm0] =>
           destruct (set_config_name attrs lm0) as [-> ->]
       end;
       exact (transformers_load_hub _ _ _ _ _ _ _ Hno Hload).
  apply WordEmbedding_LM_load_backbone in Hrun as [Hyes _]. congruence.
Qed.

(** What a returned model tells about the call of [load]: the [load] of its
    class returned a model, which it is, or of which it is the resized one. *)
Lemma load_inv (fs : gmap string (file weights)) (p : string) (n : Z)
    (cls : jval) (kwargs : gmap string jval) (lm : @LanguageModel F L)
    (log : list log_record) :
  load fs p n cls kwargs = (inr lm, log) ->
  exists language kw lm0 l0,
    subclass_load (lm_class lm) fs p language kw = (inr lm0, l0)
    /\ (lm0 = lm \/ exists n' l', resize_for_custom_vocab lm0 n' = (inr lm, l')).
Proof.
  intros Hrun.
  destruct (exists_file fs (path_join p "language_model_config.json")) eqn:Hfile.
  - destruct (load_class_farm _ _ _ _ _ _ _ Hfile Hrun)
      as (config & l1 & lm0 & l2 & _ & _ & Hload & _ & Hrest).
    exists JNull, ∅, lm0, l2. split; [exact Hload |].
    destruct (negb (n =? 0)%Z); [| left; exact Hrest].
    destruct (resize_for_custom_vocab lm0 n) as [r l] eqn:Hres. cbn in Hrest. subst r.
    right. eauto.
  - destruct (load_class_transformers _ _ _ _ _ _ _ Hfile Hrun)
      as (lm0 & l0 & _ & Hload & _ & Hrest).
    eexists _, _, lm0, l0. split; [exact Hload |]. cbv zeta in Hrest.
    destruct (negb (_ =? 0)%Z); [right; eauto | left; exact Hrest].
Qed.

Lemma resize_config_other (lm lm' : @LanguageModel F L) (n : Z) (log : list log_record)
    (key : string) :
  resize_for_custom_vocab lm n = (inr lm', log) ->
  key <> "vocab_size" ->
  lm_config lm' !! key = lm_config lm !! key.
Proof.
  unfold resize_for_custom_vocab, lm_config.
  destruct (lm_model lm) as [m | em] eqn:Hm; intros Hrun Hkey;
    apply bind_inr_inv in Hrun as ([] & l1 & l2 & _ & Hrun & _).
  - destruct (_ =? _)%Z; [| discriminate]. injection Hrun as <- _. cbn.
    apply lookup_insert_ne. congruence.
  - destruct (_ =? _)%Z; [| discriminate]. injection Hrun as <- _. rewrite Hm. reflexivity.
Qed.

End HubFacts.

(** X24.  In transformers format a language given by the caller is taken
    as it is, without a look at the name; called without the keyword
    argument [farm_lm_name], the model has the identifier as its name. *)
Theorem load_given_language {F : Type} {N : Numeric F} {L : Library}
    (fs : gmap string (file weights)) (p : string) (n : Z) (cls : jval)
    (kwargs : gmap string jval) (language : jval) (lm : @LanguageModel F L)
    (log : list log_record) :
  exists_file fs (path_join p "language_model_config.json") = false ->
  kwargs !! "language" = Some language ->
  language <> JNull ->
  kwargs !! "farm_lm_name" = None ->
  load fs p n cls kwargs = (inr lm, log) ->
  lm_language lm = language
  /\ lm_name lm = JStr p.
Proof.
  intros Hno Hkw Hlang Hfarm Hrun.
  destruct (load_class_transformers _ _ _ _ _ _ _ Hno Hrun)
    as (lm0 & l0 & _ & Hload & _ & Hrest).
  destruct (subclass_load_hub _ _ _ _ _ _ _ Hno Hload) as [Hname [l Hl]].
  rewrite Hkw in Hl. cbn [default] in Hl.
  rewrite lookup_delete_ne in Hname by discriminate.
  rewrite Hfarm in Hname. cbn [default] in Hname.
  assert (Hl0 : lm_language lm0 = language).
  { unfold _get_or_infer_language_from_name in Hl.
    destruct language; [congruence | | |]; cbv beta iota delta [id] in Hl; unfold ret in Hl;
      congruence. }
  cbv zeta in Hrest. destruct (negb (_ =? 0)%Z).
  - apply resize_keeps in Hrest as [-> ->]. auto.
  - subst lm0. auto.
Qed.

Lemma load_given_language_witness :
  exists lm log,
    load (N := Numeric_Z) (L := toy_library) ∅ "bert-german-english" 0 JNull
      {["language" := JStr "german"]} = (inr lm, log)
    /\ lm_language lm = JStr "german"
    /\ lm_name lm = JStr "bert-german-english".
Proof.
  destruct (load (N := Numeric_Z) (L := toy_library) ∅ "bert-german-english" 0 JNull
              {["language" := JStr "german"]}) as [[e | lm] log] eqn:Hrun;
    [vm_compute in Hrun; discriminate |].
  exists lm, log. split; [reflexivity |].
  apply (load_given_language (N := Numeric_Z) (L := toy_library) ∅ "bert-german-english" 0
           JNull {["language" := JStr "german"]} (JStr "german") lm log);
    [apply exists_file_empty | reflexivity | discriminate | reflexivity | exact Hrun].
Defined.

(** X25.  In transformers format an identifier that contains two of the
    known languages does not load without a language argument: the
    pretrained model is fetched, and then the language cannot be told. *)
Theorem load_ambiguous_language {F : Type} {N : Numeric F} {L : Library}
    (fs : gmap string (file weights)) (p : string) (n : Z)
    (kwargs : gmap string jval) (c : LMClass) (config : gmap string jval)
    (w : weights) (l1 l2 : string) :
  exists_file fs (path_join p "language_model_config.json") = false ->
  kwargs !! "language" = None ->
  first_match p = Some c ->
  c <> WordEmbedding_LM ->
  hub_from_pretrained c p kwargs = inr (config, w) ->
  In l1 known_languages -> In l2 known_languages -> l1 <> l2 ->
  contains l1 p = true -> contains l2 p = true ->
  exists msg, outcome (load (F := F) fs p n JNull kwargs) = inl (ValueError msg).
Proof.
  intros Hno Hkw Hfirst Hc Hhub H1 H2 Hne Hc1 Hc2.
  destruct (infer_language_two_matches p l1 l2 H1 H2 Hne Hc1 Hc2) as [msg Hinf].
  exists msg. rewrite (load_transformers_format _ _ _ _ _ Hno). cbv zeta.
  rewrite infer_first_match, Hfirst, subclasses_class_name, bind_ret_l.
  rewrite Hkw. cbn [default]. rewrite (delete_id _ _ Hkw).
  assert (Hload : forall c', c' = c ->
            transformers_load (F := F) c' fs p JNull kwargs = raise (ValueError msg)).
  { intros c' ->. unfold transformers_load. cbv zeta. rewrite Hno, Hhub.
    unfold lift. rewrite bind_inr_nil.
    unfold _get_or_infer_language_from_name. rewrite Hinf. reflexivity. }
  destruct c; cbn [subclass_load];
    unfold Bert_load, Albert_load, Roberta_load, XLMRoberta_load,
           DistilBert_load, XLNet_load;
    first [contradiction | rewrite (Hload _ eq_refl); reflexivity].
Qed.

Lemma load_ambiguous_language_witness :
  exists msg,
    outcome (load (N := Numeric_Z) (L := toy_library) ∅ "bert-german-english" 0 JNull ∅)
    = inl (ValueError msg).
Proof.
  apply (load_ambiguous_language (N := Numeric_Z) (L := toy_library) ∅
           "bert-german-english" 0 ∅ Bert {["vocab_size" := JNum 30522]} 30522%Z
           "german" "english").
  - apply exists_file_empty.
  - reflexivity.
  - vm_compute. reflexivity.
  - discriminate.
  - reflexivity.
  - cbn. tauto.
  - cbn. tauto.
  - discriminate.
  - vm_compute. reflexivity.
  - vm_compute. reflexivity.
Defined.

(** X26.  Whatever the pretrained or saved configuration holds, a DistilBert
    that [load] returns has the summary attributes of its pooler set to no
    dropout, the first token and tanh; growing the embeddings afterwards
    does not touch them. *)
Theorem load_sets_summary_attributes {F : Type} {N : Numeric F} {L : Library}
    (fs : gmap string (file weights)) (p : string) (n : Z) (cls : jval)
    (kwargs : gmap string jval) (lm : @LanguageModel F L) (log : list log_record) :
  load fs p n cls kwargs = (inr lm, log) ->
  lm_class lm = DistilBert ->
  lm_config lm !! "summary_last_dropout" = Some (JNum 0)
  /\ lm_config lm !! "summary_type" = Some (JStr "first")
  /\ lm_config lm !! "summary_activation" = Some (JStr "tanh").
Proof.
  intros Hrun Hc.
  destruct (load_inv _ _ _ _ _ _ _ Hrun) as (language & kw & lm0 & l0 & Hload & Hrest).
  assert (Hsame : forall key, key <> "vocab_size" ->
                    lm_config lm !! key = lm_config lm0 !! key).
  { intros key Hkey. destruct Hrest as [-> | (n' & l' & Hres)]; [reflexivity |].
    exact (resize_config_other _ _ _ _ _ Hres Hkey). }
  rewrite Hc in Hload. cbn [subclass_load] in Hload.
  unfold DistilBert_load in Hload.
  apply bind_inr_inv in Hload as (x & l1 & l2 & Hx & Hret & _).
  apply transformers_load_backbone in Hx as [_ [m Hm]].
  injection Hret as <- _.
  rewrite !Hsame by discriminate.
  unfold set_config, lm_config. rewrite Hm. cbn [lm_model hf_config fold_left].
  repeat split; lookup_inserts.
Qed.

Lemma load_sets_summary_attributes_witness :
  exists lm log,
    load (N := Numeric_Z) (L := toy_library) ∅ "distilbert-base-cased" 0 JNull ∅ = (inr lm, log)
    /\ lm_config lm !! "summary_type" = Some (JStr "first").
Proof.
  destruct (load (N := Numeric_Z) (L := toy_library) ∅ "distilbert-base-cased" 0 JNull ∅)
    as [[e | lm] log] eqn:Hrun; [vm_compute in Hrun; discriminate |].
  exists lm, log. split; [reflexivity |].
  destruct (load_sets_summary_attributes (N := Numeric_Z) (L := toy_library) ∅
              "distilbert-base-cased" 0 JNull ∅ lm log Hrun) as (_ & Hd & _);
    [| exact Hd].
  pose proof Hrun as Hrun'. vm_compute in Hrun'. injection Hrun' as <- _.
  reflexivity.
Defined.

(** X27.  The two reducing strategies need the padding mask: called with
    the default [padding_mask=None], [formatted_preds] ends in the attribute
    error of [None.cpu()] for every batch. *)
Theorem formatted_preds_reduce_needs_mask {F : Type} {N : Numeric F}
    (self : Extraction) (logits : @LMOutput F * list (@LMOutput F))
    (samples : list Sample) (ignore_first_token : bool) (layer : Z) (strategy : string) :
  extraction_layer self = Some layer ->
  extraction_strategy self = Some strategy ->
  strategy = "reduce_mean" \/ strategy = "reduce_max" ->
  formatted_preds self logits samples ignore_first_token None
  = raise (AttributeError "cpu").
Proof.
  intros Hl Hs Hstrategy. unfold formatted_preds. rewrite Hl, Hs. cbv zeta.
  destruct Hstrategy as [-> | ->]; reflexivity.
Qed.

Lemma formatted_preds_reduce_needs_mask_witness :
  formatted_preds (N := Numeric_Z) (MkExtraction (Some (-1)%Z) (Some "reduce_mean"))
    example_logits example_samples true None
  = raise (AttributeError "cpu").
Proof.
  apply (formatted_preds_reduce_needs_mask (N := Numeric_Z) _ _ _ _ (-1)%Z "reduce_mean");
    [reflexivity | reflexivity | left; reflexivity].
Defined.
